(** * ResumeAnalyzer: a shallow embedding of [utils/resume_analyzer.py]

    The development follows the Python module top-down:
    - [PyStr]: Python [str] values as sequences of code points, with the
      string methods and the regular expressions the analyzer uses;
    - [PyFloat]: the few binary64 operations behind the percentage scores;
    - [PyVal]: dynamically typed values and exceptions;
    - [Analyzer]: the methods of class [ResumeAnalyzer]: the facade
      [analyze_resume] with its four scorers and the suggestion rules, the
      stand-alone [calculate_keyword_match] and [check_resume_sections],
      and the section extractors [extract_education], [extract_experience]
      and [extract_projects];
    - [AnalyzerRest]: the other methods of the class: [check_formatting],
      [extract_summary], [extract_skills], [extract_personal_info],
      [detect_document_type] and the dispatch of [extract_text_from_file];
    - the properties of the analyzer, one section per group of methods.

    The readers of PDF and DOCX files call PyPDF2 and python-docx; what
    these libraries do with a file is a parameter of the dispatch. *)

From Stdlib Require Import String Ascii.
From Stdlib Require SpecFloat.
From stdpp Require Import base option list numbers.

Set Default Proof Using "Type".
#[local] Set Warnings "-register-all".
Local Open Scope Z_scope.

(** ** Python strings *)

(** A [str] is its sequence of Unicode code points. *)
Definition str := list N.

(** A literal of the source, read as its code points (the literals of the
    module that are used here are ASCII). *)
Definition py (s : string) : str := map N_of_ascii (list_ascii_of_string s).

(** What the interpreter's Unicode database decides for code points above
    127: case mapping (which for a few characters depends on the position
    in the string, so it receives the whole string and the index), the word
    characters of [\w] and the whitespace of [str.strip]. *)
Record Unicode := {
  uni_lower : str -> nat -> N -> str;
  uni_word : N -> bool;
  uni_space : N -> bool
}.

(** A table with no letters, digits or blanks above 127: every such code
    point is a caseless symbol, as are dashes and bullets. *)
Definition symbols_only : Unicode :=
  {| uni_lower := fun _ _ c => [c];
     uni_word := fun _ => false;
     uni_space := fun _ => false |}.

Module PyStr.

Definition is_ascii (c : N) : bool := (c <? 128)%N.

Definition in_range (lo hi c : N) : bool := ((lo <=? c) && (c <=? hi))%N.

Definition ascii_upper (c : N) : bool := in_range 65 90 c.
Definition ascii_lower (c : N) : bool := in_range 97 122 c.
Definition ascii_digit (c : N) : bool := in_range 48 57 c.

Definition ascii_to_lower (c : N) : N := if ascii_upper c then (c + 32)%N else c.

(** [len(s)] *)
Definition len (s : str) : Z := Z.of_nat (length s).

(** [s.startswith(sub)] *)
Fixpoint startswith (sub s : str) : bool :=
  match sub, s with
  | [], _ => true
  | a :: sub', c :: s' => (a =? c)%N && startswith sub' s'
  | _ :: _, [] => false
  end.

(** [sub in s] *)
Fixpoint contains (sub s : str) : bool :=
  startswith sub s ||
  match s with
  | [] => false
  | _ :: s' => contains sub s'
  end.

(** [s.split(sep)] for a one-character separator. *)
Fixpoint split (sep : N) (s : str) : list str :=
  match s with
  | [] => [[]]
  | c :: s' =>
      if (c =? sep)%N then [] :: split sep s'
      else match split sep s' with
           | [] => [[c]]
           | l :: ls => (c :: l) :: ls
           end
  end.

(** [sep.join(parts)] *)
Fixpoint join (sep : str) (parts : list str) : str :=
  match parts with
  | [] => []
  | [p] => p
  | p :: ps => p ++ sep ++ join sep ps
  end.

Section WithUnicode.
Context (U : Unicode).

(** [str.isspace] of one character. *)
Definition is_space (c : N) : bool :=
  if is_ascii c then in_range 9 13 c || in_range 28 32 c else uni_space U c.

(** [\w] of the [re] module on [str] patterns. *)
Definition is_word (c : N) : bool :=
  if is_ascii c
  then ascii_lower c || ascii_upper c || ascii_digit c || (c =? 95)%N
  else uni_word U c.

Fixpoint lower_at (whole : str) (i : nat) (s : str) : str :=
  match s with
  | [] => []
  | c :: s' =>
      (if is_ascii c then [ascii_to_lower c] else uni_lower U whole i c)
        ++ lower_at whole (S i) s'
  end.

(** [s.lower()] *)
Definition lower (s : str) : str := lower_at s 0 s.

Fixpoint lstrip (s : str) : str :=
  match s with
  | [] => []
  | c :: s' => if is_space c then lstrip s' else s
  end.

Definition rstrip (s : str) : str := rev (lstrip (rev s)).

(** [s.strip()] *)
Definition strip (s : str) : str := rstrip (lstrip s).

(** *** Regular expressions

    The fragment of [re] syntax that the module's patterns are written
    in. [re.search] is only ever used as a truth value, so the matcher
    answers whether some match exists; it backtracks through a
    continuation, which receives the character before the current
    position (for [\b]) and the rest of the subject. *)
Inductive regex :=
| Lit (w : str)              (* a literal, as [re.escape] produces *)
| Cls (p : N -> bool)        (* one character of a class *)
| Rep (p : N -> bool) (n : nat) (* [[...]{n,}] *)
| Bnd                        (* [\b] *)
| Cat (r1 r2 : regex)
| Alt (r1 r2 : regex).

(** [\b]: the characters on the two sides differ in being word
    characters; beyond either end counts as not a word character. *)
Definition boundary (prev : option N) (s : str) : bool :=
  xorb (from_option is_word false prev) (from_option is_word false (head s)).

Fixpoint match_lit (w : str) (prev : option N) (s : str)
    (k : option N -> str -> bool) : bool :=
  match w with
  | [] => k prev s
  | a :: w' =>
      match s with
      | c :: s' => (a =? c)%N && match_lit w' (Some c) s' k
      | [] => false
      end
  end.

Fixpoint match_rep (p : N -> bool) (s : str) (n : nat) (prev : option N)
    (k : option N -> str -> bool) : bool :=
  match n with
  | O => k prev s
  | S _ => false
  end ||
  match s with
  | c :: s' => p c && match_rep p s' (pred n) (Some c) k
  | [] => false
  end.

Fixpoint rmatch (r : regex) (prev : option N) (s : str)
    (k : option N -> str -> bool) : bool :=
  match r with
  | Lit w => match_lit w prev s k
  | Cls p =>
      match s with
      | c :: s' => p c && k (Some c) s'
      | [] => false
      end
  | Rep p n => match_rep p s n prev k
  | Bnd => boundary prev s && k prev s
  | Cat r1 r2 => rmatch r1 prev s (fun prev' s' => rmatch r2 prev' s' k)
  | Alt r1 r2 => rmatch r1 prev s k || rmatch r2 prev s k
  end.

Fixpoint search_from (r : regex) (prev : option N) (s : str) : bool :=
  rmatch r prev s (fun _ _ => true) ||
  match s with
  | [] => false
  | c :: s' => search_from r (Some c) s'
  end.

(** [bool(re.search(r, s))] *)
Definition re_search (r : regex) (s : str) : bool := search_from r None s.

Fixpoint alternatives (ws : list str) : regex :=
  match ws with
  | [] => Cls (fun _ => false)
  | [w] => Lit w
  | w :: ws' => Alt (Lit w) (alternatives ws')
  end.

(** [r'\b(w1|w2|...)\b'] *)
Definition whole_words (ws : list str) : regex :=
  Cat Bnd (Cat (alternatives ws) Bnd).
End WithUnicode.

End PyStr.

(** ** Floating point

    The percentage scores are computed as [(a / b) * 100] on Python
    floats, IEEE-754 binary64 numbers rounded to nearest, ties to even. A
    finite non-negative float is kept as a mantissa and a binary exponent;
    only the operations of the module are defined: true division of two
    ints, multiplication by an int, and truncation by [int]. *)
Module PyFloat.

Record float := Float { fm : Z; fe : Z }.  (* the number [fm * 2^fe] *)

Definition zero : float := Float 0 0.

(** [floor (log2 (p / q))] for positive [p] and [q]. *)
Definition ilog2 (p q : Z) : Z :=
  let d := Z.log2 p - Z.log2 q in
  if q * 2 ^ Z.max d 0 <=? p * 2 ^ Z.max (- d) 0 then d else d - 1.

(** The binary64 number nearest to [p / q], for [0 <= p] and [0 < q]: 53
    bits of mantissa, exponents from -1022 (below which the numbers are
    subnormal and the spacing stays that of exponent -1022). Overflow is
    left out: the quotients and products of the module are at most 100. *)
Definition round_ne (p q : Z) : float :=
  if p =? 0 then zero else
  let sh := 52 - Z.max (ilog2 p q) (-1022) in
  let num := p * 2 ^ Z.max sh 0 in
  let den := q * 2 ^ Z.max (- sh) 0 in
  let m := num / den in
  let r := num mod den in
  Float (if 2 * r <? den then m
         else if den <? 2 * r then m + 1
         else if Z.even m then m else m + 1)
        (- sh).

(** [a / b] on ints ([b] is not zero; the caller raises otherwise). *)
Definition truediv (a b : Z) : float := round_ne a b.

(** [x * k] for an int [k], which is converted exactly. *)
Definition mul_int (x : float) (k : Z) : float :=
  round_ne (fm x * k * 2 ^ Z.max (fe x) 0) (2 ^ Z.max (- fe x) 0).

(** [int(x)] *)
Definition to_int (x : float) : Z :=
  if 0 <=? fe x then fm x * 2 ^ fe x else fm x / 2 ^ (- fe x).

(** [x != 0.0], the truth value of a float. *)
Definition nonzero (x : float) : bool := negb (fm x =? 0).

(** [float(n)] for an int [0 <= n]. *)
Definition of_int (n : Z) : float := round_ne n 1.

(** [x + y] *)
Definition add (x y : float) : float :=
  let e := Z.min 0 (Z.min (fe x) (fe y)) in
  round_ne (fm x * 2 ^ (fe x - e) + fm y * 2 ^ (fe y - e)) (2 ^ (- e)).

(** [x < n] for an int [n]. *)
Definition lt_int (x : float) (n : Z) : bool :=
  fm x * 2 ^ Z.max (fe x) 0 <? n * 2 ^ Z.max (- fe x) 0.

(** A number: arithmetic on an int and a float converts the int. *)
Inductive num :=
| NInt (z : Z)
| NFloat (x : float).

Definition num_add (a b : num) : num :=
  match a, b with
  | NInt x, NInt y => NInt (x + y)
  | NInt x, NFloat y => NFloat (add (of_int x) y)
  | NFloat x, NInt y => NFloat (add x (of_int y))
  | NFloat x, NFloat y => NFloat (add x y)
  end.

(** [x <= n] for an int [n]. *)
Definition le_int (x : float) (n : Z) : Prop :=
  fm x * 2 ^ Z.max (fe x) 0 <= n * 2 ^ Z.max (- fe x) 0.

(** [int((a / b) * 100)], the percentage of the scorers. *)
Definition percent (a b : Z) : Z := to_int (mul_int (truediv a b) 100).

End PyFloat.

(** ** Values and exceptions

    The arguments of the analyzer are annotated [Dict[str, Any]]: what is
    stored under a key is not checked before it is used. The values are
    those a decoded JSON document is made of. *)
Module PyVal.
Import PyStr.

Inductive pyval :=
| VNone
| VBool (b : bool)
| VInt (z : Z)
| VFloat (x : PyFloat.float)
| VStr (s : str)
| VList (l : list pyval)
| VDict (d : list (str * pyval)).   (* keys in insertion order *)

(** [type(v).__name__] *)
Definition type_name (v : pyval) : str :=
  match v with
  | VNone => py "NoneType"
  | VBool _ => py "bool"
  | VInt _ => py "int"
  | VFloat _ => py "float"
  | VStr _ => py "str"
  | VList _ => py "list"
  | VDict _ => py "dict"
  end.

(** The exceptions the module can meet, each with [str(e)]. All of them
    derive from [Exception]. *)
Inductive exn :=
| AttributeError (msg : str)
| TypeError (msg : str)
| KeyError (msg : str)
| ZeroDivisionError (msg : str).

Definition exn_str (e : exn) : str :=
  match e with
  | AttributeError m | TypeError m | KeyError m | ZeroDivisionError m => m
  end.

(** The outcome of evaluating an expression or running a method. *)
Inductive res (A : Type) :=
| Ok (a : A)
| Raise (e : exn).
Arguments Ok {A} a.
Arguments Raise {A} e.

Definition bind {A B} (c : res A) (f : A -> res B) : res B :=
  match c with
  | Ok a => f a
  | Raise e => Raise e
  end.

Notation "'do' x <- c ; k" := (bind c (fun x => k))
  (at level 10, x name, c at level 100, k at level 200, only parsing).

(** [try: body  except Exception as e: handler(e)] *)
Definition try_except {A} (body : res A) (handler : exn -> res A) : res A :=
  match body with
  | Ok a => Ok a
  | Raise e => handler e
  end.

Definition no_attribute (ty attr : str) : exn :=
  AttributeError (py "'" ++ ty ++ py "' object has no attribute '" ++ attr ++ py "'").

(** [bool(v)] *)
Definition truthy (v : pyval) : bool :=
  match v with
  | VNone => false
  | VBool b => b
  | VInt z => negb (z =? 0)
  | VFloat x => PyFloat.nonzero x
  | VStr s => negb (bool_decide (s = []))
  | VList l => negb (bool_decide (length l = 0%nat))
  | VDict d => negb (bool_decide (length d = 0%nat))
  end.

(** [len(v)] *)
Definition py_len (v : pyval) : res Z :=
  match v with
  | VStr s => Ok (len s)
  | VList l => Ok (Z.of_nat (length l))
  | VDict d => Ok (Z.of_nat (length d))
  | _ => Raise (TypeError (py "object of type '" ++ type_name v ++ py "' has no len()"))
  end.

(** [iter(v)], run to the end. *)
Definition py_iter (v : pyval) : res (list pyval) :=
  match v with
  | VStr s => Ok (map (fun c => VStr [c]) s)
  | VList l => Ok l
  | VDict d => Ok (map (fun kv => VStr (fst kv)) d)
  | _ => Raise (TypeError (py "'" ++ type_name v ++ py "' object is not iterable"))
  end.

(** [d[k]] on the association list of a dict, [None] when [k] is absent. *)
Fixpoint assoc {A} (k : str) (d : list (str * A)) : option A :=
  match d with
  | [] => None
  | (k', v) :: d' => if bool_decide (k' = k) then Some v else assoc k d'
  end.

(** [v.get(k, dflt)] *)
Definition py_get (v : pyval) (k : str) (dflt : pyval) : res pyval :=
  match v with
  | VDict d => Ok (default dflt (assoc k d))
  | _ => Raise (no_attribute (type_name v) (py "get"))
  end.

(** [v.lower()] *)
Definition py_lower (U : Unicode) (v : pyval) : res str :=
  match v with
  | VStr s => Ok (lower U s)
  | _ => Raise (no_attribute (type_name v) (py "lower"))
  end.

(** [re.search(r, v)] as a truth value. The text of the [TypeError] is
    that of Python 3.11 and later. *)
Definition py_re_search (U : Unicode) (r : regex) (v : pyval) : res bool :=
  match v with
  | VStr s => Ok (re_search U r s)
  | _ => Raise (TypeError (py "expected string or bytes-like object, got '"
                             ++ type_name v ++ py "'"))
  end.

End PyVal.

(** ** class ResumeAnalyzer *)
Module Analyzer.
Import PyStr PyVal.

(** A keyword table: a dict from a name to a list of keywords. *)
Definition table := list (str * list str).

(** The instance attributes the methods read. An attribute that was never
    assigned is [None] here, and reading it raises [AttributeError]. *)
Record ResumeAnalyzer := {
  sections : option table;
  document_types : option table;
  essential_sections : option table
}.

(** [ResumeAnalyzer()]: the constructor assigns [self.sections] and
    nothing else. *)
Definition __init__ : ResumeAnalyzer :=
  {| sections := Some
       [ (py "education", map py ["education"; "academic"; "university"; "college"; "school"]%string);
         (py "experience", map py ["experience"; "employment"; "work"; "job"]%string);
         (py "skills", map py ["skills"; "technical skills"; "competencies"; "expertise"]%string);
         (py "projects", map py ["projects"; "portfolio"; "achievements"]%string);
         (py "summary", map py ["summary"; "profile"; "objective"; "about"]%string) ];
     document_types := None;
     essential_sections := None |}.

(** [self.<name>] *)
Definition getattr (name : string) (a : option table) : res table :=
  match a with
  | Some t => Ok t
  | None => Raise (no_attribute (py "ResumeAnalyzer") (py name))
  end.

(** [t[k]] *)
Definition getitem (t : table) (k : str) : res (list str) :=
  match assoc k t with
  | Some v => Ok v
  | None => Raise (KeyError (py "'" ++ k ++ py "'"))
  end.

Definition division_by_zero : exn := ZeroDivisionError (py "division by zero").

Section Methods.
Context (U : Unicode) (self : ResumeAnalyzer).

(** *** The scorers behind [analyze_resume] *)

Definition _calculate_ats_score (text : pyval) : res Z :=
  let score := 100 in
  do n <- py_len text;
  let score := if n <? 100 then score - 20 else score in
  do low <- py_lower U text;
  let score :=
    if negb (re_search U (whole_words (map py ["experience"; "education"; "skills"]%string)) low)
    then score - 15 else score in
  do non_ascii <- py_re_search U (Cls (fun c => negb (in_range 0 127 c))) text;
  let score := if non_ascii then score - 10 else score in
  Ok (Z.max 0 score).

Definition _calculate_format_score (text : pyval) : res Z :=
  let score := 100 in
  do breaks <- py_re_search U (Rep (N.eqb 10) 2) text;
  let score := if negb breaks then score - 10 else score in
  do capitalized <- py_re_search U (Cat (Cls ascii_upper) (Rep ascii_lower 1)) text;
  let score := if negb capitalized then score - 10 else score in
  Ok (Z.max 0 score).

(** [any(keyword in text.lower() for keyword in keywords)] *)
Fixpoint any_keyword_in (keywords : list str) (text : pyval) : res bool :=
  match keywords with
  | [] => Ok false
  | keyword :: rest =>
      do low <- py_lower U text;
      if contains keyword low then Ok true else any_keyword_in rest text
  end.

Fixpoint count_sections (values : list (list str)) (text : pyval)
    (found_sections : Z) : res Z :=
  match values with
  | [] => Ok found_sections
  | section_keywords :: rest =>
      do hit <- any_keyword_in section_keywords text;
      count_sections rest text
        (if hit then found_sections + 1 else found_sections)
  end.

Definition _calculate_section_score (text : pyval) : res Z :=
  do sections <- getattr "sections" (sections self);
  do found_sections <- count_sections (map snd sections) text 0;
  let n := Z.of_nat (length sections) in
  if n =? 0 then Raise division_by_zero
  else Ok (PyFloat.to_int (PyFloat.mul_int (PyFloat.truediv found_sections n) 100)).

(** The loop of [_analyze_keyword_match]; the two lists grow at the end. *)
Fixpoint match_skills (skills : list pyval) (text : pyval)
    (found_skills missing_skills : list pyval) : res (list pyval * list pyval) :=
  match skills with
  | [] => Ok (found_skills, missing_skills)
  | skill :: rest =>
      do pattern <- py_lower U skill;
      do low <- py_lower U text;
      if re_search U (Cat Bnd (Cat (Lit pattern) Bnd)) low
      then match_skills rest text (found_skills ++ [skill]) missing_skills
      else match_skills rest text found_skills (missing_skills ++ [skill])
  end.

Definition _analyze_keyword_match (text job_requirements : pyval) : res pyval :=
  if negb (truthy job_requirements)
  then Ok (VDict [(py "score", VInt 0); (py "missing_skills", VList [])])
  else
    do required_skills <- py_get job_requirements (py "required_skills") (VList []);
    do skills <- py_iter required_skills;
    do lists <- match_skills skills text [] [];
    let '(found_skills, missing_skills) := lists in
    do score <-
      (if truthy required_skills
       then do n <- py_len required_skills;
            if n =? 0 then Raise division_by_zero
            else Ok (PyFloat.percent (Z.of_nat (length found_skills)) n)
       else Ok 0);
    Ok (VDict [(py "score", VInt score);
               (py "found_skills", VList found_skills);
               (py "missing_skills", VList missing_skills)]).

Definition too_short : str :=
  py "Resume appears too short. Consider adding more details about your experience and skills.".
Definition no_experience : str :=
  py "No work experience section found. Add your professional experience.".
Definition no_education : str :=
  py "No education section found. Add your educational background.".
Definition no_skills : str :=
  py "No skills section found. List your technical and soft skills.".

Definition _generate_suggestions (text : pyval) : res (list str) :=
  let suggestions := [] in
  do n <- py_len text;
  let suggestions := if n <? 200 then suggestions ++ [too_short] else suggestions in
  do low <- py_lower U text;
  let suggestions :=
    if negb (re_search U (whole_words (map py ["experience"; "work"; "job"]%string)) low)
    then suggestions ++ [no_experience] else suggestions in
  do low <- py_lower U text;
  let suggestions :=
    if negb (re_search U (whole_words (map py ["education"; "university"; "college"; "school"]%string)) low)
    then suggestions ++ [no_education] else suggestions in
  do low <- py_lower U text;
  let suggestions :=
    if negb (re_search U (whole_words (map py ["skills"; "expertise"; "competencies"]%string)) low)
    then suggestions ++ [no_skills] else suggestions in
  Ok suggestions.

(** The body of the [try] statement of [analyze_resume]. *)
Definition analysis (resume_data job_requirements : pyval) : res pyval :=
  do text <- py_get resume_data (py "raw_text") (VStr []);
  if negb (truthy text)
  then Ok (VDict [(py "error", VStr (py "No text content found in resume"))])
  else
    do ats_score <- _calculate_ats_score text;
    do format_score <- _calculate_format_score text;
    do section_score <- _calculate_section_score text;
    do keyword_match <- _analyze_keyword_match text job_requirements;
    do suggestions <- _generate_suggestions text;
    Ok (VDict [(py "document_type", VStr (py "resume"));
               (py "ats_score", VInt ats_score);
               (py "format_score", VInt format_score);
               (py "section_score", VInt section_score);
               (py "keyword_match", keyword_match);
               (py "suggestions", VList (map VStr suggestions))]).

Definition analyze_resume (resume_data job_requirements : pyval) : res pyval :=
  try_except (analysis resume_data job_requirements)
    (fun e => Ok (VDict [(py "error",
                          VStr (py "Error analyzing resume: " ++ exn_str e))])).

(** *** The stand-alone scorers *)

Record keyword_match := {
  score : PyFloat.num;
  found_skills : list str;
  missing_skills : list str
}.

Fixpoint match_skills_partial (skills : list str) (resume_text : str)
    (found missing : list str) : list str * list str :=
  match skills with
  | [] => (found, missing)
  | skill :: rest =>
      let skill_lower := lower U skill in
      if contains skill_lower resume_text
      then match_skills_partial rest resume_text (found ++ [skill]) missing
      else if existsb (fun phrase => contains skill_lower phrase) (split 46 resume_text)
      then match_skills_partial rest resume_text (found ++ [skill]) missing
      else match_skills_partial rest resume_text found (missing ++ [skill])
  end.

Definition calculate_keyword_match (resume_text : str) (required_skills : list str)
    : keyword_match :=
  let resume_text := lower U resume_text in
  let '(found, missing) := match_skills_partial required_skills resume_text [] [] in
  let match_score :=
    if negb (bool_decide (length required_skills = 0%nat))
    then PyFloat.NFloat
           (PyFloat.mul_int
              (PyFloat.truediv (Z.of_nat (length found))
                               (Z.of_nat (length required_skills))) 100)
    else PyFloat.NInt 0 in
  {| score := match_score; found_skills := found; missing_skills := missing |}.

(** [min(25, (found / len(keywords)) * 25)] for each section, in the
    order of the table. *)
Fixpoint section_scores (entries : table) (text : str) : res (list PyFloat.num) :=
  match entries with
  | [] => Ok []
  | (_, keywords) :: rest =>
      let found := Z.of_nat (length (filter (fun keyword => contains keyword text = true) keywords)) in
      let n := Z.of_nat (length keywords) in
      if n =? 0 then Raise division_by_zero
      else
        let x := PyFloat.mul_int (PyFloat.truediv found n) 25 in
        let v := if PyFloat.lt_int x 25 then PyFloat.NFloat x else PyFloat.NInt 25 in
        do vs <- section_scores rest text;
        Ok (v :: vs)
  end.

Definition check_resume_sections (text : str) : res PyFloat.num :=
  let text := lower U text in
  do essential <- getattr "essential_sections" (essential_sections self);
  do vs <- section_scores essential text;
  Ok (fold_left PyFloat.num_add vs (PyFloat.NInt 0)).

(** *** The section extractors

    [extract_education], [extract_experience] and [extract_projects] are
    the same loop over the stripped lines of the text, each with its own
    keyword list; the loop is written once, over the list. *)
Record entry_state := {
  entries : list str;          (* [education], [experience], [projects] *)
  in_section : bool;
  current_entry : list str
}.

Section Loop.
Context (keywords : list str).

(** [any(keyword.lower() in line.lower() for keyword in ks)] *)
Definition any_in_line (ks : list str) (line : str) : bool :=
  existsb (fun keyword => contains (lower U keyword) (lower U line)) ks.

(** [any(keyword.lower() == line.lower() for keyword in ks)] *)
Definition any_is_line (ks : list str) (line : str) : bool :=
  existsb (fun keyword => bool_decide (lower U keyword = lower U line)) ks.

(** [entries.append(' '.join(current_entry)); current_entry = []] *)
Definition flush (st : entry_state) : entry_state :=
  {| entries := entries st ++ [join (py " ") (current_entry st)];
     in_section := in_section st;
     current_entry := [] |}.

Definition nonempty {A} (l : list A) : bool :=
  match l with [] => false | _ => true end.

(** One turn of the [for line in lines] loop. *)
Definition entry_step (st : entry_state) (line : str) : res entry_state :=
  let line := strip U line in
  if any_in_line keywords line then
    Ok {| entries := entries st;
          in_section := true;
          current_entry :=
            if negb (any_is_line keywords line)
            then current_entry st ++ [line] else current_entry st |}
  else if in_section st then
    do other <-
      (if nonempty line
       then do types <- getattr "document_types" (document_types self);
            do resume <- getitem types (py "resume");
            Ok (any_in_line resume line)
       else Ok false);
    if other && negb (any_in_line keywords line) then
      let st := {| entries := entries st; in_section := false;
                   current_entry := current_entry st |} in
      Ok (if nonempty (current_entry st) then flush st else st)
    else if nonempty line then
      Ok {| entries := entries st; in_section := in_section st;
            current_entry := current_entry st ++ [line] |}
    else if nonempty (current_entry st) then Ok (flush st)
    else Ok st
  else Ok st.

Fixpoint entry_loop (lines : list str) (st : entry_state) : res entry_state :=
  match lines with
  | [] => Ok st
  | line :: rest => do st' <- entry_step st line; entry_loop rest st'
  end.

Definition extract_entries (text : str) : res (list str) :=
  let lines := split 10 text in
  do st <- entry_loop lines
             {| entries := []; in_section := false; current_entry := [] |};
  Ok (entries (if nonempty (current_entry st) then flush st else st)).
End Loop.

Definition education_keywords : list str :=
  map py [ "education"; "academic"; "qualification"; "degree"; "university"; "college";
           "school"; "institute"; "certification"; "diploma"; "bachelor"; "master";
           "phd"; "b.tech"; "m.tech"; "b.e"; "m.e"; "b.sc"; "m.sc"; "bca"; "mca"; "b.com";
           "m.com"; "b.cs-it"; "imca"; "bba"; "mba"; "honors"; "scholarship" ]%string.

Definition experience_keywords : list str :=
  map py [ "experience"; "employment"; "work history"; "professional experience";
           "work experience"; "career history"; "professional background";
           "employment history"; "job history"; "positions held"; "experience";
           "job title"; "job responsibilities"; "job description"; "job summary" ]%string.

Definition project_keywords : list str :=
  map py [ "projects"; "personal projects"; "academic projects"; "key projects";
           "major projects"; "professional projects"; "project experience";
           "relevant projects"; "featured projects"; "latest projects";
           "top projects" ]%string.

Definition extract_education (text : str) : res (list str) :=
  extract_entries education_keywords text.

Definition extract_experience (text : str) : res (list str) :=
  extract_entries experience_keywords text.

Definition extract_projects (text : str) : res (list str) :=
  extract_entries project_keywords text.
End Methods.

End Analyzer.

(** ** class ResumeAnalyzer, the remaining methods

    [check_formatting], [extract_summary], [extract_skills], the dispatch
    of [extract_text_from_file], [extract_personal_info] and
    [detect_document_type]. *)

(** What the Unicode database decides for [str.isupper] and for [\d] on
    code points above 127. *)
Record UnicodeCase := {
  uni_islower : N -> bool;
  uni_isupper : N -> bool;
  uni_istitle : N -> bool;
  uni_isdigit : N -> bool
}.

(** No cased letters and no digits above 127. *)
Definition caseless : UnicodeCase :=
  {| uni_islower := fun _ => false;
     uni_isupper := fun _ => false;
     uni_istitle := fun _ => false;
     uni_isdigit := fun _ => false |}.

Module AnalyzerRest.
Import PyStr PyVal Analyzer.

Section Formatting.
Context (U : Unicode) (V : UnicodeCase).

Definition is_lower_char (c : N) : bool :=
  if is_ascii c then ascii_lower c else uni_islower V c.
Definition is_upper_char (c : N) : bool :=
  if is_ascii c then ascii_upper c else uni_isupper V c.
Definition is_title_char (c : N) : bool :=
  if is_ascii c then false else uni_istitle V c.

(** [\d] of the [re] module on [str] patterns. *)
Definition is_digit_char (c : N) : bool :=
  if is_ascii c then ascii_digit c else uni_isdigit V c.

Fixpoint isupper_from (s : str) (cased : bool) : bool :=
  match s with
  | [] => cased
  | c :: s' =>
      if is_lower_char c || is_title_char c then false
      else isupper_from s' (cased || is_upper_char c)
  end.

(** [s.isupper()]: no lower-case or title-case character and at least one
    upper-case one; a single character is looked up directly. *)
Definition isupper (s : str) : bool :=
  match s with
  | [c] => is_upper_char c
  | _ => isupper_from s false
  end.

(** The markers of [startswith(('...', '-', '*'))]: the first is the three
    characters U+00E2, U+20AC, U+00A2 of the source file. *)
Definition bullet_markers : list str := [[226; 8364; 162]%N; py "-"; py "*"].

(** [r'\b[\w\.-]+@[\w\.-]+\.\w+\b'] *)
Definition email_pattern : regex :=
  let name := fun c => is_word U c || (c =? 46)%N || (c =? 45)%N in
  Cat Bnd (Cat (Rep name 1) (Cat (Lit (py "@")) (Cat (Rep name 1)
    (Cat (Lit (py ".")) (Cat (Rep (is_word U) 1) Bnd))))).

(** [[-.]?] *)
Definition separator : regex :=
  Alt (Cls (fun c => (c =? 45)%N || (c =? 46)%N)) (Lit []).

Definition digits (n : nat) : regex :=
  Nat.iter n (fun r => Cat (Cls is_digit_char) r) (Lit []).

(** [r'\b\d{3}[-.]?\d{3}[-.]?\d{4}\b'] *)
Definition phone_pattern : regex :=
  Cat Bnd (Cat (digits 3) (Cat separator (Cat (digits 3) (Cat separator
    (Cat (digits 4) Bnd))))).

(** [r'linkedin\.com/\w+'] *)
Definition linkedin_pattern : regex :=
  Cat (Lit (py "linkedin.com/")) (Rep (is_word U) 1).

Definition contact_patterns : list regex :=
  [email_pattern; phone_pattern; linkedin_pattern].

Definition blank (line : str) : bool := len (strip U line) =? 0.

Definition short_resume : str := py "Resume is too short".
Definition no_headers : str := py "No clear section headers found".
Definition no_bullets : str := py "No bullet points found".
Definition uneven_spacing : str := py "Inconsistent spacing between sections".
Definition no_contact : str := py "Missing or improperly formatted contact information".

(** One [if cond: score -= weight; deductions.append(msg)]. *)
Definition deduct (cond : bool) (weight : Z) (msg : str) (acc : Z * list str)
    : Z * list str :=
  if cond then (fst acc - weight, snd acc ++ [msg]) else acc.

Definition check_formatting (text : str) : Z * list str :=
  let lines := split 10 text in
  let acc := (100, []) in
  let acc := deduct (len text <? 300) 30 short_resume acc in
  let acc := deduct (negb (existsb isupper lines)) 20 no_headers acc in
  let acc :=
    deduct (negb (existsb (fun line =>
                    existsb (fun marker => startswith marker (strip U line)) bullet_markers)
                  lines))
      20 no_bullets acc in
  let acc :=
    deduct (existsb (fun pair => blank (fst pair) && blank (snd pair))
              (combine (removelast lines) (tl lines)))
      15 uneven_spacing acc in
  let acc :=
    deduct (negb (existsb (fun pattern => re_search U pattern text) contact_patterns))
      15 no_contact acc in
  (Z.max 0 (fst acc), snd acc).
End Formatting.

Section Extractors.
Context (U : Unicode).

Definition summary_keywords : list str := map py ["experience"; "education"; "skills"]%string.

(** The loop of [extract_summary] over [lines[:5]]. *)
Fixpoint summary_loop (lines : list str) (summary : list str) : list str :=
  match lines with
  | [] => summary
  | line :: rest =>
      if nonempty (strip U line) &&
         negb (existsb (fun keyword => contains keyword (lower U line)) summary_keywords)
      then summary_loop rest (summary ++ [strip U line])
      else summary_loop rest summary
  end.

Definition extract_summary (text : str) : str :=
  let lines := split 10 text in
  join (py " ") (summary_loop (take 5 lines) []).

Definition skills_stop : list str := map py ["experience"; "education"; "work"]%string.

(** The loop of [extract_skills]; [skills] lists what has been added to
    the set so far, in the order of the additions. The [break] ends it. *)
Fixpoint skills_loop (lines : list str) (in_skills_section : bool) (skills : list str)
    : list str :=
  match lines with
  | [] => skills
  | line :: rest =>
      let line := lower U (strip U line) in
      if contains (py "skills") line then skills_loop rest true skills
      else if in_skills_section then
        if existsb (fun section => contains section line) skills_stop then skills
        else
          let potential_skills := map (strip U) (split 44 line) in
          skills_loop rest in_skills_section
            (skills ++ List.filter (fun s => 2 <? len s) potential_skills)
      else skills_loop rest in_skills_section skills
  end.

(** What [extract_skills] adds to its set. *)
Definition skill_tokens (text : str) : list str :=
  skills_loop (split 10 text) false [].

(** [extract_skills] returns [list(skills)]: the members of the set, each
    once, in an order that the interpreter chooses. *)
Definition extract_skills (text : str) (result : list str) : Prop :=
  NoDup result /\ forall s, s ∈ result <-> s ∈ skill_tokens text.
End Extractors.

(** [extract_text_from_file]. The two readers call PyPDF2 and python-docx;
    a reader is given by what the library does with the file: it yields
    the text, or it raises an exception [e], of which [str(e)] is kept. *)
Inductive extraction :=
| Extracted (text : str)
| Exception (msg : str).    (* [raise Exception(msg)] *)

Section Files.
Context (U : Unicode) {File : Type} (pdf_library docx_library : File -> str + str).

Definition extract_text_from_pdf (file : File) : extraction :=
  match pdf_library file with
  | inl text => Extracted text
  | inr e => Exception (py "Error extracting text from PDF: " ++ e)
  end.

Definition extract_text_from_docx (file : File) : extraction :=
  match docx_library file with
  | inl text => Extracted text
  | inr e => Exception (py "Error extracting text from DOCX: " ++ e)
  end.

Definition extract_text_from_file (file : File) (file_type : str) : extraction :=
  let attempt :=
    if bool_decide (lower U file_type = py "pdf") then extract_text_from_pdf file
    else if bool_decide (lower U file_type ∈ [py "docx"; py "doc"])
         then extract_text_from_docx file
    else Exception (py "Unsupported file type: " ++ file_type) in
  match attempt with
  | Extracted text => Extracted text
  | Exception e => Exception (py "Error extracting text from file: " ++ e)
  end.
End Files.

(** [extract_personal_info] returns what its three patterns match first,
    so the patterns are matched for the text of the match: the matcher
    tries the alternatives in the order of [re], a repetition or an
    optional part at its longest first, and [search] takes the leftmost
    start. The continuation receives the rest of the subject. *)
Inductive pattern :=
| PLit (w : str)
| PRep (p : N -> bool) (lo : nat) (hi : option nat)   (* [[...]{lo,hi}] *)
| PCat (r1 r2 : pattern)
| POpt (r : pattern).                                 (* [(...)?] *)

Fixpoint strip_prefix (w s : str) : option str :=
  match w, s with
  | [], _ => Some s
  | a :: w', c :: s' => if (a =? c)%N then strip_prefix w' s' else None
  | _ :: _, [] => None
  end.

Definition may_take (hi : option nat) : bool :=
  match hi with
  | Some O => false
  | _ => true
  end.

Fixpoint match_greedy (p : N -> bool) (s : str) (lo : nat) (hi : option nat)
    (k : str -> option str) : option str :=
  let stop := match lo with O => k s | S _ => None end in
  match s with
  | c :: s' =>
      if p c && may_take hi then
        match match_greedy p s' (pred lo) (option_map pred hi) k with
        | Some rest => Some rest
        | None => stop
        end
      else stop
  | [] => stop
  end.

Fixpoint pmatch (r : pattern) (s : str) (k : str -> option str) : option str :=
  match r with
  | PLit w =>
      match strip_prefix w s with
      | Some rest => k rest
      | None => None
      end
  | PRep p lo hi => match_greedy p s lo hi k
  | PCat r1 r2 => pmatch r1 s (fun rest => pmatch r2 rest k)
  | POpt r' =>
      match pmatch r' s k with
      | Some rest => Some rest
      | None => k s
      end
  end.

(** [re.search(r, s).group(0)], or [None]. *)
Fixpoint psearch (r : pattern) (s : str) : option str :=
  match pmatch r s Some with
  | Some rest => Some (take (length s - length rest) s)
  | None =>
      match s with
      | [] => None
      | _ :: s' => psearch r s'
      end
  end.

Section PersonalInfo.
Context (U : Unicode) (V : UnicodeCase).

Definition name_char (c : N) : bool := is_word U c || (c =? 46)%N || (c =? 45)%N.
Definition punct_char (c : N) : bool := (c =? 45)%N || (c =? 46)%N.
Definition slug_char (c : N) : bool := is_word U c || (c =? 45)%N.

Definition many (p : N -> bool) : pattern := PRep p 1 None.       (* [+] *)
Definition any (p : N -> bool) : pattern := PRep p 0 None.        (* [*] *)
Definition maybe (p : N -> bool) : pattern := PRep p 0 (Some 1%nat).  (* [?] *)
Definition exactly (n : nat) (p : N -> bool) : pattern := PRep p n (Some n).

(** [r'[\w\.-]+@[\w\.-]+\.\w+'] *)
Definition email_re : pattern :=
  PCat (many name_char) (PCat (PLit (py "@")) (PCat (many name_char)
    (PCat (PLit (py ".")) (many (is_word U))))).

(** [r'(\+\d{1,3}[-.]?)?\s*\(?\d{3}\)?[-.]?\s*\d{3}[-.]?\s*\d{4}'] *)
Definition phone_re : pattern :=
  PCat (POpt (PCat (PLit (py "+"))
                (PCat (PRep (is_digit_char V) 1 (Some 3%nat)) (maybe punct_char))))
    (PCat (any (is_space U)) (PCat (maybe (N.eqb 40))
      (PCat (exactly 3 (is_digit_char V)) (PCat (maybe (N.eqb 41))
        (PCat (maybe punct_char) (PCat (any (is_space U))
          (PCat (exactly 3 (is_digit_char V)) (PCat (maybe punct_char)
            (PCat (any (is_space U)) (exactly 4 (is_digit_char V))))))))))).

(** [r'linkedin\.com/in/[\w-]+'] *)
Definition linkedin_re : pattern :=
  PCat (PLit (py "linkedin.com/in/")) (many slug_char).

Record personal_info := {
  email : str;
  phone : str;
  linkedin : str
}.

Definition extract_personal_info (text : str) : personal_info :=
  {| email := default [] (psearch email_re text);
     phone := default [] (psearch phone_re text);
     linkedin := default [] (psearch linkedin_re text) |}.
End PersonalInfo.

(** [detect_document_type] multiplies and compares floats. *)

(** [x * y] *)
Definition float_mul (x y : PyFloat.float) : PyFloat.float :=
  let e := PyFloat.fe x + PyFloat.fe y in
  PyFloat.round_ne (PyFloat.fm x * PyFloat.fm y * 2 ^ Z.max e 0) (2 ^ Z.max (- e) 0).

(** [x > y] *)
Definition float_gt (x y : PyFloat.float) : bool :=
  let e := Z.min (PyFloat.fe x) (PyFloat.fe y) in
  PyFloat.fm y * 2 ^ (PyFloat.fe y - e) <? PyFloat.fm x * 2 ^ (PyFloat.fe x - e).

(** The float that a decimal literal [p / q] denotes. *)
Definition literal (p q : Z) : PyFloat.float := PyFloat.round_ne p q.

(** [len(s.split())]: the number of runs of characters that are not white
    space; [in_word] tells that the character before belongs to a run. *)
Fixpoint count_words (U : Unicode) (s : str) (in_word : bool) : nat :=
  match s with
  | [] => O
  | c :: s' =>
      if is_space U c then count_words U s' false
      else if in_word then count_words U s' true
      else S (count_words U s' true)
  end.

(** [d[k] = v] on a dict in insertion order. *)
Fixpoint set_item {A} (k : str) (v : A) (d : list (str * A)) : list (str * A) :=
  match d with
  | [] => [(k, v)]
  | (k', v') :: d' =>
      if bool_decide (k' = k) then (k, v) :: d' else (k', v') :: set_item k v d'
  end.

(** [max(items, key=lambda x: x[1])] after the first item: a later item
    replaces the best one only if its score is greater. *)
Fixpoint max_by_score (best : str * PyFloat.float) (items : list (str * PyFloat.float))
    : str * PyFloat.float :=
  match items with
  | [] => best
  | item :: rest =>
      max_by_score (if float_gt (snd item) (snd best) then item else best) rest
  end.

(** What a call of [detect_document_type] comes to. [max] of no item
    raises [ValueError], with a text that depends on the interpreter. *)
Inductive detection :=
| Returns (doc_type : str)
| Raises (e : exn)
| RaisesValueError.

Section DocumentType.
Context (U : Unicode) (self : ResumeAnalyzer).

(** The body of the loop: the score of one document type. *)
Definition type_score (text : str) (keywords : list str) : res PyFloat.float :=
  let matches :=
    Z.of_nat (length (List.filter (fun keyword => contains keyword text) keywords)) in
  let n := Z.of_nat (length keywords) in
  if n =? 0 then Raise division_by_zero
  else
    let density := PyFloat.truediv matches n in
    let frequency := PyFloat.truediv matches (Z.of_nat (count_words U text false) + 1) in
    Ok (PyFloat.add (float_mul density (literal 7 10)) (float_mul frequency (literal 3 10))).

Fixpoint type_scores (types : table) (text : str) (scores : list (str * PyFloat.float))
    : res (list (str * PyFloat.float)) :=
  match types with
  | [] => Ok scores
  | (doc_type, keywords) :: rest =>
      do score <- type_score text keywords;
      type_scores rest text (set_item doc_type score scores)
  end.

Definition detect_document_type (text : str) : detection :=
  let text := lower U text in
  match getattr "document_types" (document_types self) with
  | Raise e => Raises e
  | Ok types =>
      match type_scores types text [] with
      | Raise e => Raises e
      | Ok [] => RaisesValueError
      | Ok (first :: rest) =>
          let best_match := max_by_score first rest in
          Returns (if float_gt (snd best_match) (literal 15 100)
                   then fst best_match else py "unknown")
      end
  end.
End DocumentType.

End AnalyzerRest.

(** * Properties *)

(** ** Rounding keeps the percentages between 0 and 100 *)
Module PyFloatFacts.
Import PyFloat.

Lemma pow2_pos (e : Z) : 0 < 2 ^ Z.max e 0.
Proof. apply Z.pow_pos_nonneg; lia. Qed.

Lemma round_ne_nonneg (p q : Z) : 0 <= p -> 0 < q -> 0 <= fm (round_ne p q).
Proof.
  intros Hp Hq. unfold round_ne.
  destruct (p =? 0); [simpl; lia |]. cbv zeta. cbn [fm].
  set (sh := 52 - Z.max (ilog2 p q) (-1022)).
  pose proof (pow2_pos sh) as H1. pose proof (pow2_pos (- sh)) as H2.
  assert (0 <= p * 2 ^ Z.max sh 0 / (q * 2 ^ Z.max (- sh) 0)) by (apply Z.div_pos; nia).
  repeat case_match; lia.
Qed.

(** The exponent of a quotient that is at most [n] is at most that of [n]. *)
Lemma ilog2_le (p q n : Z) :
  0 < p -> 0 < q -> 0 < n -> p <= n * q -> ilog2 p q <= Z.log2 n.
Proof.
  intros Hp Hq Hn Hle. unfold ilog2.
  assert (Z.log2 p <= Z.log2 n + Z.log2 q + 1) as Hd.
  { etrans; [apply Z.log2_le_mono, Hle |]. apply Z.log2_mul_above; lia. }
  destruct (decide (Z.log2 p - Z.log2 q <= Z.log2 n)) as [Hsmall | Hbig].
  { case_match; lia. }
  assert (Z.log2 p - Z.log2 q = Z.log2 n + 1) as -> by lia.
  pose proof (Z.log2_nonneg n) as Hl.
  rewrite Z.max_l, Z.max_r by lia.
  destruct (Z.log2_spec n Hn) as [_ Hlt].
  replace (Z.succ (Z.log2 n)) with (Z.log2 n + 1) in Hlt by lia.
  case_match eqn:Htest; [| lia].
  apply Z.leb_le in Htest. nia.
Qed.

(** Rounding is monotone against an integer bound that is itself a float. *)
Lemma round_ne_le_int (p q n : Z) :
  0 <= p -> 0 < q -> 0 < n < 2 ^ 53 -> p <= n * q -> le_int (round_ne p q) n.
Proof.
  intros Hp Hq Hn Hle. unfold round_ne.
  destruct (p =? 0) eqn:Hp0.
  { unfold le_int, zero; simpl. lia. }
  apply Z.eqb_neq in Hp0. cbv zeta.
  assert (Z.log2 n < 53) as Hlog by (apply Z.log2_lt_pow2; lia).
  pose proof (ilog2_le p q n ltac:(lia) Hq ltac:(lia) Hle) as He.
  set (sh := 52 - Z.max (ilog2 p q) (-1022)).
  assert (0 <= sh) as Hsh by (unfold sh; lia).
  unfold le_int; cbn [fm fe].
  rewrite (Z.max_l sh 0), (Z.max_r (- sh) 0), (Z.max_l (- - sh) 0), Z.pow_0_r by lia.
  rewrite !Z.mul_1_r, Z.opp_involutive.
  assert (0 < 2 ^ sh) as Hpow by (apply Z.pow_pos_nonneg; lia).
  set (num := p * 2 ^ sh).
  assert (num <= n * 2 ^ sh * q) as Hnum by (unfold num; nia).
  pose proof (Z.div_mod num q ltac:(lia)) as Hdm.
  pose proof (Z.mod_pos_bound num q Hq) as Hr.
  assert (num / q <= n * 2 ^ sh) as Hm.
  { apply Z.div_le_upper_bound; [lia | nia]. }
  repeat case_match; try lia.
  all: destruct (decide (num / q = n * 2 ^ sh)) as [Heq | Hne]; [| lia].
  all: assert (num `mod` q = 0) by nia.
  all: lia.
Qed.

(** [int((a / b) * 100)] of a part [a] of a whole [b]. *)
Lemma percent_bounds (a b : Z) : 0 <= a <= b -> 0 < b -> 0 <= percent a b <= 100.
Proof.
  intros Hab Hb. unfold percent, truediv.
  pose proof (round_ne_nonneg a b ltac:(lia) Hb) as Hx0.
  pose proof (round_ne_le_int a b 1 ltac:(lia) Hb ltac:(lia) ltac:(lia)) as Hx1.
  set (x := round_ne a b) in *. unfold le_int in Hx1.
  pose proof (pow2_pos (fe x)) as Hp1. pose proof (pow2_pos (- fe x)) as Hp2.
  unfold mul_int.
  assert (0 <= fm x * 100 * 2 ^ Z.max (fe x) 0) as Hy0 by nia.
  pose proof (round_ne_nonneg _ _ Hy0 Hp2) as Hz0.
  pose proof (round_ne_le_int _ _ 100 Hy0 Hp2 ltac:(lia) ltac:(nia)) as Hz1.
  set (y := round_ne (fm x * 100 * 2 ^ Z.max (fe x) 0) (2 ^ Z.max (- fe x) 0)) in *.
  unfold le_int in Hz1. unfold to_int.
  destruct (0 <=? fe y) eqn:Hfe.
  - apply Z.leb_le in Hfe.
    rewrite (Z.max_l (fe y) 0), (Z.max_r (- fe y) 0) in Hz1 by lia.
    assert (0 < 2 ^ fe y) by (apply Z.pow_pos_nonneg; lia). nia.
  - apply Z.leb_gt in Hfe.
    rewrite (Z.max_r (fe y) 0), (Z.max_l (- fe y) 0) in Hz1 by lia.
    assert (0 < 2 ^ (- fe y)) by (apply Z.pow_pos_nonneg; lia).
    split; [apply Z.div_pos; lia |].
    apply Z.div_le_upper_bound; lia.
Qed.

End PyFloatFacts.

(** ** The rounding against the Standard Library's binary64

    [SpecFloat] specifies the IEEE-754 operations; on operands that are
    floats themselves, the division and the multiplication above give the
    numbers it gives. *)
Module PyFloatCheck.
Import PyFloat.

Definition b64 (z : Z) : SpecFloat.spec_float :=
  SpecFloat.binary_normalize 53 1024 z 0 false.

Definition same_value (x : float) (y : SpecFloat.spec_float) : bool :=
  match y with
  | SpecFloat.S754_zero _ => fm x =? 0
  | SpecFloat.S754_finite false m e =>
      let k := Z.min (fe x) e in
      fm x * 2 ^ (fe x - k) =? Z.pos m * 2 ^ (e - k)
  | _ => false
  end.

(** [a / b] and [(a / b) * 100], both ways. *)
Definition agree (a b : Z) : bool :=
  let q := SpecFloat.SFdiv 53 1024 (b64 a) (b64 b) in
  same_value (truediv a b) q &&
  same_value (mul_int (truediv a b) 100) (SpecFloat.SFmul 53 1024 q (b64 100)).

Example percent_agrees_with_binary64 :
  forallb (fun t => forallb (fun a => agree (Z.of_nat a) (Z.of_nat t)) (seq 0 (S t)))
    (seq 1 64) = true /\
  forallb (fun ab => agree (fst ab) (snd ab))
    [(57, 100); (29, 100); (3, 2 ^ 53 - 1); (2 ^ 53 - 1, 2 ^ 53 + 2);
     (1, 3 * 2 ^ 1022); (5, 7 * 2 ^ 1021); (1, 2 ^ 1023)] = true.
Proof. split; vm_compute; reflexivity. Qed.

Example sum_agrees_with_binary64 :
  same_value (add (mul_int (truediv 1 3) 25) (of_int 25))
    (SpecFloat.SFadd 53 1024
       (SpecFloat.SFmul 53 1024 (SpecFloat.SFdiv 53 1024 (b64 1) (b64 3)) (b64 25))
       (b64 25)) = true.
Proof. vm_compute. reflexivity. Qed.

End PyFloatCheck.

(** ** What the string tests and the patterns decide *)
Module PyStrFacts.
Import PyStr.

(** The character before the position reached after reading [l]. *)
Fixpoint last_or (prev : option N) (l : str) : option N :=
  match l with
  | [] => prev
  | c :: l' => last_or (Some c) l'
  end.

Lemma last_or_app (prev : option N) (a b : str) :
  last_or prev (a ++ b) = last_or (last_or prev a) b.
Proof. revert prev; induction a as [| c a IH]; intros prev; simpl; [done | apply IH]. Qed.

Lemma last_or_last (prev : option N) (l : str) :
  last_or prev l = match list.last l with Some c => Some c | None => prev end.
Proof.
  revert prev; induction l as [| c l IH]; intros prev; [done |].
  simpl. rewrite IH. destruct l as [| n l]; [done |].
  change (list.last (c :: n :: l)) with (list.last (n :: l)).
  destruct (list.last (n :: l)) eqn:E; [done |].
  apply last_None in E. discriminate.
Qed.

Lemma last_or_None (l : str) : last_or None l = list.last l.
Proof. rewrite last_or_last. by destruct (list.last l). Qed.

Lemma startswith_spec (sub s : str) :
  startswith sub s = true <-> exists post, s = sub ++ post.
Proof.
  revert s; induction sub as [| a sub IH]; intros s; simpl.
  { split; [eauto | done]. }
  destruct s as [| c s].
  { split; [done | intros [post H]; discriminate]. }
  rewrite andb_true_iff, N.eqb_eq, IH. split.
  - intros [-> [post ->]]. eauto.
  - intros [post H]. injection H as -> ->. eauto.
Qed.

(** [sub in s]: [sub] is a contiguous part of [s]. *)
Lemma contains_spec (sub s : str) :
  contains sub s = true <-> exists pre post, s = pre ++ sub ++ post.
Proof.
  induction s as [| c s IH]; simpl.
  - rewrite orb_false_r, startswith_spec. split.
    + intros [post H]. exists [], post. done.
    + intros (pre & post & H). destruct pre; simpl in H; [eauto | discriminate].
  - rewrite orb_true_iff, startswith_spec, IH. split.
    + intros [[post H] | (pre & post & H)].
      * exists [], post. done.
      * exists (c :: pre), post. by rewrite H.
    + intros (pre & post & H). destruct pre as [| c' pre]; simpl in H.
      * left. eauto.
      * right. injection H as -> ->. eauto.
Qed.

Section WithUnicode.
Context (U : Unicode).

Lemma match_lit_spec (w : str) (prev : option N) (s : str) k :
  match_lit w prev s k = true <->
  exists post, s = w ++ post /\ k (last_or prev w) post = true.
Proof.
  revert prev s; induction w as [| a w IH]; intros prev s; simpl.
  { split; [eauto | by intros (post & -> & H)]. }
  destruct s as [| c s].
  { split; [done | intros (post & H & _); discriminate]. }
  rewrite andb_true_iff, N.eqb_eq, IH. split.
  - intros [-> (post & -> & H)]. eauto.
  - intros (post & H & Hk). injection H as -> ->. eauto.
Qed.

Lemma search_from_spec (r : regex) (prev : option N) (s : str) :
  search_from U r prev s = true <->
  exists pre post, s = pre ++ post /\
    rmatch U r (last_or prev pre) post (fun _ _ => true) = true.
Proof.
  revert prev; induction s as [| c s IH]; intros prev; simpl.
  - rewrite orb_false_r. split.
    + intros H. exists [], []. done.
    + intros (pre & post & H & Hm).
      symmetry in H. apply app_eq_nil in H as [-> ->]. done.
  - rewrite orb_true_iff, IH. split.
    + intros [H | (pre & post & -> & H)].
      * exists [], (c :: s). done.
      * exists (c :: pre), post. done.
    + intros (pre & post & H & Hm). destruct pre as [| c' pre]; simpl in *.
      * left. by subst post.
      * right. injection H as -> ->. eauto.
Qed.

Lemma alternatives_spec (ws : list str) (prev : option N) (s : str) k :
  rmatch U (alternatives ws) prev s k = true <->
  exists w, w ∈ ws /\ match_lit w prev s k = true.
Proof.
  induction ws as [| w ws IH].
  { simpl. split; [by destruct s | intros (w & H & _); inversion H]. }
  destruct ws as [| w' ws].
  { simpl. split.
    - intros H. exists w. split; [left | done].
    - intros (w0 & H & Hm). apply list_elem_of_singleton in H as ->. done. }
  change (rmatch U (alternatives (w :: w' :: ws)) prev s k)
    with (match_lit w prev s k || rmatch U (alternatives (w' :: ws)) prev s k).
  rewrite orb_true_iff, IH. split.
  - intros [H | (w0 & H & Hm)].
    + exists w. split; [left | done].
    + exists w0. split; [by right | done].
  - intros (w0 & H & Hm). apply elem_of_cons in H as [-> | H]; [by left |].
    right. eauto.
Qed.

(** [w] occurs in [t] with a word boundary ([\b]) on either side. *)
Definition word_bounded (w t : str) : Prop :=
  exists pre post, t = pre ++ w ++ post /\
    boundary U (list.last pre) (w ++ post) = true /\
    boundary U (list.last (pre ++ w)) post = true.

(** [r'\b' + re.escape(w) + r'\b'] *)
Lemma bounded_literal_spec (w t : str) :
  re_search U (Cat Bnd (Cat (Lit w) Bnd)) t = true <-> word_bounded w t.
Proof.
  unfold re_search, word_bounded. rewrite search_from_spec. split.
  - intros (pre & post & -> & H). simpl in H.
    apply andb_true_iff in H as [Hb H].
    apply match_lit_spec in H as (post' & -> & H).
    rewrite andb_true_r in H.
    exists pre, post'. rewrite <- !last_or_None, last_or_app. done.
  - intros (pre & post & -> & H1 & H2). exists pre, (w ++ post).
    split; [done |]. simpl. rewrite last_or_None, H1. simpl.
    apply match_lit_spec. exists post. split; [done |].
    rewrite andb_true_r, <- (last_or_None pre), <- last_or_app, last_or_None. done.
Qed.

(** [r'\b(w1|w2|...)\b'] *)
Lemma whole_words_spec (ws : list str) (t : str) :
  re_search U (whole_words ws) t = true <->
  exists w, w ∈ ws /\ word_bounded w t.
Proof.
  unfold re_search, whole_words, word_bounded. rewrite search_from_spec. split.
  - intros (pre & post & -> & H). simpl in H.
    apply andb_true_iff in H as [Hb H].
    apply alternatives_spec in H as (w & Hw & H).
    apply match_lit_spec in H as (post' & -> & H).
    rewrite andb_true_r in H.
    exists w. split; [done |].
    exists pre, post'. rewrite <- !last_or_None, last_or_app. done.
  - intros (w & Hw & pre & post & -> & H1 & H2). exists pre, (w ++ post).
    split; [done |]. simpl. rewrite last_or_None, H1. simpl.
    apply alternatives_spec. exists w. split; [done |].
    apply match_lit_spec. exists post. split; [done |].
    rewrite andb_true_r, <- (last_or_None pre), <- last_or_app, last_or_None. done.
Qed.

(** A one-character class is found exactly when some character is in it. *)
Lemma class_search_spec (p : N -> bool) (t : str) :
  re_search U (Cls p) t = true <-> exists c, c ∈ t /\ p c = true.
Proof.
  unfold re_search. rewrite search_from_spec. split.
  - intros (pre & post & -> & H). simpl in H. destruct post as [| c post]; [done |].
    rewrite andb_true_r in H. exists c. split; [| done].
    apply elem_of_app. right. left.
  - intros (c & Hc & Hp). apply list_elem_of_split in Hc as (pre & post & ->).
    exists pre, (c :: post). split; [done |]. simpl. by rewrite Hp.
Qed.
End WithUnicode.

End PyStrFacts.

Import PyStr PyVal Analyzer PyStrFacts.

(** ** Whole words

    The patterns of the scorers name lower-case words between two [\b].
    For a word that begins and ends with a letter this is the usual
    notion: the word occurs with no word character next to it. *)
Section WholeWords.
Context (U : Unicode).

Definition not_word (o : option N) : Prop :=
  from_option (is_word U) false o = false.

(** [w] appears in [t] as a whole word. *)
Definition whole_word (w t : str) : Prop :=
  exists pre post, t = pre ++ w ++ post /\
    not_word (list.last pre) /\ not_word (head post).

(** Some word of [ws] appears in the text as a whole word, whatever
    the case of the letters of the text. *)
Definition mentions_word (ws : list str) (text : str) : Prop :=
  exists w, w ∈ ws /\ whole_word w (lower U text).

Definition lettered (w : str) : Prop :=
  from_option (is_word U) false (head w) = true /\
  from_option (is_word U) false (list.last w) = true.

Lemma word_bounded_whole_word (w t : str) :
  lettered w -> word_bounded U w t <-> whole_word w t.
Proof.
  intros [Hh Hl]. unfold word_bounded, whole_word, not_word, boundary.
  assert (w <> []) as Hw by (intros ->; discriminate).
  split; intros (pre & post & -> & H1 & H2); exists pre, post; (split; [done |]).
  - destruct w as [| a w]; [done |]. simpl in Hh, H1.
    rewrite last_app in H2. destruct (list.last (a :: w)); [| done].
    simpl in Hl, H2. rewrite Hh in H1. rewrite Hl in H2.
    split; [by destruct (from_option _ _ (list.last pre)) | by destruct (from_option _ _ (head post))].
  - destruct w as [| a w]; [done |]. simpl in Hh |- *.
    rewrite last_app. destruct (list.last (a :: w)); [| done].
    simpl in Hl |- *. rewrite Hh, Hl, H1, H2. done.
Qed.

Lemma whole_words_mentions (ws : list str) (text : str) :
  Forall lettered ws ->
  re_search U (whole_words ws) (lower U text) = true <-> mentions_word ws text.
Proof.
  intros Hws. rewrite whole_words_spec. unfold mentions_word.
  rewrite Forall_forall in Hws.
  split; intros (w & Hw & H); exists w; (split; [done |]);
    pose proof (Hws w (proj1 (list_elem_of_In _ _) Hw)) as Hl.
  - apply (proj1 (word_bounded_whole_word w _ Hl)), H.
  - apply (proj2 (word_bounded_whole_word w _ Hl)), H.
Qed.

Definition lettered_b (w : str) : bool :=
  from_option (is_word U) false (head w) &&
  from_option (is_word U) false (list.last w).

Lemma lettered_check (ws : list str) :
  forallb lettered_b ws = true -> Forall lettered ws.
Proof.
  induction ws as [| w ws IH]; simpl; [constructor |].
  intros [Hw Hws]%andb_true_iff. constructor; [| by apply IH].
  by apply andb_true_iff in Hw.
Qed.

Lemma negb_true_not (b : bool) (P : Prop) : (b = true <-> P) -> negb b = true <-> ~ P.
Proof. destruct b; simpl; intros [H1 H2]; split; try done; intros H; [by destruct H; auto | by intros HP; apply H2 in HP]. Qed.
End WholeWords.

Ltac lettered_words := apply lettered_check; vm_compute; reflexivity.

(** ** The ATS score *)
Section AtsScore.
Context (U : Unicode).

Definition ats_words : list str := map py ["experience"; "education"; "skills"]%string.

(** C5: the ATS score is 100, less 20 for a text shorter than 100
    characters, less 15 when none of "experience", "education" and
    "skills" appears as a whole word in any case, less 10 when a
    character outside ASCII is present; the floor at 0 never applies. A
    text of 50 characters without these words and with a non-ASCII
    character scores 55. *)
Theorem ats_score_formula (s : str) :
  exists short no_section non_ascii : bool,
    (short = true <-> len s < 100) /\
    (no_section = true <-> ~ mentions_word U ats_words s) /\
    (non_ascii = true <-> exists c, c ∈ s /\ (127 < c)%N) /\
    _calculate_ats_score U (VStr s) =
      Ok (100 - 20 * Z.b2z short - 15 * Z.b2z no_section - 10 * Z.b2z non_ascii) /\
    (len s = 50 -> ~ mentions_word U ats_words s ->
     (exists c, c ∈ s /\ (127 < c)%N) ->
     _calculate_ats_score U (VStr s) = Ok 55).
Proof.
  set (short := len s <? 100).
  set (no_section := negb (re_search U (whole_words ats_words) (lower U s))).
  set (non_ascii := re_search U (Cls (fun c => negb (in_range 0 127 c))) s).
  assert (short = true <-> len s < 100) as Hshort by apply Z.ltb_lt.
  assert (no_section = true <-> ~ mentions_word U ats_words s) as Hsec.
  { apply negb_true_not, whole_words_mentions. lettered_words. }
  assert (non_ascii = true <-> exists c, c ∈ s /\ (127 < c)%N) as Hna.
  { unfold non_ascii. rewrite class_search_spec.
    split; intros (c & Hc & H); exists c; (split; [done |]).
    - apply negb_true_iff, andb_false_iff in H as [H | H];
        apply N.leb_gt in H; lia.
    - apply negb_true_iff, andb_false_iff. right. apply N.leb_gt. lia. }
  assert (_calculate_ats_score U (VStr s) =
            Ok (100 - 20 * Z.b2z short - 15 * Z.b2z no_section - 10 * Z.b2z non_ascii))
    as Hscore.
  { unfold _calculate_ats_score, bind, py_len, py_lower, py_re_search.
    fold ats_words. fold short no_section non_ascii.
    destruct short, no_section, non_ascii; reflexivity. }
  exists short, no_section, non_ascii. repeat split; try tauto.
  intros Hlen Hno Hc. rewrite Hscore.
  apply Hsec in Hno as ->. apply Hna in Hc as ->.
  assert (short = true) as -> by (apply Hshort; lia). reflexivity.
Qed.
End AtsScore.

(** A text of 50 characters, one of them a bullet: 100 - 20 - 15 - 10. *)
Example ats_score_55 :
  len (replicate 49 120%N ++ [8226%N]) = 50 /\
  _calculate_ats_score symbols_only (VStr (replicate 49 120%N ++ [8226%N])) = Ok 55.
Proof. split; vm_compute; reflexivity. Qed.

(** ** Suggestions *)
Section Suggestions.
Context (U : Unicode).

Definition experience_words : list str := map py ["experience"; "work"; "job"]%string.
Definition education_words : list str :=
  map py ["education"; "university"; "college"; "school"]%string.
Definition skills_words : list str := map py ["skills"; "expertise"; "competencies"]%string.

(** The rule table of the specification: a condition and its message,
    in the order of declaration. *)
Definition fired (short has_experience has_education has_skills : bool) : list str :=
  (if short then [too_short] else []) ++
  (if has_experience then [] else [no_experience]) ++
  (if has_education then [] else [no_education]) ++
  (if has_skills then [] else [no_skills]).

(** C7: the four rules (shorter than 200 characters; no experience
    word; no education word; no skills word) are evaluated in this
    order, the result is exactly the messages of the rules that fire, in
    this order and without repetition; a short text without any of the
    words gets the four messages, none of them empty. *)
Theorem suggestions_in_rule_order (s : str) :
  exists short has_experience has_education has_skills : bool,
    (short = true <-> len s < 200) /\
    (has_experience = true <-> mentions_word U experience_words s) /\
    (has_education = true <-> mentions_word U education_words s) /\
    (has_skills = true <-> mentions_word U skills_words s) /\
    _generate_suggestions U (VStr s) =
      Ok (fired short has_experience has_education has_skills) /\
    NoDup (fired short has_experience has_education has_skills) /\
    Forall (fun m => m <> []) (fired short has_experience has_education has_skills) /\
    (len s < 200 -> ~ mentions_word U experience_words s ->
     ~ mentions_word U education_words s -> ~ mentions_word U skills_words s ->
     _generate_suggestions U (VStr s) =
       Ok [too_short; no_experience; no_education; no_skills]).
Proof.
  set (short := len s <? 200).
  set (e := re_search U (whole_words experience_words) (lower U s)).
  set (d := re_search U (whole_words education_words) (lower U s)).
  set (k := re_search U (whole_words skills_words) (lower U s)).
  assert (short = true <-> len s < 200) as Hshort by apply Z.ltb_lt.
  assert (e = true <-> mentions_word U experience_words s) as He
    by (apply whole_words_mentions; lettered_words).
  assert (d = true <-> mentions_word U education_words s) as Hd
    by (apply whole_words_mentions; lettered_words).
  assert (k = true <-> mentions_word U skills_words s) as Hk
    by (apply whole_words_mentions; lettered_words).
  assert (_generate_suggestions U (VStr s) = Ok (fired short e d k)) as Hrun.
  { unfold _generate_suggestions, bind, py_len, py_lower.
    fold experience_words education_words skills_words. fold short e d k.
    destruct short, e, d, k; reflexivity. }
  exists short, e, d, k. repeat split; try tauto.
  - destruct short, e, d, k; vm_compute; repeat constructor;
      rewrite ?elem_of_cons, ?elem_of_nil; intuition discriminate.
  - destruct short, e, d, k; repeat constructor; discriminate.
  - intros Hlen Hne Hnd Hnk. rewrite Hrun.
    assert (short = true) as -> by tauto.
    destruct e; [tauto |]. destruct d; [tauto |]. destruct k; [tauto |].
    reflexivity.
Qed.
End Suggestions.

(** ** Section completeness *)
Section SectionScore.
Context (U : Unicode).

(** Some keyword of the list occurs somewhere in the text, whatever the
    case of the letters of the text. *)
Definition mentions_keyword (keywords : list str) (text : str) : Prop :=
  exists keyword pre post,
    keyword ∈ keywords /\ lower U text = pre ++ keyword ++ post.

Definition keyword_hit (text : str) (keywords : list str) : bool :=
  existsb (fun keyword => contains keyword (lower U text)) keywords.

Lemma keyword_hit_spec (text : str) (keywords : list str) :
  keyword_hit text keywords = true <-> mentions_keyword keywords text.
Proof.
  unfold keyword_hit, mentions_keyword. rewrite existsb_exists. split.
  - intros (kw & Hin & (pre & post & H)%contains_spec).
    exists kw, pre, post. by rewrite list_elem_of_In.
  - intros (kw & pre & post & Hin & H). exists kw.
    rewrite <- list_elem_of_In, contains_spec. eauto.
Qed.

Lemma any_keyword_in_str (keywords : list str) (s : str) :
  any_keyword_in U keywords (VStr s) = Ok (keyword_hit s keywords).
Proof.
  induction keywords as [| kw kws IH]; [done |].
  simpl. unfold bind. simpl. destruct (contains kw (lower U s)); [done | apply IH].
Qed.

Lemma count_sections_str (values : list (list str)) (s : str) (found : Z) :
  count_sections U values (VStr s) found =
    Ok (found + foldr (fun kws n => Z.b2z (keyword_hit s kws) + n) 0 values).
Proof.
  revert found; induction values as [| kws values IH]; intros found; simpl.
  { f_equal. lia. }
  rewrite any_keyword_in_str. unfold bind. rewrite IH. f_equal.
  destruct (keyword_hit s kws); simpl; lia.
Qed.

(** The keywords that [__init__] files under a section name. *)
Definition keywords_of (name : string) : list str :=
  default [] (sections __init__ ≫= assoc (py name)).

(** C6: the section score counts the five canonical sections that have
    a keyword somewhere in the text, in any case, and is that count
    divided by five on the scale of 100, an integer; a text that has a
    keyword of the education section only (an "Education: ..." line)
    scores 20. *)
Theorem section_score_formula (s : str) :
  exists education experience skills projects summary : bool,
    (education = true <-> mentions_keyword (keywords_of "education") s) /\
    (experience = true <-> mentions_keyword (keywords_of "experience") s) /\
    (skills = true <-> mentions_keyword (keywords_of "skills") s) /\
    (projects = true <-> mentions_keyword (keywords_of "projects") s) /\
    (summary = true <-> mentions_keyword (keywords_of "summary") s) /\
    let found := Z.b2z education + Z.b2z experience + Z.b2z skills
                 + Z.b2z projects + Z.b2z summary in
    _calculate_section_score U __init__ (VStr s) = Ok (100 * found / 5) /\
    (mentions_keyword (keywords_of "education") s ->
     ~ mentions_keyword (keywords_of "experience") s ->
     ~ mentions_keyword (keywords_of "skills") s ->
     ~ mentions_keyword (keywords_of "projects") s ->
     ~ mentions_keyword (keywords_of "summary") s ->
     _calculate_section_score U __init__ (VStr s) = Ok 20).
Proof.
  exists (keyword_hit s (keywords_of "education")),
         (keyword_hit s (keywords_of "experience")),
         (keyword_hit s (keywords_of "skills")),
         (keyword_hit s (keywords_of "projects")),
         (keyword_hit s (keywords_of "summary")).
  repeat (split; [apply keyword_hit_spec |]).
  assert (forall a b c d e : bool,
    PyFloat.to_int (PyFloat.mul_int (PyFloat.truediv
      (0 + (Z.b2z a + (Z.b2z b + (Z.b2z c + (Z.b2z d + (Z.b2z e + 0)))))) 5) 100)
    = 100 * (Z.b2z a + Z.b2z b + Z.b2z c + Z.b2z d + Z.b2z e) / 5) as Hfloat
    by (intros [] [] [] [] []; vm_compute; reflexivity).
  assert (_calculate_section_score U __init__ (VStr s) =
    Ok (100 * (Z.b2z (keyword_hit s (keywords_of "education"))
               + Z.b2z (keyword_hit s (keywords_of "experience"))
               + Z.b2z (keyword_hit s (keywords_of "skills"))
               + Z.b2z (keyword_hit s (keywords_of "projects"))
               + Z.b2z (keyword_hit s (keywords_of "summary"))) / 5)) as Hrun.
  { unfold _calculate_section_score. simpl getattr. unfold bind at 1.
    rewrite count_sections_str. unfold bind.
    change (Z.of_nat (length _) =? 0) with false. cbv iota.
    rewrite <- Hfloat. reflexivity. }
  cbv zeta. split; [exact Hrun |].
  intros H1 H2 H3 H4 H5. rewrite Hrun.
  apply keyword_hit_spec in H1 as ->.
  rewrite <- keyword_hit_spec in H2, H3, H4, H5.
  apply not_true_is_false in H2 as ->. apply not_true_is_false in H3 as ->.
  apply not_true_is_false in H4 as ->. apply not_true_is_false in H5 as ->.
  reflexivity.
Qed.
End SectionScore.

(** The heading line of section 4.2 of the specification, alone. *)
Example section_score_education_line :
  _calculate_section_score symbols_only __init__
    (VStr (py "Education: B.Tech, XYZ University")) = Ok 20.
Proof. vm_compute. reflexivity. Qed.

(** ** The analysis of a text *)

(** The argument [resume_data] that carries the text [s]. *)
Definition resume (s : str) : pyval := VDict [(py "raw_text", VStr s)].

(** The argument [job_requirements]: absent, or a dict with a list of
    skill names under [required_skills]. *)
Definition requirements (o : option (list str)) : pyval :=
  match o with
  | None => VNone
  | Some skills => VDict [(py "required_skills", VList (map VStr skills))]
  end.

Section Analysis.
Context (U : Unicode).

Lemma ats_score_range (s : str) :
  exists z, _calculate_ats_score U (VStr s) = Ok z /\ 0 <= z <= 100.
Proof.
  unfold _calculate_ats_score, bind, py_len, py_lower, py_re_search.
  repeat case_match; eexists; (split; [reflexivity | lia]).
Qed.

Lemma format_score_range (s : str) :
  exists z, _calculate_format_score U (VStr s) = Ok z /\ 0 <= z <= 100.
Proof.
  unfold _calculate_format_score, bind, py_re_search.
  repeat case_match; eexists; (split; [reflexivity | lia]).
Qed.

Lemma section_score_range (s : str) :
  exists z, _calculate_section_score U __init__ (VStr s) = Ok z /\ 0 <= z <= 100.
Proof.
  unfold _calculate_section_score. simpl getattr. unfold bind at 1.
  rewrite count_sections_str. unfold bind.
  change (Z.of_nat (length _) =? 0) with false. cbv iota.
  eexists. split; [reflexivity |]. simpl foldr.
  repeat match goal with
         | |- context [Z.b2z ?b] => generalize b
         end.
  intros [] [] [] [] []; vm_compute; split; discriminate.
Qed.

Lemma suggestions_run (s : str) :
  exists l, _generate_suggestions U (VStr s) = Ok l.
Proof.
  unfold _generate_suggestions, bind, py_len, py_lower. eexists. reflexivity.
Qed.

(** The test of [_analyze_keyword_match] on one skill. *)
Definition skill_found (s skill : str) : bool :=
  re_search U (Cat Bnd (Cat (Lit (lower U skill)) Bnd)) (lower U s).

Lemma match_skills_str (skills : list str) (s : str) (found missing : list pyval) :
  match_skills U (map VStr skills) (VStr s) found missing =
    Ok (found ++ map VStr (List.filter (skill_found s) skills),
        missing ++ map VStr (List.filter (fun k => negb (skill_found s k)) skills)).
Proof.
  revert found missing; induction skills as [| k skills IH]; intros found missing.
  { simpl. by rewrite !app_nil_r. }
  simpl. unfold bind. simpl. fold (skill_found s k).
  destruct (skill_found s k); simpl; rewrite IH, <- ?app_assoc; reflexivity.
Qed.

(** [int((len(found_skills) / len(required_skills)) * 100)], or 0 for
    an empty list. *)
Definition match_score (found total : nat) : Z :=
  if bool_decide (total = 0%nat) then 0
  else PyFloat.percent (Z.of_nat found) (Z.of_nat total).

Lemma match_score_range (l : list str) (p : str -> bool) :
  0 <= match_score (length (List.filter p l)) (length l) <= 100.
Proof.
  unfold match_score. case_bool_decide as Hl; [lia |].
  apply PyFloatFacts.percent_bounds; [| lia].
  pose proof (filter_length_le p l). lia.
Qed.

Lemma analyze_keyword_match_str (s : str) (skills : list str) :
  _analyze_keyword_match U (VStr s) (requirements (Some skills)) =
    Ok (VDict
          [(py "score",
            VInt (match_score (length (List.filter (skill_found s) skills)) (length skills)));
           (py "found_skills", VList (map VStr (List.filter (skill_found s) skills)));
           (py "missing_skills",
            VList (map VStr (List.filter (fun k => negb (skill_found s k)) skills)))]).
Proof.
  unfold _analyze_keyword_match, requirements.
  change (truthy (VDict [_])) with true. cbv iota. simpl negb. cbv iota.
  change (py_get _ _ _) with (Ok (VList (map VStr skills))).
  unfold bind at 1. simpl py_iter. unfold bind at 1.
  rewrite match_skills_str. unfold bind at 1. simpl app.
  unfold match_score. rewrite !length_map. simpl truthy. simpl py_len.
  rewrite length_map.
  destruct skills as [| k skills]; [reflexivity |].
  rewrite !bool_decide_eq_false_2 by done. simpl negb. cbv iota.
  unfold bind.
  change (Z.of_nat (length (k :: skills)) =? 0) with false. reflexivity.
Qed.
End Analysis.

Section Facade.
Context (U : Unicode).

(** The value under [keyword_match] for a text and requirements. *)
Definition keyword_match_of (s : str) (o : option (list str)) : list (str * pyval) :=
  match o with
  | None => [(py "score", VInt 0); (py "missing_skills", VList [])]
  | Some skills =>
      [(py "score",
        VInt (match_score (length (List.filter (skill_found U s) skills)) (length skills)));
       (py "found_skills", VList (map VStr (List.filter (skill_found U s) skills)));
       (py "missing_skills",
        VList (map VStr (List.filter (fun k => negb (skill_found U s k)) skills)))]
  end.

Lemma analyze_keyword_match_requirements (s : str) (o : option (list str)) :
  _analyze_keyword_match U (VStr s) (requirements o) = Ok (VDict (keyword_match_of s o)).
Proof. destruct o; [apply analyze_keyword_match_str | reflexivity]. Qed.

Lemma keyword_match_of_score (s : str) (o : option (list str)) :
  exists z, assoc (py "score") (keyword_match_of s o) = Some (VInt z) /\ 0 <= z <= 100.
Proof.
  destruct o as [skills |]; eexists; (split; [reflexivity |]).
  - apply match_score_range.
  - lia.
Qed.

(** What [analyze_resume] returns for a text that is not empty. *)
Lemma analyze_resume_str (s : str) (o : option (list str)) :
  s <> [] ->
  exists ats fmt sec sugg,
    analyze_resume U __init__ (resume s) (requirements o) =
      Ok (VDict [(py "document_type", VStr (py "resume"));
                 (py "ats_score", VInt ats);
                 (py "format_score", VInt fmt);
                 (py "section_score", VInt sec);
                 (py "keyword_match", VDict (keyword_match_of s o));
                 (py "suggestions", VList (map VStr sugg))]) /\
    0 <= ats <= 100 /\ 0 <= fmt <= 100 /\ 0 <= sec <= 100.
Proof.
  intros Hs.
  destruct (ats_score_range U s) as (ats & Hats & ?).
  destruct (format_score_range U s) as (fmt & Hfmt & ?).
  destruct (section_score_range U s) as (sec & Hsec & ?).
  destruct (suggestions_run U s) as (sugg & Hsugg).
  exists ats, fmt, sec, sugg. split; [| done].
  unfold analyze_resume, analysis.
  change (py_get (resume s) (py "raw_text") (VStr [])) with (Ok (VStr s)).
  unfold bind at 1. simpl truthy. rewrite bool_decide_eq_false_2 by done.
  simpl negb. cbv iota.
  rewrite Hats. unfold bind at 1. rewrite Hfmt. unfold bind at 1.
  rewrite Hsec. unfold bind at 1.
  rewrite analyze_keyword_match_requirements. unfold bind at 1.
  rewrite Hsugg. reflexivity.
Qed.

Lemma analysis_dict (self : ResumeAnalyzer) (resume_data job_requirements v : pyval) :
  analysis U self resume_data job_requirements = Ok v -> exists d, v = VDict d.
Proof.
  unfold analysis, bind. intros H.
  repeat case_match; simplify_eq; eauto.
Qed.

(** C10: [analyze_resume] always returns a dict and never raises: an
    exception raised while analysing becomes a dict with the key
    [error], and so does a text that is empty (or any other false
    value under [raw_text]). *)
Theorem analyze_resume_never_raises
    (self : ResumeAnalyzer) (resume_data job_requirements : pyval) :
  (exists d, analyze_resume U self resume_data job_requirements = Ok (VDict d)) /\
  (forall e, analysis U self resume_data job_requirements = Raise e ->
     analyze_resume U self resume_data job_requirements =
       Ok (VDict [(py "error", VStr (py "Error analyzing resume: " ++ exn_str e))])) /\
  (forall text,
     py_get resume_data (py "raw_text") (VStr []) = Ok text -> truthy text = false ->
     analyze_resume U self resume_data job_requirements =
       Ok (VDict [(py "error", VStr (py "No text content found in resume"))])).
Proof.
  unfold analyze_resume, try_except. repeat split.
  - destruct (analysis U self resume_data job_requirements) as [v | e] eqn:Hrun.
    + apply analysis_dict in Hrun as [d ->]. eauto.
    + eauto.
  - intros e ->. reflexivity.
  - intros text Hget Hfalse. unfold analysis. rewrite Hget. unfold bind.
    rewrite Hfalse. reflexivity.
Qed.

(** For a text that is not empty, with the requirements absent or any
    list of skills, the four scores of the analysis are integers between
    0 and 100. *)
Lemma analysis_scores_within_0_100 (s : str) (o : option (list str)) :
  s <> [] ->
  exists d km ats fmt sec kw,
    analyze_resume U __init__ (resume s) (requirements o) = Ok (VDict d) /\
    assoc (py "ats_score") d = Some (VInt ats) /\ 0 <= ats <= 100 /\
    assoc (py "format_score") d = Some (VInt fmt) /\ 0 <= fmt <= 100 /\
    assoc (py "section_score") d = Some (VInt sec) /\ 0 <= sec <= 100 /\
    assoc (py "keyword_match") d = Some (VDict km) /\
    assoc (py "score") km = Some (VInt kw) /\ 0 <= kw <= 100.
Proof.
  intros Hs.
  destruct (analyze_resume_str s o Hs) as (ats & fmt & sec & sugg & Hrun & ? & ? & ?).
  destruct (keyword_match_of_score s o) as (kw & Hkw & ?).
  eexists _, (keyword_match_of s o), ats, fmt, sec, kw.
  split; [exact Hrun |]. repeat split; try done; lia.
Qed.

(** C1, as the code has it: only the empty text is refused, with a dict
    that carries the key [error] (nothing is raised); every other text,
    blank ones included, is analysed in full and the result has no key
    [error], with the requirements absent or any list of skills. *)
Theorem only_empty_text_is_refused (s : str) (o : option (list str)) :
  (s = [] ->
   analyze_resume U __init__ (resume s) (requirements o) =
     Ok (VDict [(py "error", VStr (py "No text content found in resume"))])) /\
  (s <> [] ->
   exists d,
     analyze_resume U __init__ (resume s) (requirements o) = Ok (VDict d) /\
     assoc (py "error") d = None /\
     map fst d = map py ["document_type"; "ats_score"; "format_score";
                         "section_score"; "keyword_match"; "suggestions"]%string).
Proof.
  split.
  - intros ->. reflexivity.
  - intros Hs.
    destruct (analyze_resume_str s o Hs) as (ats & fmt & sec & sugg & Hrun & _).
    eexists. split; [exact Hrun |]. split; reflexivity.
Qed.
End Facade.

(** C8: without job requirements the keyword match is the dict of the
    early return, which has the score 0 and an empty [missing_skills] but
    no key [found_skills]. *)
Theorem keyword_match_without_requirements (U : Unicode) (text : pyval) :
  _analyze_keyword_match U text VNone =
    Ok (VDict [(py "score", VInt 0); (py "missing_skills", VList [])]) /\
  assoc (py "found_skills") [(py "score", VInt 0); (py "missing_skills", VList [])]
    = @None pyval.
Proof. split; reflexivity. Qed.

(** A text of three spaces is analysed like any other text. *)
Lemma blank_text_is_analysed :
  Forall (fun c => is_space symbols_only c = true) (py "   ") /\
  analyze_resume symbols_only __init__ (resume (py "   ")) VNone =
    Ok (VDict [(py "document_type", VStr (py "resume"));
               (py "ats_score", VInt 65);
               (py "format_score", VInt 80);
               (py "section_score", VInt 0);
               (py "keyword_match",
                VDict [(py "score", VInt 0); (py "missing_skills", VList [])]);
               (py "suggestions",
                VList (map VStr [too_short; no_experience; no_education; no_skills]))]).
Proof. split; [repeat constructor | vm_compute; reflexivity]. Qed.

(** A value under [raw_text] that is not a text: the [TypeError] of
    [len] is caught and reported in the dict. *)
Example analyze_resume_reports_exception :
  analysis symbols_only __init__ (VDict [(py "raw_text", VInt 5)]) VNone =
    Raise (TypeError (py "object of type 'int' has no len()")) /\
  analyze_resume symbols_only __init__ (VDict [(py "raw_text", VInt 5)]) VNone =
    Ok (VDict [(py "error",
                VStr (py "Error analyzing resume: object of type 'int' has no len()"))]).
Proof. split; vm_compute; reflexivity. Qed.

(** ** Attributes that the constructor does not assign *)

(** C4: [check_resume_sections] reads [self.essential_sections] and the
    extractors read [self.document_types]; [__init__] assigns neither, so
    the first raises [AttributeError] on every text and the second on a
    text with an ordinary line below the heading of its section. *)
Theorem unassigned_attributes_raise (U : Unicode) (s : str) :
  check_resume_sections U __init__ s =
    Raise (AttributeError (py "'ResumeAnalyzer' object has no attribute 'essential_sections'")) /\
  extract_education U __init__ (py "Education" ++ [10%N] ++ py "Graduated 2020") =
    Raise (AttributeError (py "'ResumeAnalyzer' object has no attribute 'document_types'")) /\
  extract_experience U __init__ (py "Experience" ++ [10%N] ++ py "Acme Corp, 2019-2021") =
    Raise (AttributeError (py "'ResumeAnalyzer' object has no attribute 'document_types'")).
Proof. repeat split; vm_compute; reflexivity. Qed.

(** ** The lines of the extracted entries *)
Section Segments.
Context (U : Unicode) (self : ResumeAnalyzer).

(** The entries are the blocks [blocks] of lines, each joined by a
    space: the blocks are not empty, their lines are not blank, and put
    end to end they are lines of the document, stripped, in the order
    of the document, each used at most once. *)
Definition segments (entries : list str) (lines : list str) : Prop :=
  exists blocks : list (list str),
    entries = map (join (py " ")) blocks /\
    Forall (fun b => b <> []) blocks /\
    Forall (fun l => l <> []) (concat blocks) /\
    sublist (concat blocks) (map (strip U) lines).

(** The same while the loop runs, with the lines of the open entry. *)
Definition segmented (st : entry_state) (seen : list str) : Prop :=
  exists blocks : list (list str),
    entries st = map (join (py " ")) blocks /\
    Forall (fun b => b <> []) blocks /\
    Forall (fun l => l <> []) (concat blocks ++ current_entry st) /\
    sublist (concat blocks ++ current_entry st) (map (strip U) seen).

Lemma nonempty_spec {A} (l : list A) : nonempty l = true <-> l <> [].
Proof. by destruct l. Qed.

Lemma segmented_flush (st : entry_state) (seen : list str) :
  current_entry st <> [] -> segmented st seen -> segmented (flush st) seen.
Proof.
  intros Hcur (blocks & He & Hb & Hl & Hs).
  exists (blocks ++ [current_entry st]). simpl.
  rewrite He, map_app, concat_app. simpl. rewrite !app_nil_r.
  repeat split; try done.
  apply Forall_app. split; [done | by constructor].
Qed.

Lemma segmented_skip (st st' : entry_state) (seen : list str) (line : str) :
  entries st' = entries st -> current_entry st' = current_entry st ->
  segmented st seen -> segmented st' (seen ++ [line]).
Proof.
  intros He Hc (blocks & ? & ? & ? & Hs). exists blocks.
  rewrite He, Hc, map_app. repeat split; try done.
  by apply sublist_inserts_r.
Qed.

Lemma segmented_append (st st' : entry_state) (seen : list str) (line : str) :
  strip U line <> [] ->
  entries st' = entries st ->
  current_entry st' = current_entry st ++ [strip U line] ->
  segmented st seen -> segmented st' (seen ++ [line]).
Proof.
  intros Hne He Hc (blocks & ? & ? & Hl & Hs). exists blocks.
  rewrite He, Hc, map_app, !app_assoc. repeat split; try done.
  - apply Forall_app. split; [done | by repeat constructor].
  - by apply sublist_app.
Qed.

(** A line that holds a keyword without being one is not blank. *)
Lemma keyword_line_not_blank (keywords : list str) (line : str) :
  any_in_line U keywords line = true ->
  any_is_line U keywords line = false -> line <> [].
Proof.
  intros Hin Hnot ->. unfold any_in_line, any_is_line in *.
  apply existsb_exists in Hin as (kw & Hkw & Hc).
  apply not_true_iff_false in Hnot. apply Hnot.
  apply existsb_exists. exists kw. split; [done |].
  apply bool_decide_eq_true. simpl in Hc |- *.
  destruct (lower U kw); [done | simpl in Hc; discriminate].
Qed.

Lemma entry_step_segmented (keywords : list str) (st st' : entry_state)
    (seen : list str) (line : str) :
  entry_step U self keywords st line = Ok st' ->
  segmented st seen -> segmented st' (seen ++ [line]).
Proof.
  unfold entry_step. intros Hstep Hseg.
  destruct (any_in_line U keywords (strip U line)) eqn:Hkw.
  { injection Hstep as <-.
    destruct (any_is_line U keywords (strip U line)) eqn:His; simpl.
    - by apply (segmented_skip st).
    - apply (segmented_append st); try done.
      by apply (keyword_line_not_blank keywords). }
  destruct (in_section st); [| injection Hstep as <-; by apply (segmented_skip st)].
  destruct (nonempty (strip U line)) eqn:Hline.
  - apply nonempty_spec in Hline.
    unfold bind in Hstep. repeat case_match; simplify_eq.
    all: try (apply (segmented_append st); done).
    all: try (by apply (segmented_skip st)).
    apply (segmented_skip (flush {| entries := entries st; in_section := false;
                                    current_entry := current_entry st |}));
      [done .. |].
    apply segmented_flush; [by apply nonempty_spec | done].
  - unfold bind in Hstep. simpl in Hstep.
    destruct (nonempty (current_entry st)) eqn:Hcur; injection Hstep as <-.
    + apply (segmented_skip (flush st)); [done .. |].
      apply segmented_flush; [by apply nonempty_spec | done].
    + by apply (segmented_skip st).
Qed.

Lemma entry_loop_segmented (keywords : list str) (lines : list str)
    (st st' : entry_state) (seen : list str) :
  entry_loop U self keywords lines st = Ok st' ->
  segmented st seen -> segmented st' (seen ++ lines).
Proof.
  revert st seen; induction lines as [| line lines IH]; intros st seen; simpl.
  { intros [= <-]. by rewrite app_nil_r. }
  unfold bind. destruct (entry_step U self keywords st line) as [st1 |] eqn:Hstep; [| done].
  intros Hloop Hseg.
  replace (seen ++ line :: lines) with ((seen ++ [line]) ++ lines)
    by (by rewrite <- app_assoc).
  apply (IH st1); [done |]. by apply (entry_step_segmented keywords st).
Qed.

Lemma extract_entries_segments (keywords : list str) (text : str) (entries : list str) :
  extract_entries U self keywords text = Ok entries ->
  segments entries (split 10 text).
Proof.
  unfold extract_entries, bind.
  destruct (entry_loop U self keywords (split 10 text) _) as [st |] eqn:Hloop; [| done].
  intros [= <-].
  apply (entry_loop_segmented _ _ _ _ []) in Hloop; cycle 1.
  { exists []. repeat split; simpl; constructor. }
  simpl in Hloop.
  assert (forall st0, current_entry st0 = [] -> segmented st0 (split 10 text) ->
                      segments (Analyzer.entries st0) (split 10 text)) as Hdone.
  { intros st0 Hcur (blocks & ? & ? & Hl & Hs). exists blocks.
    rewrite Hcur, app_nil_r in Hl, Hs. done. }
  destruct (nonempty (current_entry st)) eqn:Hcur.
  - apply Hdone; [done |]. apply segmented_flush; [by apply nonempty_spec | done].
  - apply Hdone; [by destruct (current_entry st) | done].
Qed.

(** With a [resume] list under [self.document_types] the loop runs to
    its end on every text. *)
Lemma extract_entries_total (keywords : list str) (text : str) types resume_words :
  document_types self = Some types ->
  assoc (py "resume") types = Some resume_words ->
  exists entries, extract_entries U self keywords text = Ok entries.
Proof.
  intros Hattr Hitem. unfold extract_entries.
  assert (forall lines st, exists st', entry_loop U self keywords lines st = Ok st') as Hloop.
  { induction lines as [| line lines IH]; intros st; simpl; [eauto |].
    assert (exists st1, entry_step U self keywords st line = Ok st1) as [st1 ->].
    { unfold entry_step, getattr, getitem, bind. rewrite Hattr, Hitem.
      repeat case_match; simplify_eq; eauto. }
    apply IH. }
  destruct (Hloop (split 10 text)
              {| entries := []; in_section := false; current_entry := [] |}) as [st ->].
  simpl. eauto.
Qed.
End Segments.

(** ** The lines of a section *)

(** What an extractor keeps of a document, said line by line. *)
Section SectionLines.
Context (U : Unicode) (self : ResumeAnalyzer) (keywords : list str).

(** A line that holds a keyword of the section opens the section. *)
Definition opens (line : str) : bool := any_in_line U keywords (strip U line).

(** A line that is a keyword and nothing else: a bare heading. *)
Definition bare (line : str) : bool := any_is_line U keywords (strip U line).

(** The words under [self.document_types['resume']], if there are any. *)
Definition part_names : list str :=
  match document_types self with
  | Some types => default [] (assoc (py "resume") types)
  | None => []
  end.

(** A line that is not blank, holds one of these words and no keyword of
    the section closes the section. *)
Definition closes (line : str) : bool :=
  nonempty (strip U line) && negb (opens line) && any_in_line U part_names (strip U line).

(** The section is open below the lines [above], which are given from the
    nearest one upwards, when the nearest line that opens or closes the
    section opens it. *)
Fixpoint open_below (above : list str) : bool :=
  match above with
  | [] => false
  | line :: higher =>
      if opens line then true
      else if closes line then false
      else open_below higher
  end.

(** The lines of the section: a line with a keyword unless it is a bare
    heading, and a line that is not blank and does not close the section
    where the section is open. *)
Definition kept (above : list str) (line : str) : bool :=
  if opens line then negb (bare line)
  else open_below above && nonempty (strip U line) && negb (closes line).

Fixpoint section_lines (above rest : list str) : list str :=
  match rest with
  | [] => []
  | line :: rest' =>
      (if kept above line then [strip U line] else []) ++ section_lines (line :: above) rest'
  end.

(** A blank line and a line that closes the section end a block where
    the section is open. *)
Definition separates (above : list str) (line : str) : bool :=
  negb (opens line) && open_below above &&
  (negb (nonempty (strip U line)) || closes line).

(** The lines of the section in groups: [current] is the group that is
    being filled. *)
Fixpoint section_groups (above rest : list str) (current : list str) : list (list str) :=
  match rest with
  | [] => [current]
  | line :: rest' =>
      if separates above line then current :: section_groups (line :: above) rest' []
      else section_groups (line :: above) rest'
             (current ++ if kept above line then [strip U line] else [])
  end.

(** The blocks of the section: the groups that are not empty. *)
Definition blocks_of (lines : list str) : list (list str) :=
  List.filter nonempty (section_groups [] lines []).

Lemma section_lines_app (above xs ys : list str) :
  section_lines above (xs ++ ys) = section_lines above xs ++ section_lines (rev xs ++ above) ys.
Proof.
  revert above. induction xs as [| x xs IH]; intros above; [done |].
  cbn [app section_lines rev]. by rewrite IH, <- !(assoc_L (++)).
Qed.

(** The flag of the loop tells whether the section is open. *)
Lemma entry_step_open (st st' : entry_state) (seen : list str) (line : str) :
  entry_step U self keywords st line = Ok st' ->
  in_section st = open_below (rev seen) ->
  in_section st' = open_below (rev (seen ++ [line])).
Proof.
  unfold entry_step. rewrite rev_unit. cbn [open_below]. unfold closes, opens.
  intros Hstep Hopen.
  destruct (any_in_line U keywords (strip U line)) eqn:Hop.
  { by injection Hstep as <-. }
  cbn [negb andb]. rewrite andb_true_r, <- Hopen.
  destruct (in_section st) eqn:Hin; cycle 1.
  { injection Hstep as <-. rewrite Hin. by destruct (_ && _). }
  destruct (nonempty (strip U line)) eqn:Hline; cbn [andb].
  - unfold bind, getattr, getitem in Hstep. unfold part_names.
    destruct (document_types self) as [types |]; [| done].
    destruct (assoc (py "resume") types) as [names |]; [| done].
    change (default [] (Some names)) with names.
    destruct (any_in_line U names (strip U line)); cbn [andb negb] in Hstep;
      injection Hstep as <-; [| done].
    by destruct (nonempty (current_entry st)).
  - unfold bind in Hstep. cbn [andb] in Hstep.
    destruct (nonempty (current_entry st)); by injection Hstep as <-.
Qed.

Lemma join_groups_cons (entries : list str) (current : list str)
    (groups : list (list str)) :
  entries ++ map (join (py " ")) (List.filter nonempty (current :: groups)) =
  (entries ++ if nonempty current then [join (py " ") current] else [])
    ++ map (join (py " ")) (List.filter nonempty groups).
Proof.
  cbn [List.filter]. destruct (nonempty current); cbn [map].
  - by rewrite <- (assoc_L (++)).
  - by rewrite app_nil_r.
Qed.

(** One turn of the loop, seen from the blocks that are still to come. *)
Lemma entry_step_groups (st st' : entry_state) (seen rest : list str) (line : str) :
  entry_step U self keywords st line = Ok st' ->
  in_section st = open_below (rev seen) ->
  entries st ++
    map (join (py " "))
      (List.filter nonempty (section_groups (rev seen) (line :: rest) (current_entry st))) =
  entries st' ++
    map (join (py " "))
      (List.filter nonempty (section_groups (line :: rev seen) rest (current_entry st'))).
Proof.
  unfold entry_step. cbn [section_groups]. unfold separates, kept, closes, opens, bare.
  intros Hstep Hopen. rewrite <- Hopen.
  destruct (any_in_line U keywords (strip U line)) eqn:Hop.
  { injection Hstep as <-. cbn [negb andb entries current_entry].
    destruct (any_is_line U keywords (strip U line)); cbn [negb]; [| done].
    by rewrite app_nil_r. }
  cbn [negb andb]. rewrite andb_true_r.
  destruct (in_section st) eqn:Hin; cycle 1.
  { injection Hstep as <-. cbn [andb]. by rewrite app_nil_r. }
  cbn [andb].
  destruct (nonempty (strip U line)) eqn:Hline; cbn [andb negb orb].
  - unfold bind, getattr, getitem in Hstep. unfold part_names.
    destruct (document_types self) as [types |]; [| done].
    destruct (assoc (py "resume") types) as [names |]; [| done].
    change (default [] (Some names)) with names.
    destruct (any_in_line U names (strip U line)); cbn [andb negb] in Hstep |- *;
      injection Hstep as <-; [| done].
    rewrite join_groups_cons.
    by destruct (current_entry st) eqn:Hcur; cbn [nonempty flush entries current_entry];
      rewrite ?app_nil_r.
  - unfold bind in Hstep. cbn [andb] in Hstep. rewrite join_groups_cons.
    destruct (current_entry st) eqn:Hcur; cbn [nonempty] in Hstep |- *;
      injection Hstep as <-; cbn [flush entries current_entry]; by rewrite ?Hcur, ?app_nil_r.
Qed.

Lemma entry_loop_groups (lines : list str) (st st' : entry_state) (seen : list str) :
  entry_loop U self keywords lines st = Ok st' ->
  in_section st = open_below (rev seen) ->
  entries st ++
    map (join (py " "))
      (List.filter nonempty (section_groups (rev seen) lines (current_entry st))) =
  entries st' ++ if nonempty (current_entry st') then [join (py " ") (current_entry st')] else [].
Proof.
  revert st seen; induction lines as [| line lines IH]; intros st seen; cbn [entry_loop].
  { intros [= <-] _. cbn [section_groups List.filter].
    by destruct (nonempty (current_entry st)). }
  unfold bind. destruct (entry_step U self keywords st line) as [st1 |] eqn:Hstep; [| done].
  intros Hloop Hopen. rewrite (entry_step_groups st st1 seen lines line Hstep Hopen).
  rewrite <- (rev_unit seen line). apply IH; [done |].
  by apply (entry_step_open st).
Qed.

(** What an extractor returns is the blocks of its section, each joined
    by a space. *)
Lemma extract_entries_blocks (text : str) (entries : list str) :
  extract_entries U self keywords text = Ok entries ->
  entries = map (join (py " ")) (blocks_of (split 10 text)).
Proof.
  unfold extract_entries, bind, blocks_of.
  destruct (entry_loop U self keywords (split 10 text) _) as [st |] eqn:Hloop; [| done].
  intros [= <-].
  apply (entry_loop_groups _ _ _ []) in Hloop; [| done].
  cbn [rev entries current_entry app] in Hloop. rewrite Hloop.
  by destruct (current_entry st) eqn:Hcur; cbn [nonempty flush entries];
    rewrite ?Hcur, ?app_nil_r.
Qed.

(** The blocks laid end to end are the lines of the section. *)
Lemma section_groups_concat (above rest current : list str) :
  concat (List.filter nonempty (section_groups above rest current)) =
  current ++ section_lines above rest.
Proof.
  revert above current. induction rest as [| line rest IH]; intros above current;
    cbn [section_groups section_lines].
  { cbn [List.filter]. destruct current; cbn [nonempty concat]; by rewrite ?app_nil_r. }
  destruct (separates above line) eqn:Hsep.
  - assert (kept above line = false) as ->.
    { unfold separates, kept in *. destruct (opens line); [done |].
      destruct (open_below above); [| done]. cbn [negb andb] in Hsep |- *.
      destruct (nonempty (strip U line)); [| done]. cbn [negb orb andb] in Hsep |- *.
      by rewrite Hsep. }
    cbn [List.filter app]. destruct current as [| l current]; cbn [nonempty concat].
    + by rewrite IH.
    + by rewrite IH.
  - by rewrite IH, <- (assoc_L (++)).
Qed.

Lemma blocks_of_not_empty (lines : list str) : Forall (fun b => b <> []) (blocks_of lines).
Proof.
  unfold blocks_of. apply list.Forall_forall. intros b Hb.
  apply list_elem_of_In, filter_In in Hb as [_ Hb]. by apply nonempty_spec.
Qed.

(** The lines of a section are lines of the document, stripped, in the
    order of the document, and none of them is blank. *)
Lemma section_lines_sublist (above lines : list str) :
  sublist (section_lines above lines) (map (strip U) lines).
Proof.
  revert above. induction lines as [| line lines IH]; intros above; cbn [section_lines map].
  { constructor. }
  destruct (kept above line); cbn [app]; [by apply sublist_skip | by apply sublist_cons].
Qed.

Lemma section_lines_not_blank (above lines : list str) :
  Forall (fun l => l <> []) (section_lines above lines).
Proof.
  revert above. induction lines as [| line lines IH]; intros above; cbn [section_lines].
  { constructor. }
  apply Forall_app. split; [| apply IH].
  unfold kept, opens, bare.
  destruct (any_in_line U keywords (strip U line)) eqn:Hop.
  - destruct (any_is_line U keywords (strip U line)) eqn:His; cbn [negb]; [constructor |].
    repeat constructor. by apply (keyword_line_not_blank U keywords).
  - destruct (open_below above); cbn [andb]; [| constructor].
    destruct (nonempty (strip U line)) eqn:Hline; cbn [andb]; [| constructor].
    destruct (negb _); repeat constructor. by apply nonempty_spec.
Qed.

(** The section is open below some lines when one of them opens it and
    no line after that one closes it. *)
Lemma open_below_spec (above : list str) :
  open_below (rev above) = true <->
  exists before line after,
    above = before ++ line :: after /\ opens line = true /\
    Forall (fun l => closes l = false) after.
Proof.
  induction above as [| x above IH] using rev_ind.
  { split; [done |]. intros (before & line & after & H & _). by destruct before. }
  rewrite rev_unit. cbn [open_below].
  destruct (opens x) eqn:Hx.
  { split; [intros _ | done]. by exists above, x, []. }
  destruct (closes x) eqn:Hc.
  - split; [done |]. intros (before & line & after & Hsplit & Hline & Hafter).
    destruct after as [| y after _] using rev_ind.
    + apply app_inj_tail in Hsplit as [_ ->]. congruence.
    + replace (before ++ line :: after ++ [y]) with ((before ++ line :: after) ++ [y])
        in Hsplit by (by rewrite <- (assoc_L (++))).
      apply app_inj_tail in Hsplit as [_ ->].
      apply Forall_app in Hafter as [_ Hy]. apply Forall_inv in Hy. congruence.
  - rewrite IH. split.
    + intros (before & line & after & -> & Hline & Hafter).
      exists before, line, (after ++ [x]). rewrite <- (assoc_L (++)). split; [done |].
      split; [done |]. apply Forall_app. split; [done | by constructor].
    + intros (before & line & after & Hsplit & Hline & Hafter).
      destruct after as [| y after _] using rev_ind.
      * apply app_inj_tail in Hsplit as [_ ->]. congruence.
      * replace (before ++ line :: after ++ [y]) with ((before ++ line :: after) ++ [y])
          in Hsplit by (by rewrite <- (assoc_L (++))).
        apply app_inj_tail in Hsplit as [-> ->].
        apply Forall_app in Hafter as [Hafter _]. by exists before, line, after.
Qed.
End SectionLines.

(** C3, as the code has it: when the education or the experience
    extractor returns, its entries are the blocks of its section, each
    joined by a space. No block is empty, and the blocks laid end to end
    are exactly the lines of the section, each once and in the order of
    the document: the lines that hold a keyword of the section and more
    than the keyword, and the lines that are not blank while the section
    is open. The section is open below a line with a keyword until a
    line names another part of the resume; a block ends at a blank line
    of the section, at the line that closes it and at the end of the
    text. The lines of the section are stripped lines of the document;
    the lines outside the section, the bare headings and the blank lines
    are in no block. *)
Theorem entries_are_the_lines_of_the_section (U : Unicode) (self : ResumeAnalyzer)
    (text : str) :
  (forall entries, extract_education U self text = Ok entries ->
     entries = map (join (py " ")) (blocks_of U self education_keywords (split 10 text))) /\
  (forall entries, extract_experience U self text = Ok entries ->
     entries = map (join (py " ")) (blocks_of U self experience_keywords (split 10 text))) /\
  (forall keywords,
     Forall (fun b => b <> []) (blocks_of U self keywords (split 10 text)) /\
     concat (blocks_of U self keywords (split 10 text)) =
       section_lines U self keywords [] (split 10 text) /\
     sublist (section_lines U self keywords [] (split 10 text))
       (map (strip U) (split 10 text)) /\
     Forall (fun l => l <> []) (section_lines U self keywords [] (split 10 text))) /\
  (forall keywords above,
     open_below U self keywords (rev above) = true <->
     exists before line after,
       above = before ++ line :: after /\ opens U keywords line = true /\
       Forall (fun l => closes U self keywords l = false) after).
Proof.
  split; [| split; [| split]].
  - intros entries. apply extract_entries_blocks.
  - intros entries. apply extract_entries_blocks.
  - intros keywords. split; [apply blocks_of_not_empty |].
    split; [apply section_groups_concat |].
    split; [apply section_lines_sublist | apply section_lines_not_blank].
  - intros keywords above. apply open_below_spec.
Qed.

(** The claim of a partition: the blocks, end to end, are all the lines
    of the document but the blank ones. *)
Definition partitions (U : Unicode) (entries : list str) (text : str) : Prop :=
  exists blocks : list (list str),
    entries = map (join (py " ")) blocks /\
    concat blocks = List.filter nonempty (map (strip U) (split 10 text)).

Definition six_line_document : str :=
  py "John Doe" ++ [10%N] ++ py "Plumber" ++ [10%N] ++ py "London" ++ [10%N]
    ++ py "UK" ++ [10%N] ++ py "Since 1999" ++ [10%N] ++ py "Likes chess".

(** The sixth line of this document is in no block: the three section
    extractors and [extract_skills] return nothing, and [extract_summary]
    returns the first five lines. *)
Lemma line_outside_sections_is_lost :
  extract_education symbols_only __init__ six_line_document = Ok [] /\
  extract_experience symbols_only __init__ six_line_document = Ok [] /\
  extract_projects symbols_only __init__ six_line_document = Ok [] /\
  AnalyzerRest.skill_tokens symbols_only six_line_document = [] /\
  AnalyzerRest.extract_summary symbols_only six_line_document =
    py "John Doe Plumber London UK Since 1999" /\
  In (py "Likes chess") (map (strip symbols_only) (split 10 six_line_document)) /\
  ~ partitions symbols_only
      ([] ++ [] ++ [] ++ [] ++ [py "John Doe Plumber London UK Since 1999"])
      six_line_document.
Proof.
  split; [vm_compute; reflexivity |]. split; [vm_compute; reflexivity |].
  split; [vm_compute; reflexivity |]. split; [vm_compute; reflexivity |].
  split; [vm_compute; reflexivity |].
  split; [do 5 right; left; vm_compute; reflexivity |].
  intros (blocks & Hjoin & Hcat).
  destruct blocks as [| b [| b' blocks]]; try discriminate.
  cbn [concat] in Hcat. rewrite app_nil_r in Hcat. subst b.
  vm_compute in Hjoin. discriminate.
Qed.

(** An education section that the extractor of [__init__] does return. *)
Example education_entries :
  extract_education symbols_only __init__
    (py "Education: B.Tech, XYZ University" ++ [10%N] ++ py "  M.Sc, ABC College "
       ++ [10%N; 10%N] ++ py "PhD at DEF Institute") =
    Ok [py "Education: B.Tech, XYZ University M.Sc, ABC College"; py "PhD at DEF Institute"].
Proof. vm_compute. reflexivity. Qed.

(** ** Keyword matching *)
Section KeywordMatch.
Context (U : Unicode).

(** [w] is a contiguous part of [t]. *)
Definition occurs (w t : str) : Prop := exists pre post, t = pre ++ w ++ post.

(** The test of [calculate_keyword_match] on one skill, reduced to its
    first half: what is part of a fragment between periods is part of
    the text. *)
Definition skill_occurs (s skill : str) : bool :=
  contains (lower U skill) (lower U s).

Lemma split_head (sep : N) (s : str) :
  exists l ls rest, split sep s = l :: ls /\ s = l ++ rest.
Proof.
  induction s as [| c s (l & ls & rest & Hs & Hl)]; simpl.
  { exists [], [], []. done. }
  destruct (c =? sep)%N.
  - exists [], (split sep s), (c :: s). done.
  - rewrite Hs. exists (c :: l), ls, rest. by rewrite Hl at 1.
Qed.

Lemma split_fragment (sep : N) (s p : str) :
  In p (split sep s) -> occurs p s.
Proof.
  revert p; induction s as [| c s IH]; intros p; simpl.
  { intros [<- | []]. exists [], []. done. }
  destruct (c =? sep)%N.
  - intros [<- | Hin].
    + exists [], (c :: s). done.
    + destruct (IH p Hin) as (a & b & ->). exists (c :: a), b. done.
  - destruct (split_head sep s) as (l & ls & rest & Hs & Hl).
    rewrite Hs in IH |- *. intros [<- | Hin].
    + exists [], rest. simpl. by rewrite Hl at 1.
    + destruct (IH p (or_intror Hin)) as (a & b & ->). exists (c :: a), b. done.
Qed.

Lemma occurs_trans (w p t : str) : occurs w p -> occurs p t -> occurs w t.
Proof.
  intros (a & b & ->) (c & d & ->). exists (c ++ a), (b ++ d).
  by rewrite <- !app_assoc.
Qed.

Lemma fragments_add_nothing (w t : str) :
  contains w t = false ->
  existsb (fun phrase => contains w phrase) (split 46 t) = false.
Proof.
  intros Hno. apply not_true_iff_false. intros (p & Hin & Hp)%existsb_exists.
  apply not_true_iff_false in Hno. apply Hno, contains_spec.
  apply (occurs_trans w p t); [by apply contains_spec | by apply (split_fragment 46)].
Qed.

Lemma match_skills_partial_spec (skills : list str) (s : str) (found missing : list str) :
  match_skills_partial U skills (lower U s) found missing =
    (found ++ List.filter (skill_occurs s) skills,
     missing ++ List.filter (fun k => negb (skill_occurs s k)) skills).
Proof.
  revert found missing; induction skills as [| k skills IH]; intros found missing; simpl.
  { by rewrite !app_nil_r. }
  fold (skill_occurs s k).
  destruct (skill_occurs s k) eqn:Hc; simpl.
  - rewrite IH, <- app_assoc. done.
  - rewrite (fragments_add_nothing _ _ Hc), IH, <- app_assoc. done.
Qed.

Lemma skill_found_spec (s k : str) :
  skill_found U s k = true <-> word_bounded U (lower U k) (lower U s).
Proof. apply bounded_literal_spec. Qed.

Lemma skill_occurs_spec (s k : str) :
  skill_occurs s k = true <-> occurs (lower U k) (lower U s).
Proof. apply contains_spec. Qed.

Lemma word_bounded_occurs (w t : str) : word_bounded U w t -> occurs w t.
Proof. intros (pre & post & H & _). by exists pre, post. Qed.

(** Lower-casing works on each ASCII character by itself. *)
Lemma lower_at_app (whole : str) (i : nat) (a b : str) :
  lower_at U whole i (a ++ b) =
    lower_at U whole i a ++ lower_at U whole (i + length a) b.
Proof.
  revert i; induction a as [| c a IH]; intros i; simpl.
  { by rewrite Nat.add_0_r. }
  rewrite IH, <- app_assoc. do 3 f_equal. lia.
Qed.

Lemma lower_at_ascii (whole : str) (i : nat) (p : str) :
  forallb is_ascii p = true -> lower_at U whole i p = map ascii_to_lower p.
Proof.
  revert i; induction p as [| c p IH]; intros i; simpl; [done |].
  intros [-> Hp]%andb_true_iff. simpl. by rewrite IH.
Qed.

(** An ASCII phrase of the text is found, lower-cased, in the
    lower-cased text. *)
Lemma lower_phrase (pre phrase post : str) :
  forallb is_ascii phrase = true ->
  exists pre' post',
    lower U (pre ++ phrase ++ post) = pre' ++ map ascii_to_lower phrase ++ post'.
Proof.
  intros Hp. unfold lower. rewrite !lower_at_app, (lower_at_ascii _ _ phrase Hp). eauto.
Qed.
End KeywordMatch.

Definition python_phrase : str := py "Experienced in Python development".

(** The test that the specification describes: a whole word of the text
    (exact match), or a part of a fragment between periods (partial
    match), in any case. *)
Definition claimed_found (U : Unicode) (s skill : str) : bool :=
  skill_found U s skill ||
  existsb (fun phrase => contains (lower U skill) phrase) (split 46 (lower U s)).

(** C2, as the code has it. [_analyze_keyword_match], which
    [analyze_resume] calls, counts a skill when its lower-case form stands
    between two word boundaries of the lower-cased text, and has no
    partial match; [calculate_keyword_match] counts a skill when its
    lower-case form is a part of the lower-cased text, whole word or not.
    The found and the missing skills keep the order of the list, and the
    score is [(found / total) * 100] in floating point, truncated to an
    integer by the first. For [Python] and [SQL] and a text with
    "Experienced in Python development" and no "sql", both give 50,
    [Python] found and [SQL] missing. *)
Theorem keyword_match_as_coded (U : Unicode) (s : str) :
  (forall skills, skills <> [] ->
     _analyze_keyword_match U (VStr s) (requirements (Some skills)) =
       Ok (VDict
             [(py "score",
               VInt (PyFloat.percent
                       (Z.of_nat (length (List.filter (skill_found U s) skills)))
                       (Z.of_nat (length skills))));
              (py "found_skills", VList (map VStr (List.filter (skill_found U s) skills)));
              (py "missing_skills",
               VList (map VStr (List.filter (fun k => negb (skill_found U s k)) skills)))])) /\
  (forall k, skill_found U s k = true <-> word_bounded U (lower U k) (lower U s)) /\
  (forall skills, skills <> [] ->
     calculate_keyword_match U s skills =
       {| score := PyFloat.NFloat
                     (PyFloat.mul_int
                        (PyFloat.truediv
                           (Z.of_nat (length (List.filter (skill_occurs U s) skills)))
                           (Z.of_nat (length skills))) 100);
          found_skills := List.filter (skill_occurs U s) skills;
          missing_skills := List.filter (fun k => negb (skill_occurs U s k)) skills |}) /\
  (forall k, skill_occurs U s k = true <-> occurs (lower U k) (lower U s)) /\
  (occurs python_phrase s -> ~ occurs (py "sql") (lower U s) ->
   _analyze_keyword_match U (VStr s) (requirements (Some [py "Python"; py "SQL"])) =
     Ok (VDict [(py "score", VInt 50);
                (py "found_skills", VList [VStr (py "Python")]);
                (py "missing_skills", VList [VStr (py "SQL")])]) /\
   calculate_keyword_match U s [py "Python"; py "SQL"] =
     {| score := PyFloat.NFloat (PyFloat.Float (50 * 2 ^ 47) (-47));
        found_skills := [py "Python"];
        missing_skills := [py "SQL"] |}).
Proof.
  split; [| split; [| split; [| split]]].
  - intros skills Hs. rewrite analyze_keyword_match_str. unfold match_score.
    rewrite bool_decide_eq_false_2; [done |]. by destruct skills.
  - intros k. apply skill_found_spec.
  - intros skills Hs. unfold calculate_keyword_match.
    rewrite match_skills_partial_spec. simpl.
    rewrite bool_decide_eq_false_2; [done |]. by destruct skills.
  - intros k. apply skill_occurs_spec.
  - intros (pre & post & ->) Hsql.
    destruct (lower_phrase U pre python_phrase post eq_refl) as (pre' & post' & Hlow).
    set (s := pre ++ python_phrase ++ post) in *.
    assert (lower U s = (pre' ++ py "experienced in ") ++ py "python"
                          ++ (py " development" ++ post')) as Hsplit.
    { rewrite Hlow, <- !app_assoc. reflexivity. }
    assert (skill_found U s (py "Python") = true) as Hpy.
    { apply skill_found_spec. exists (pre' ++ py "experienced in "), (py " development" ++ post').
      split; [exact Hsplit |]. rewrite app_assoc, !last_app. split; reflexivity. }
    assert (skill_occurs U s (py "Python") = true) as Hpy'.
    { apply skill_occurs_spec. eexists _, _. exact Hsplit. }
    assert (skill_occurs U s (py "SQL") = false) as Hsql'.
    { apply not_true_iff_false. intros H%skill_occurs_spec. by apply Hsql. }
    assert (skill_found U s (py "SQL") = false) as Hsql''.
    { apply not_true_iff_false. intros H%skill_found_spec.
      by apply Hsql, (word_bounded_occurs U). }
    split.
    + rewrite analyze_keyword_match_str. cbn [List.filter].
      rewrite Hpy, Hsql''. reflexivity.
    + unfold calculate_keyword_match. rewrite match_skills_partial_spec.
      cbn [List.filter]. rewrite Hpy', Hsql'. reflexivity.
Qed.

(** [Python] is part of a fragment of "pythonic" but no whole word of it,
    and [_analyze_keyword_match] misses it; [Node.js] is neither a whole
    word nor a part of a fragment of "Edited node.json files", and
    [calculate_keyword_match] finds it. *)
Lemma keyword_match_differs_from_claim :
  claimed_found symbols_only (py "pythonic") (py "Python") = true /\
  _analyze_keyword_match symbols_only (VStr (py "pythonic"))
      (requirements (Some [py "Python"])) =
    Ok (VDict [(py "score", VInt 0);
               (py "found_skills", VList []);
               (py "missing_skills", VList [VStr (py "Python")])]) /\
  claimed_found symbols_only (py "Edited node.json files") (py "Node.js") = false /\
  found_skills (calculate_keyword_match symbols_only (py "Edited node.json files")
                  [py "Node.js"]) = [py "Node.js"].
Proof. repeat split; vm_compute; reflexivity. Qed.

(** The specification's example, run. *)
Example keyword_match_python_sql :
  _analyze_keyword_match symbols_only (VStr python_phrase)
      (requirements (Some [py "Python"; py "SQL"])) =
    Ok (VDict [(py "score", VInt 50);
               (py "found_skills", VList [VStr (py "Python")]);
               (py "missing_skills", VList [VStr (py "SQL")])]).
Proof. vm_compute. reflexivity. Qed.

(** Twenty-nine skills found of fifty: [29 / 50] rounds to a float just
    below 0.58, and the score is 57. *)
Example keyword_match_29_of_50 :
  _analyze_keyword_match symbols_only (VStr (py "a"))
      (requirements (Some (replicate 29 (py "a") ++ replicate 21 (py "b")))) =
    Ok (VDict [(py "score", VInt 57);
               (py "found_skills", VList (replicate 29 (VStr (py "a"))));
               (py "missing_skills", VList (replicate 21 (VStr (py "b"))))]) /\
  100 * 29 / 50 = 58.
Proof. split; vm_compute; reflexivity. Qed.

(** ** The theorems at concrete inputs *)

Definition bullet_text : str := replicate 49 120%N ++ [8226%N].

Lemma no_word_by_search (U : Unicode) (ws : list str) (text : str) :
  forallb (lettered_b U) ws = true ->
  re_search U (whole_words ws) (lower U text) = false ->
  ~ mentions_word U ws text.
Proof.
  intros Hws Hno H. apply whole_words_mentions in H; [congruence |].
  by apply lettered_check.
Qed.

Lemma no_keyword_by_search (U : Unicode) (ks : list str) (text : str) :
  keyword_hit U text ks = false -> ~ mentions_keyword U ks text.
Proof. intros Hno H%keyword_hit_spec. congruence. Qed.

Lemma ats_score_formula_witness :
  _calculate_ats_score symbols_only (VStr bullet_text) = Ok 55.
Proof.
  destruct (ats_score_formula symbols_only bullet_text)
    as (short & no_section & non_ascii & _ & _ & _ & _ & H).
  apply H.
  - reflexivity.
  - apply no_word_by_search; reflexivity.
  - exists 8226%N. split; [| reflexivity].
    apply elem_of_app. right. left.
Defined.

Lemma section_score_formula_witness :
  _calculate_section_score symbols_only __init__
    (VStr (py "Education: B.Tech, XYZ University")) = Ok 20.
Proof.
  destruct (section_score_formula symbols_only (py "Education: B.Tech, XYZ University"))
    as (a & b & c & d & e & _ & _ & _ & _ & _ & H).
  cbv zeta in H. destruct H as [_ H]. apply H.
  - apply keyword_hit_spec. reflexivity.
  - apply no_keyword_by_search; reflexivity.
  - apply no_keyword_by_search; reflexivity.
  - apply no_keyword_by_search; reflexivity.
  - apply no_keyword_by_search; reflexivity.
Defined.

Lemma suggestions_in_rule_order_witness :
  _generate_suggestions symbols_only (VStr (py "John Doe, Springfield")) =
    Ok [too_short; no_experience; no_education; no_skills].
Proof.
  destruct (suggestions_in_rule_order symbols_only (py "John Doe, Springfield"))
    as (a & b & c & d & _ & _ & _ & _ & _ & _ & _ & H).
  apply H.
  - reflexivity.
  - apply no_word_by_search; reflexivity.
  - apply no_word_by_search; reflexivity.
  - apply no_word_by_search; reflexivity.
Defined.

Lemma analyze_resume_never_raises_witness :
  analyze_resume symbols_only __init__ (VDict [(py "raw_text", VInt 5)]) VNone =
    Ok (VDict [(py "error",
                VStr (py "Error analyzing resume: "
                        ++ exn_str (TypeError (py "object of type 'int' has no len()"))))]) /\
  analyze_resume symbols_only __init__ (VDict [(py "raw_text", VInt 0)]) VNone =
    Ok (VDict [(py "error", VStr (py "No text content found in resume"))]).
Proof.
  split.
  - apply (proj1 (proj2 (analyze_resume_never_raises symbols_only __init__
                           (VDict [(py "raw_text", VInt 5)]) VNone))).
    reflexivity.
  - apply (proj2 (proj2 (analyze_resume_never_raises symbols_only __init__
                           (VDict [(py "raw_text", VInt 0)]) VNone)) (VInt 0));
      reflexivity.
Defined.

Lemma only_empty_text_is_refused_witness :
  analyze_resume symbols_only __init__ (resume []) (requirements None) =
    Ok (VDict [(py "error", VStr (py "No text content found in resume"))]) /\
  exists d,
    analyze_resume symbols_only __init__ (resume (py "   ")) (requirements None) =
      Ok (VDict d) /\
    assoc (py "error") d = None /\
    map fst d = map py ["document_type"; "ats_score"; "format_score";
                        "section_score"; "keyword_match"; "suggestions"]%string.
Proof.
  split.
  - apply (proj1 (only_empty_text_is_refused symbols_only [] None)). reflexivity.
  - apply (proj2 (only_empty_text_is_refused symbols_only (py "   ") None)). discriminate.
Defined.

Lemma keyword_match_as_coded_witness :
  _analyze_keyword_match symbols_only (VStr python_phrase)
      (requirements (Some [py "Python"; py "SQL"])) =
    Ok (VDict [(py "score", VInt 50);
               (py "found_skills", VList [VStr (py "Python")]);
               (py "missing_skills", VList [VStr (py "SQL")])]) /\
  calculate_keyword_match symbols_only python_phrase [py "Python"; py "SQL"] =
    {| score := PyFloat.NFloat (PyFloat.Float (50 * 2 ^ 47) (-47));
       found_skills := [py "Python"];
       missing_skills := [py "SQL"] |}.
Proof.
  apply (proj2 (proj2 (proj2 (proj2 (keyword_match_as_coded symbols_only python_phrase))))).
  - exists [], []. reflexivity.
  - intros H%contains_spec. vm_compute in H. discriminate.
Defined.

(** * Further properties of the analyzer *)

(** ** The format score *)
Section FormatScore.
Context (U : Unicode).

Lemma match_rep_spec (p : N -> bool) (s : str) (n : nat) (prev : option N) k :
  match_rep p s n prev k = true <->
  exists mid post, s = mid ++ post /\ (n <= length mid)%nat /\
    forallb p mid = true /\ k (last_or prev mid) post = true.
Proof.
  revert n prev; induction s as [| c s IH]; intros n prev; simpl.
  - rewrite orb_false_r. split.
    + destruct n; [| done]. intros H. exists [], []. done.
    + intros (mid & post & H & Hn & _ & Hk).
      symmetry in H. apply app_eq_nil in H as [-> ->].
      destruct n; [done | simpl in Hn; lia].
  - rewrite orb_true_iff, andb_true_iff, IH. split.
    + intros [H | [Hp (mid & post & -> & Hn & Hall & Hk)]].
      * destruct n; [| done]. exists [], (c :: s). done.
      * exists (c :: mid), post. simpl. rewrite Hp, Hall.
        repeat split; try done. lia.
    + intros (mid & post & H & Hn & Hall & Hk). destruct mid as [| c' mid]; simpl in *.
      * left. destruct n; [by subst post | lia].
      * right. injection H as -> ->. apply andb_true_iff in Hall as [Hp Hall].
        split; [done |]. exists mid, post. repeat split; try done. lia.
Qed.

(** [\n{2,}] is found exactly when two line feeds follow each other. *)
Lemma blank_line_search (s : str) :
  re_search U (Rep (N.eqb 10) 2) s = true <-> occurs [10; 10]%N s.
Proof.
  unfold re_search, occurs. rewrite search_from_spec. split.
  - intros (pre & rest & -> & H). cbn [rmatch] in H. apply match_rep_spec in H
      as (mid & post & -> & Hn & Hall & _).
    destruct mid as [| a [| b mid]]; simpl in Hn; try lia.
    cbn [forallb] in Hall. apply andb_true_iff in Hall as [Ha Hall].
    apply andb_true_iff in Hall as [Hb Hall].
    apply N.eqb_eq in Ha, Hb. subst a b.
    exists pre, (mid ++ post). done.
  - intros (pre & post & ->). exists pre, ([10; 10]%N ++ post). split; [done |].
    cbn [rmatch]. apply match_rep_spec. exists [10; 10]%N, post.
    repeat split; simpl; lia.
Qed.

(** A capital ASCII letter directly followed by a small one. *)
Definition capitalized_word (s : str) : Prop :=
  exists pre c d post,
    s = pre ++ c :: d :: post /\ ascii_upper c = true /\ ascii_lower d = true.

(** [[A-Z][a-z]+] *)
Lemma capitalized_search (s : str) :
  re_search U (Cat (Cls ascii_upper) (Rep ascii_lower 1)) s = true <-> capitalized_word s.
Proof.
  unfold re_search, capitalized_word. rewrite search_from_spec. split.
  - intros (pre & rest & -> & H). cbn [rmatch] in H. destruct rest as [| c rest]; [done |].
    apply andb_true_iff in H as [Hc H].
    apply match_rep_spec in H as (mid & post & -> & Hn & Hall & _).
    destruct mid as [| d mid]; simpl in Hn; [lia |].
    simpl in Hall. apply andb_true_iff in Hall as [Hd _].
    exists pre, c, d, (mid ++ post). done.
  - intros (pre & c & d & post & -> & Hc & Hd). exists pre, (c :: d :: post).
    split; [done |]. cbn [rmatch]. rewrite Hc. cbn [andb].
    apply match_rep_spec. exists [d], post. simpl. rewrite Hd.
    repeat split; lia.
Qed.

(** X1: the format score is 100, less 10 when the text has no two
    consecutive line feeds, less 10 when it has no capital ASCII letter
    followed by a small one; it is 80, 90 or 100. *)
Theorem format_score_formula (s : str) :
  exists no_break no_capital : bool,
    (no_break = true <-> ~ occurs [10; 10]%N s) /\
    (no_capital = true <-> ~ capitalized_word s) /\
    _calculate_format_score U (VStr s) =
      Ok (100 - 10 * Z.b2z no_break - 10 * Z.b2z no_capital).
Proof.
  exists (negb (re_search U (Rep (N.eqb 10) 2) s)),
         (negb (re_search U (Cat (Cls ascii_upper) (Rep ascii_lower 1)) s)).
  split; [apply negb_true_not, blank_line_search |].
  split; [apply negb_true_not, capitalized_search |].
  unfold _calculate_format_score, bind, py_re_search.
  destruct (re_search U (Rep (N.eqb 10) 2) s),
           (re_search U (Cat (Cls ascii_upper) (Rep ascii_lower 1)) s); reflexivity.
Qed.
End FormatScore.

(** ** Found and missing skills *)
Section KeywordLists.
Context (U : Unicode).

Lemma filter_split_perm {A} (p : A -> bool) (l : list A) :
  Permutation (List.filter p l ++ List.filter (fun x => negb (p x)) l) l.
Proof.
  induction l as [| x l IH]; simpl; [done |].
  destruct (p x); simpl.
  - by constructor.
  - rewrite <- Permutation_middle. by constructor.
Qed.

Lemma filter_sublist {A} (p : A -> bool) (l : list A) : sublist (List.filter p l) l.
Proof.
  induction l as [| x l IH]; simpl; [constructor |].
  destruct (p x); by constructor.
Qed.

Lemma filter_sublist_weaken {A} (p q : A -> bool) (l : list A) :
  (forall x, p x = true -> q x = true) ->
  sublist (List.filter p l) (List.filter q l).
Proof.
  intros Hpq. induction l as [| x l IH]; simpl; [constructor |].
  destruct (p x) eqn:Hp.
  - rewrite (Hpq x Hp). by constructor.
  - destruct (q x); [by constructor | done].
Qed.

Lemma filter_all {A} (p : A -> bool) (l : list A) :
  List.filter (fun x => negb (p x)) l = [] -> List.filter p l = l.
Proof.
  induction l as [| x l IH]; simpl; [done |].
  destruct (p x); simpl; [intros H; by rewrite IH | done].
Qed.

(** Nothing of a whole is 0 per cent and all of it is 100 per cent. *)
Lemma percent_none (b : Z) : PyFloat.percent 0 b = 0.
Proof. reflexivity. Qed.

Lemma percent_all (b : Z) : 0 < b -> PyFloat.percent b b = 100.
Proof.
  intros Hb. unfold PyFloat.percent, PyFloat.truediv.
  assert (PyFloat.round_ne b b = PyFloat.Float (2 ^ 52) (-52)) as ->; [| reflexivity].
  unfold PyFloat.round_ne, PyFloat.ilog2.
  rewrite (proj2 (Z.eqb_neq b 0)) by lia.
  rewrite Z.sub_diag. change (Z.max 0 0) with 0. change (Z.max (- 0) 0) with 0.
  rewrite Z.leb_refl. cbv zeta.
  change (52 - Z.max 0 (-1022)) with 52.
  change (Z.max 52 0) with 52. change (Z.max (- 52) 0) with 0.
  change (2 ^ 0) with 1. rewrite Z.mul_1_r.
  rewrite (Z.mul_comm b), Z.div_mul, Z.mod_mul by lia.
  rewrite (proj2 (Z.ltb_lt (2 * 0) b)) by lia. reflexivity.
Qed.

(** X2: with a list of skill names, [_analyze_keyword_match] sorts every
    skill into exactly one of [found_skills] and [missing_skills], both in
    the order of the list and with repetitions kept; the score is an
    integer from 0 to 100, 0 when nothing is found (also for the empty
    list, where nothing is divided) and 100 when nothing is missing. *)
Theorem analyze_keyword_match_partition (s : str) (skills : list str) :
  exists (score : Z) (found missing : list str),
    _analyze_keyword_match U (VStr s) (requirements (Some skills)) =
      Ok (VDict [(py "score", VInt score);
                 (py "found_skills", VList (map VStr found));
                 (py "missing_skills", VList (map VStr missing))]) /\
    Permutation (found ++ missing) skills /\
    sublist found skills /\ sublist missing skills /\
    0 <= score <= 100 /\
    (found = [] -> score = 0) /\
    (missing = [] -> skills <> [] -> score = 100).
Proof.
  exists (match_score (length (List.filter (skill_found U s) skills)) (length skills)),
         (List.filter (skill_found U s) skills),
         (List.filter (fun k => negb (skill_found U s k)) skills).
  split; [apply analyze_keyword_match_str |].
  split; [apply filter_split_perm |].
  split; [apply filter_sublist |]. split; [apply filter_sublist |].
  split; [apply match_score_range |]. split.
  - intros ->. unfold match_score. by case_bool_decide.
  - intros Hall%filter_all Hne. rewrite Hall. unfold match_score.
    rewrite bool_decide_eq_false_2 by (by destruct skills).
    apply percent_all. destruct skills; simpl; [done | lia].
Qed.

(** X3: [calculate_keyword_match] sorts every skill into exactly one of
    the two lists in the same way; its score is the int 0 for the empty
    list and otherwise a float from 0 to 100. *)
Theorem calculate_keyword_match_partition (s : str) (skills : list str) :
  let r := calculate_keyword_match U s skills in
  Permutation (found_skills r ++ missing_skills r) skills /\
  sublist (found_skills r) skills /\ sublist (missing_skills r) skills /\
  (skills = [] -> score r = PyFloat.NInt 0) /\
  (skills <> [] ->
   exists x, score r = PyFloat.NFloat x /\ 0 <= PyFloat.fm x /\ PyFloat.le_int x 100).
Proof.
  unfold calculate_keyword_match. rewrite match_skills_partial_spec. simpl.
  split; [apply filter_split_perm |].
  split; [apply filter_sublist |]. split; [apply filter_sublist |]. split.
  - intros ->. reflexivity.
  - intros Hne. rewrite bool_decide_eq_false_2 by (by destruct skills). simpl.
    eexists. split; [reflexivity |].
    set (a := Z.of_nat (length (List.filter (skill_occurs U s) skills))).
    set (b := Z.of_nat (length skills)).
    assert (0 <= a <= b) as Hab.
    { unfold a, b. pose proof (filter_length_le (skill_occurs U s) skills). lia. }
    assert (0 < b) as Hb by (unfold b; destruct skills; simpl; [done | lia]).
    pose proof (PyFloatFacts.round_ne_nonneg a b ltac:(lia) Hb) as Hx0.
    pose proof (PyFloatFacts.round_ne_le_int a b 1 ltac:(lia) Hb ltac:(lia) ltac:(lia)) as Hx1.
    unfold PyFloat.truediv, PyFloat.mul_int.
    set (x := PyFloat.round_ne a b) in *. unfold PyFloat.le_int in Hx1.
    pose proof (PyFloatFacts.pow2_pos (PyFloat.fe x)).
    pose proof (PyFloatFacts.pow2_pos (- PyFloat.fe x)).
    split.
    + apply PyFloatFacts.round_ne_nonneg; nia.
    + apply PyFloatFacts.round_ne_le_int; try lia; nia.
Qed.

(** X4: whatever [_analyze_keyword_match] finds, [calculate_keyword_match]
    finds too, and whatever the second misses, the first misses: a skill
    between word boundaries is a part of the text. *)
Theorem whole_word_matches_are_substring_matches (s : str) (skills : list str) :
  exists (score : Z) (found missing : list str),
    _analyze_keyword_match U (VStr s) (requirements (Some skills)) =
      Ok (VDict [(py "score", VInt score);
                 (py "found_skills", VList (map VStr found));
                 (py "missing_skills", VList (map VStr missing))]) /\
    sublist found (found_skills (calculate_keyword_match U s skills)) /\
    sublist (missing_skills (calculate_keyword_match U s skills)) missing.
Proof.
  eexists _, _, _. split; [apply analyze_keyword_match_str |].
  unfold calculate_keyword_match. rewrite match_skills_partial_spec. simpl.
  assert (forall k, skill_found U s k = true -> skill_occurs U s k = true) as Himp.
  { intros k H%skill_found_spec. apply skill_occurs_spec.
    by apply (word_bounded_occurs U). }
  split; apply filter_sublist_weaken; [done |].
  intros k Hk. destruct (skill_found U s k) eqn:Hf; [| done].
  apply Himp in Hf. rewrite Hf in Hk. done.
Qed.
End KeywordLists.

(** ** The scores as numbers *)

(** The float is a whole number. *)
Definition integral (x : PyFloat.float) : Prop :=
  exists n : Z,
    PyFloat.fm x * 2 ^ Z.max (PyFloat.fe x) 0 = n * 2 ^ Z.max (- PyFloat.fe x) 0.

Section ScoreNumbers.
Context (U : Unicode).

(** The score of [calculate_keyword_match] for a list that is not empty:
    the float [(found / total) * 100], with no [int()] around it. *)
Lemma partial_match_score (s : str) (skills : list str) :
  skills <> [] ->
  score (calculate_keyword_match U s skills) =
    PyFloat.NFloat
      (PyFloat.mul_int
         (PyFloat.truediv
            (Z.of_nat (length (found_skills (calculate_keyword_match U s skills))))
            (Z.of_nat (length skills))) 100).
Proof.
  intros Hne. unfold calculate_keyword_match. rewrite match_skills_partial_spec.
  cbn [score found_skills]. by rewrite bool_decide_eq_false_2 by (by destruct skills).
Qed.

Lemma partial_match_score_range (s : str) (skills : list str) :
  skills <> [] ->
  exists x, score (calculate_keyword_match U s skills) = PyFloat.NFloat x /\
    0 <= PyFloat.fm x /\ PyFloat.le_int x 100.
Proof.
  intros Hne. rewrite partial_match_score by done. eexists. split; [reflexivity |].
  unfold calculate_keyword_match. rewrite match_skills_partial_spec. cbn [found_skills app].
  set (a := Z.of_nat (length (List.filter (skill_occurs U s) skills))).
  set (b := Z.of_nat (length skills)).
  assert (0 <= a <= b) as Hab.
  { unfold a, b. pose proof (filter_length_le (skill_occurs U s) skills). lia. }
  assert (0 < b) as Hb by (unfold b; destruct skills; simpl; [done | lia]).
  pose proof (PyFloatFacts.round_ne_nonneg a b ltac:(lia) Hb) as Hx0.
  pose proof (PyFloatFacts.round_ne_le_int a b 1 ltac:(lia) Hb ltac:(lia) ltac:(lia)) as Hx1.
  unfold PyFloat.truediv, PyFloat.mul_int.
  set (x := PyFloat.round_ne a b) in *. unfold PyFloat.le_int in Hx1.
  pose proof (PyFloatFacts.pow2_pos (PyFloat.fe x)).
  pose proof (PyFloatFacts.pow2_pos (- PyFloat.fe x)).
  split.
  - apply PyFloatFacts.round_ne_nonneg; nia.
  - apply PyFloatFacts.round_ne_le_int; try lia; nia.
Qed.

(** C9, as the code has it: for a text that is not empty, with the
    requirements absent or any list of skills, the four scores that
    [analyze_resume] reports (ATS, format, section and keyword match) are
    integers between 0 and 100. The score of the stand-alone
    [calculate_keyword_match] is a number between 0 and 100 as well, but
    not an integer: it is the int 0 for an empty list of skills and
    otherwise the float [(found / total) * 100]. *)
Theorem scores_within_0_100 (s : str) (o : option (list str)) (skills : list str) :
  s <> [] ->
  (exists d km ats fmt sec kw,
     analyze_resume U __init__ (resume s) (requirements o) = Ok (VDict d) /\
     assoc (py "ats_score") d = Some (VInt ats) /\ 0 <= ats <= 100 /\
     assoc (py "format_score") d = Some (VInt fmt) /\ 0 <= fmt <= 100 /\
     assoc (py "section_score") d = Some (VInt sec) /\ 0 <= sec <= 100 /\
     assoc (py "keyword_match") d = Some (VDict km) /\
     assoc (py "score") km = Some (VInt kw) /\ 0 <= kw <= 100) /\
  (skills = [] -> score (calculate_keyword_match U s skills) = PyFloat.NInt 0) /\
  (skills <> [] ->
   exists x,
     score (calculate_keyword_match U s skills) = PyFloat.NFloat x /\
     x = PyFloat.mul_int
           (PyFloat.truediv
              (Z.of_nat (length (found_skills (calculate_keyword_match U s skills))))
              (Z.of_nat (length skills))) 100 /\
     0 <= PyFloat.fm x /\ PyFloat.le_int x 100).
Proof.
  intros Hs. split; [by apply analysis_scores_within_0_100 |]. split.
  - intros ->. reflexivity.
  - intros Hne. destruct (partial_match_score_range s skills Hne) as (x & Hx & Hlo & Hhi).
    exists x. split; [done |]. split; [| done].
    rewrite partial_match_score in Hx by done. congruence.
Qed.
End ScoreNumbers.

Definition python_developer : str := py "Python developer".

(** One skill of three: [analyze_resume] would report the integer 33,
    [calculate_keyword_match] returns the float 33.33333333333333, which
    is no integer. *)
Lemma keyword_score_is_no_integer :
  python_developer <> [] /\
  score (calculate_keyword_match symbols_only python_developer
           [py "Python"; py "SQL"; py "Go"]) =
    PyFloat.NFloat (PyFloat.Float 4691249611844266 (-47)) /\
  ~ integral (PyFloat.Float 4691249611844266 (-47)) /\
  PyFloat.lt_int (PyFloat.Float 4691249611844266 (-47)) 34 = true /\
  PyFloat.lt_int (PyFloat.Float 4691249611844266 (-47)) 33 = false /\
  _analyze_keyword_match symbols_only (VStr python_developer)
      (requirements (Some [py "Python"; py "SQL"; py "Go"])) =
    Ok (VDict [(py "score", VInt 33);
               (py "found_skills", VList [VStr (py "Python")]);
               (py "missing_skills", VList [VStr (py "SQL"); VStr (py "Go")])]).
Proof.
  split; [discriminate |]. split; [vm_compute; reflexivity |]. split.
  - intros [n Hn]. cbn [PyFloat.fm PyFloat.fe] in Hn.
    change (Z.max (-47) 0) with 0 in Hn. change (Z.max (- -47) 0) with 47 in Hn.
    change (2 ^ 0) with 1 in Hn. change (2 ^ 47) with 140737488355328 in Hn. lia.
  - split; [vm_compute; reflexivity |]. split; vm_compute; reflexivity.
Qed.

Lemma scores_within_0_100_witness :
  (exists d km ats fmt sec kw,
     analyze_resume symbols_only __init__ (resume python_developer)
       (requirements (Some [py "Python"; py "SQL"; py "Go"])) = Ok (VDict d) /\
     assoc (py "ats_score") d = Some (VInt ats) /\ 0 <= ats <= 100 /\
     assoc (py "format_score") d = Some (VInt fmt) /\ 0 <= fmt <= 100 /\
     assoc (py "section_score") d = Some (VInt sec) /\ 0 <= sec <= 100 /\
     assoc (py "keyword_match") d = Some (VDict km) /\
     assoc (py "score") km = Some (VInt kw) /\ 0 <= kw <= 100) /\
  (exists x,
     score (calculate_keyword_match symbols_only python_developer
              [py "Python"; py "SQL"; py "Go"]) = PyFloat.NFloat x /\
     x = PyFloat.mul_int
           (PyFloat.truediv
              (Z.of_nat (length (found_skills
                                   (calculate_keyword_match symbols_only python_developer
                                      [py "Python"; py "SQL"; py "Go"]))))
              (Z.of_nat (length [py "Python"; py "SQL"; py "Go"]))) 100 /\
     0 <= PyFloat.fm x /\ PyFloat.le_int x 100).
Proof.
  split.
  - apply (proj1 (scores_within_0_100 symbols_only python_developer
                    (Some [py "Python"; py "SQL"; py "Go"]) [] ltac:(discriminate))).
  - apply (proj2 (proj2 (scores_within_0_100 symbols_only python_developer None
                           [py "Python"; py "SQL"; py "Go"] ltac:(discriminate)))).
    discriminate.
Defined.

(** ** When the section extractors return *)
Section ExtractorRuns.
Context (U : Unicode).

(** A line with a keyword of the section: it opens the section. *)
Definition heading (keywords : list str) (line : str) : Prop :=
  any_in_line U keywords line = true.

(** Among the stripped lines of the text, a line that is not blank and
    has no keyword stands below a line with a keyword. *)
Definition free_line_below_heading (keywords : list str) (text : str) : Prop :=
  exists above line below h,
    map (strip U) (split 10 text) = above ++ line :: below /\
    h ∈ above /\ heading keywords h /\
    line <> [] /\ ~ heading keywords line.

(** The loop stops with an exception at such a line. *)
Fixpoint stuck (keywords : list str) (in_section : bool) (lines : list str) : bool :=
  match lines with
  | [] => false
  | line :: rest =>
      if any_in_line U keywords line then stuck keywords true rest
      else if in_section then
        if nonempty line then true else stuck keywords true rest
      else stuck keywords false rest
  end.

Lemma stuck_spec (keywords : list str) (in_section : bool) (lines : list str) :
  stuck keywords in_section lines = true <->
  exists above line below,
    lines = above ++ line :: below /\
    (in_section = true \/ exists h, h ∈ above /\ heading keywords h) /\
    line <> [] /\ ~ heading keywords line.
Proof.
  unfold heading.
  revert in_section; induction lines as [| l lines IH]; intros in_section; simpl.
  { split; [done | intros (a & x & b & H & _)]. by destruct a. }
  destruct (any_in_line U keywords l) eqn:Hl.
  - rewrite IH. split.
    + intros (a & x & b & -> & _ & Hx & Hn). exists (l :: a), x, b.
      repeat split; try done. right. exists l. split; [left | done].
    + intros (a & x & b & H & Hsec & Hx & Hn). destruct a as [| l' a]; simpl in H.
      * injection H as -> ->. congruence.
      * injection H as -> ->. exists a, x, b. repeat split; try done. by left.
  - destruct in_section.
    + destruct (nonempty l) eqn:Hne.
      * split; [| done]. intros _. exists [], l, lines.
        repeat split; try done; [by left | by apply nonempty_spec | congruence].
      * rewrite IH. split.
        -- intros (a & x & b & -> & _ & Hx & Hn). exists (l :: a), x, b.
           repeat split; try done. by left.
        -- intros (a & x & b & H & _ & Hx & Hn). destruct a as [| l' a]; simpl in H.
           ++ injection H as -> ->. apply nonempty_spec in Hx. congruence.
           ++ injection H as -> ->. exists a, x, b. repeat split; try done. by left.
    + rewrite IH. split.
      * intros (a & x & b & -> & [? | (h & Hh & Hk)] & Hx & Hn); [done |].
        exists (l :: a), x, b. repeat split; try done. right. exists h.
        split; [by right | done].
      * intros (a & x & b & H & [? | (h & Hh & Hk)] & Hx & Hn); [done |].
        destruct a as [| l' a]; simpl in H; [by apply elem_of_nil in Hh |].
        injection H as -> ->. apply elem_of_cons in Hh as [-> | Hh]; [congruence |].
        exists a, x, b. repeat split; try done. right. eauto.
Qed.

Definition missing_document_types : exn :=
  AttributeError (py "'ResumeAnalyzer' object has no attribute 'document_types'").

(** The loop on an analyzer without [document_types]. *)
Lemma entry_loop_without_types (self : ResumeAnalyzer) (keywords : list str)
    (lines : list str) (st : entry_state) :
  document_types self = None ->
  if stuck keywords (in_section st) (map (strip U) lines)
  then entry_loop U self keywords lines st = Raise missing_document_types
  else exists st', entry_loop U self keywords lines st = Ok st'.
Proof.
  intros Hnone. revert st; induction lines as [| l lines IH]; intros st; simpl.
  { eauto. }
  unfold entry_step at 1 2. destruct (any_in_line U keywords (strip U l)) eqn:Hl.
  { unfold bind. apply (IH {| entries := entries st; in_section := true;
                              current_entry := _ |}). }
  destruct (in_section st) eqn:Hsec.
  - destruct (nonempty (strip U l)) eqn:Hne.
    + unfold getattr. rewrite Hnone. reflexivity.
    + unfold bind. simpl.
      destruct (nonempty (current_entry st)).
      * specialize (IH (flush st)). simpl in IH. by rewrite Hsec in IH.
      * specialize (IH st). by rewrite Hsec in IH.
  - unfold bind. specialize (IH st). by rewrite Hsec in IH.
Qed.

Lemma extract_entries_without_types (self : ResumeAnalyzer) (keywords : list str)
    (text : str) :
  document_types self = None ->
  (free_line_below_heading keywords text ->
   extract_entries U self keywords text = Raise missing_document_types) /\
  (~ free_line_below_heading keywords text ->
   exists entries, extract_entries U self keywords text = Ok entries).
Proof.
  intros Hnone.
  pose proof (entry_loop_without_types self keywords (split 10 text)
                {| entries := []; in_section := false; current_entry := [] |} Hnone) as Hloop.
  cbn [in_section] in Hloop.
  assert (stuck keywords false (map (strip U) (split 10 text)) = true <->
          free_line_below_heading keywords text) as Hspec.
  { rewrite stuck_spec. unfold free_line_below_heading. split.
    - intros (a & x & b & H & [? | (h & Hh & Hk)] & Hx & Hn); [done |].
      exists a, x, b, h. done.
    - intros (a & x & b & h & H & Hh & Hk & Hx & Hn). exists a, x, b.
      repeat split; try done. right. eauto. }
  unfold extract_entries.
  destruct (stuck keywords false (map (strip U) (split 10 text))).
  - split; [intros _; by rewrite Hloop | intros H; destruct H; by apply Hspec].
  - split; [intros H%Hspec; done |]. intros _. destruct Hloop as [st' ->].
    simpl. eauto.
Qed.

(** X5: on an analyzer as the constructor makes it, each of the three
    section extractors returns exactly on the texts in which no line that
    is not blank and has none of its keywords stands below a line with a
    keyword; on every other text it raises [AttributeError], because
    [self.document_types] does not exist. *)
Theorem extractors_after_init (text : str) :
  (free_line_below_heading education_keywords text ->
   extract_education U __init__ text = Raise missing_document_types) /\
  (~ free_line_below_heading education_keywords text ->
   exists entries, extract_education U __init__ text = Ok entries) /\
  (free_line_below_heading experience_keywords text ->
   extract_experience U __init__ text = Raise missing_document_types) /\
  (~ free_line_below_heading experience_keywords text ->
   exists entries, extract_experience U __init__ text = Ok entries) /\
  (free_line_below_heading project_keywords text ->
   extract_projects U __init__ text = Raise missing_document_types) /\
  (~ free_line_below_heading project_keywords text ->
   exists entries, extract_projects U __init__ text = Ok entries).
Proof.
  pose proof (extract_entries_without_types __init__ education_keywords text eq_refl) as [? ?].
  pose proof (extract_entries_without_types __init__ experience_keywords text eq_refl) as [? ?].
  pose proof (extract_entries_without_types __init__ project_keywords text eq_refl) as [? ?].
  done.
Qed.
End ExtractorRuns.

Section ExtractorResults.
Context (U : Unicode) (self : ResumeAnalyzer).

Lemma entry_loop_no_heading (keywords : list str) (lines : list str) (st : entry_state) :
  in_section st = false ->
  Forall (fun line => any_in_line U keywords (strip U line) = false) lines ->
  entry_loop U self keywords lines st = Ok st.
Proof.
  intros Hsec Hall. induction Hall as [| l lines Hl Hall IH]; simpl; [done |].
  unfold entry_step. rewrite Hl, Hsec. unfold bind. exact IH.
Qed.

Lemma extract_entries_no_heading (keywords : list str) (text : str) :
  Forall (fun line => any_in_line U keywords (strip U line) = false) (split 10 text) ->
  extract_entries U self keywords text = Ok [].
Proof.
  intros Hall. unfold extract_entries.
  rewrite entry_loop_no_heading by done. reflexivity.
Qed.

(** X6: a text in which no line has a keyword of the section gives no
    entry, on every analyzer: the extractor returns the empty list and
    reads no attribute of [self]. *)
Theorem no_heading_no_entries (text : str) :
  (Forall (fun line => any_in_line U education_keywords (strip U line) = false)
     (split 10 text) ->
   extract_education U self text = Ok []) /\
  (Forall (fun line => any_in_line U experience_keywords (strip U line) = false)
     (split 10 text) ->
   extract_experience U self text = Ok []) /\
  (Forall (fun line => any_in_line U project_keywords (strip U line) = false)
     (split 10 text) ->
   extract_projects U self text = Ok []).
Proof. repeat split; apply extract_entries_no_heading. Qed.

(** X7: once [self.document_types] holds a list under [resume], the
    three section extractors return on every text. *)
Theorem extractors_total_with_document_types (text : str) types resume_words :
  document_types self = Some types ->
  assoc (py "resume") types = Some resume_words ->
  (exists entries, extract_education U self text = Ok entries) /\
  (exists entries, extract_experience U self text = Ok entries) /\
  (exists entries, extract_projects U self text = Ok entries).
Proof.
  intros Hattr Hitem.
  repeat split; by apply (extract_entries_total U self _ text types resume_words).
Qed.

(** X8: when [extract_projects] returns, its entries are blocks of
    stripped lines of the text that are not blank, in the order of the
    text and each used at most once, joined by a space. *)
Theorem project_entries_are_document_lines (text : str) (entries : list str) :
  extract_projects U self text = Ok entries ->
  segments U entries (split 10 text).
Proof. apply extract_entries_segments. Qed.
End ExtractorResults.

Definition analyzer_with_types : ResumeAnalyzer :=
  {| sections := sections __init__;
     document_types := Some [(py "resume", map py ["experience"; "skills"; "projects"]%string)];
     essential_sections := None |}.

Definition projects_text : str :=
  py "Projects" ++ [10%N] ++ py "  Resume parser in Python " ++ [10%N]
    ++ py "Deployed on AWS" ++ [10%N; 10%N] ++ py "Chat bot" ++ [10%N]
    ++ py "Skills: Python".

Lemma no_heading_no_entries_witness :
  extract_education symbols_only __init__ (py "John Doe" ++ [10%N] ++ py "Plumber") = Ok [].
Proof.
  apply (proj1 (no_heading_no_entries symbols_only __init__
                  (py "John Doe" ++ [10%N] ++ py "Plumber"))).
  repeat constructor.
Defined.

Lemma extractors_total_with_document_types_witness :
  (exists entries, extract_education symbols_only analyzer_with_types projects_text = Ok entries) /\
  (exists entries, extract_experience symbols_only analyzer_with_types projects_text = Ok entries) /\
  (exists entries, extract_projects symbols_only analyzer_with_types projects_text = Ok entries).
Proof.
  apply (extractors_total_with_document_types symbols_only analyzer_with_types projects_text
           [(py "resume", map py ["experience"; "skills"; "projects"]%string)]
           (map py ["experience"; "skills"; "projects"]%string));
    reflexivity.
Defined.

Lemma project_entries_are_document_lines_witness :
  segments symbols_only [py "Resume parser in Python Deployed on AWS"; py "Chat bot"]
    (split 10 projects_text).
Proof.
  apply (project_entries_are_document_lines symbols_only analyzer_with_types projects_text).
  vm_compute. reflexivity.
Defined.

Definition education_document : str :=
  py "John Doe" ++ [10%N] ++ py "Education" ++ [10%N] ++ py "BSc Physics, XYZ" ++ [10%N]
    ++ py "  2015-2018 " ++ [10%N; 10%N] ++ py "MSc Physics" ++ [10%N]
    ++ py "Skills: Python" ++ [10%N] ++ py "Java".

Definition experience_document : str :=
  py "Experience" ++ [10%N] ++ py "Acme Corp, 2019-2021" ++ [10%N] ++ py "Built things"
    ++ [10%N; 10%N] ++ py "Projects" ++ [10%N] ++ py "Chat bot".

Lemma entries_are_the_lines_of_the_section_witness :
  (extract_education symbols_only analyzer_with_types education_document =
     Ok [py "BSc Physics, XYZ 2015-2018"; py "MSc Physics"] /\
   [py "BSc Physics, XYZ 2015-2018"; py "MSc Physics"] =
     map (join (py " "))
       (blocks_of symbols_only analyzer_with_types education_keywords
          (split 10 education_document)) /\
   blocks_of symbols_only analyzer_with_types education_keywords
     (split 10 education_document) =
     [[py "BSc Physics, XYZ"; py "2015-2018"]; [py "MSc Physics"]]) /\
  (extract_experience symbols_only analyzer_with_types experience_document =
     Ok [py "Acme Corp, 2019-2021 Built things"] /\
   [py "Acme Corp, 2019-2021 Built things"] =
     map (join (py " "))
       (blocks_of symbols_only analyzer_with_types experience_keywords
          (split 10 experience_document)) /\
   blocks_of symbols_only analyzer_with_types experience_keywords
     (split 10 experience_document) = [[py "Acme Corp, 2019-2021"; py "Built things"]]).
Proof.
  split.
  - split; [vm_compute; reflexivity |]. split; [| vm_compute; reflexivity].
    apply (proj1 (entries_are_the_lines_of_the_section symbols_only analyzer_with_types
                    education_document)).
    vm_compute. reflexivity.
  - split; [vm_compute; reflexivity |]. split; [| vm_compute; reflexivity].
    apply (proj1 (proj2 (entries_are_the_lines_of_the_section symbols_only
                           analyzer_with_types experience_document))).
    vm_compute. reflexivity.
Defined.

(** ** Splitting into lines *)
Section Lines.

Lemma split_not_nil (sep : N) (s : str) : split sep s <> [].
Proof. destruct (split_head sep s) as (l & ls & rest & -> & _). done. Qed.

(** [(a + sep + b).split(sep) == a.split(sep) + b.split(sep)] *)
Lemma split_app (sep : N) (a b : str) :
  split sep (a ++ sep :: b) = split sep a ++ split sep b.
Proof.
  induction a as [| c a IH]; simpl.
  { by rewrite N.eqb_refl. }
  destruct (c =? sep)%N; [by rewrite IH |].
  rewrite IH. destruct (split_head sep a) as (l & ls & rest & -> & _). done.
Qed.

(** The pieces of a split hold no separator. *)
Lemma split_no_sep (sep : N) (s piece : str) :
  In piece (split sep s) -> ~ In sep piece.
Proof.
  revert piece; induction s as [| c s IH]; intros piece; simpl.
  { intros [<- | []] []. }
  destruct (c =? sep)%N eqn:Hc.
  - intros [<- | Hin]; [intros [] | by apply IH].
  - destruct (split_head sep s) as (l & ls & rest & Hs & _). rewrite Hs in IH |- *.
    intros [<- | Hin].
    + intros [-> | Hl]; [by rewrite N.eqb_refl in Hc |]. by apply (IH l); [left |].
    + apply IH. by right.
Qed.
End Lines.

(** ** Stripping *)
Section Strip.
Context (U : Unicode).

Lemma lstrip_suffix (s : str) : exists pre, s = pre ++ lstrip U s.
Proof.
  induction s as [| c s (pre & IH)]; simpl; [by exists [] |].
  destruct (is_space U c); [| by exists []].
  exists (c :: pre). simpl. by rewrite <- IH.
Qed.

(** A stripped string is a part of the string. *)
Lemma strip_occurs (s : str) : occurs (strip U s) s.
Proof.
  unfold strip, rstrip.
  destruct (lstrip_suffix s) as (pre & Hs).
  destruct (lstrip_suffix (rev (lstrip U s))) as (post & Hr).
  exists pre, (rev post). rewrite Hs at 1. f_equal.
  rewrite <- rev_app_distr, <- Hr, rev_involutive. done.
Qed.

Lemma strip_subset (s : str) (c : N) : In c (strip U s) -> In c s.
Proof.
  destruct (strip_occurs s) as (pre & post & Hs). intros Hc.
  rewrite Hs. apply in_or_app. right. apply in_or_app. by left.
Qed.

Lemma lstrip_head (s : str) :
  match lstrip U s with [] => True | c :: _ => is_space U c = false end.
Proof.
  induction s as [| c s IH]; simpl; [done |].
  destruct (is_space U c) eqn:Hc; done.
Qed.

Lemma lstrip_id (s : str) :
  match s with [] => True | c :: _ => is_space U c = false end -> lstrip U s = s.
Proof. destruct s as [| c s]; simpl; [done | by intros ->]. Qed.

(** A stripped string neither begins nor ends with white space. *)
Lemma strip_ends (s : str) :
  match strip U s with [] => True | c :: _ => is_space U c = false end /\
  match list.last (strip U s) with None => True | Some c => is_space U c = false end.
Proof.
  unfold strip, rstrip. set (t := lstrip U s).
  pose proof (lstrip_head s) as Ht. fold t in Ht.
  pose proof (lstrip_head (rev t)) as Hr.
  destruct (lstrip_suffix (rev t)) as (pre & Hpre).
  set (r := lstrip U (rev t)) in *. split.
  - assert (t = rev r ++ rev pre) as Heq.
    { rewrite <- rev_app_distr, <- Hpre, rev_involutive. done. }
    destruct (rev r) as [| c r'] eqn:Hrr; [done |].
    rewrite Heq in Ht. done.
  - destruct r as [| c r']; [done |]. simpl. rewrite last_snoc. done.
Qed.
End Strip.

(** ** The summary *)
Section Summary.
Import AnalyzerRest.
Context (U : Unicode).

(** A line that goes into the summary: not blank, and none of
    "experience", "education", "skills" is a part of it in any case. *)
Definition summary_line (line : str) : bool :=
  nonempty (strip U line) &&
  negb (existsb (fun keyword => contains keyword (lower U line)) summary_keywords).

Lemma summary_loop_filter (lines summary : list str) :
  summary_loop U lines summary =
    summary ++ map (strip U) (List.filter summary_line lines).
Proof.
  revert summary; induction lines as [| line lines IH]; intros summary.
  { simpl. by rewrite app_nil_r. }
  cbn [summary_loop List.filter]. fold (summary_line line).
  destruct (summary_line line); rewrite IH; cbn [map].
  - by rewrite <- app_assoc.
  - done.
Qed.

Lemma join_in (sep : str) (parts : list str) (c : N) :
  In c (join sep parts) -> In c sep \/ exists p, In p parts /\ In c p.
Proof.
  induction parts as [| p parts IH]; simpl; [done |].
  destruct parts as [| q parts].
  { intros H. right. exists p. split; [by left | done]. }
  intros [H | [H | H]%in_app_or]%in_app_or.
  - right. exists p. split; [by left | done].
  - by left.
  - destruct (IH H) as [? | (p' & Hp & Hc)]; [by left |].
    right. exists p'. split; [by right | done].
Qed.

(** X9: [extract_summary] joins, by single spaces, the stripped forms of
    those of the first five lines that are not blank and mention none of
    the three keywords; what follows the fifth line has no effect, the
    summary is empty when no such line exists, and it holds no line
    feed. *)
Theorem summary_of_first_five_lines (text : str) :
  extract_summary U text =
    join (py " ") (map (strip U) (List.filter summary_line (take 5 (split 10 text)))) /\
  (forall more, (5 <= length (split 10 text))%nat ->
     extract_summary U (text ++ 10%N :: more) = extract_summary U text) /\
  (Forall (fun line => summary_line line = false) (take 5 (split 10 text)) ->
     extract_summary U text = []) /\
  ~ In 10%N (extract_summary U text).
Proof.
  assert (forall t, extract_summary U t =
            join (py " ") (map (strip U) (List.filter summary_line (take 5 (split 10 t)))))
    as Hrun.
  { intros t. unfold extract_summary. by rewrite summary_loop_filter. }
  split; [apply Hrun |]. split; [| split].
  - intros more Hlen. rewrite !Hrun, split_app, take_app_le by done. done.
  - intros Hall. rewrite Hrun.
    replace (List.filter summary_line (take 5 (split 10 text))) with (@nil str); [done |].
    symmetry. induction Hall as [| l ls Hl Hall IH]; simpl; [done |]. by rewrite Hl.
  - rewrite Hrun. intros [Hsp | (p & Hp & Hc)]%join_in.
    { vm_compute in Hsp. by destruct Hsp. }
    apply in_map_iff in Hp as (line & <- & Hline).
    apply filter_In in Hline as [Hline _].
    apply strip_subset in Hc.
    assert (In line (split 10 text)) as Hin.
    { apply list_elem_of_In, (elem_of_sublist (take 5 (split 10 text)));
        [by apply list_elem_of_In | apply sublist_take]. }
    by apply (split_no_sep 10 text line).
Qed.
End Summary.

(** ** The skills *)
Section Skills.
Import AnalyzerRest.
Context (U : Unicode).

(** The line as the loop looks at it. *)
Definition skills_view (line : str) : str := lower U (strip U line).

(** A line that opens the skills section. *)
Definition skills_heading (line : str) : bool := contains (py "skills") (skills_view line).

(** A line at which the loop breaks when it is in the section. *)
Definition skills_end (line : str) : bool :=
  negb (skills_heading line) &&
  existsb (fun section => contains section (skills_view line)) skills_stop.

(** A token as it is added: stripped, longer than two characters, without
    a comma. *)
Definition skill_shaped (skill : str) : Prop :=
  2 < len skill /\ ~ In 44%N skill /\
  match skill with [] => True | c :: _ => is_space U c = false end /\
  match list.last skill with None => True | Some c => is_space U c = false end.

Lemma skills_loop_shaped (lines : list str) (b : bool) (skills : list str) :
  Forall skill_shaped skills -> Forall skill_shaped (skills_loop U lines b skills).
Proof.
  revert b skills; induction lines as [| line lines IH]; intros b skills Hacc; [done |].
  cbn [skills_loop]. cbv zeta.
  destruct (contains (py "skills") (lower U (strip U line))); [by apply IH |].
  destruct b; [| by apply IH].
  destruct (existsb _ skills_stop); [done |].
  apply IH, Forall_app. split; [done |].
  apply list.Forall_forall. intros skill Hin.
  apply list_elem_of_In, filter_In in Hin as [Hin Hlen].
  apply in_map_iff in Hin as (piece & <- & Hpiece).
  destruct (strip_ends U piece) as [Hh Hl].
  repeat split; try done.
  - by apply Z.ltb_lt.
  - intros Hc%strip_subset.
    by apply (split_no_sep 44 (lower U (strip U line)) piece).
Qed.

Lemma skills_loop_no_heading (lines : list str) (skills : list str) :
  Forall (fun line => skills_heading line = false) lines ->
  skills_loop U lines false skills = skills.
Proof.
  intros Hall. induction Hall as [| line lines Hl Hall IH]; [done |].
  cbn [skills_loop]. cbv zeta. unfold skills_heading, skills_view in Hl. by rewrite Hl.
Qed.

Lemma split_single (sep : N) (s : str) : ~ In sep s -> split sep s = [s].
Proof.
  induction s as [| c s IH]; simpl; [done |]. intros Hno.
  destruct (c =? sep)%N eqn:Hc.
  - apply N.eqb_eq in Hc. destruct Hno. by left.
  - rewrite IH; [done |]. intros H. apply Hno. by right.
Qed.

Lemma skills_loop_break (above : list str) (stop : str) (below : list str)
    (b : bool) (skills : list str) :
  skills_end stop = true ->
  b = true \/ Exists (fun line => skills_heading line = true) above ->
  skills_loop U (above ++ stop :: below) b skills = skills_loop U above b skills.
Proof.
  intros [Hnot Hstop]%andb_true_iff. apply negb_true_iff in Hnot.
  unfold skills_heading, skills_view in Hnot. unfold skills_view in Hstop.
  revert b skills; induction above as [| line above IH]; intros b skills Hsec.
  - destruct Hsec as [-> | H]; [| by apply Exists_nil in H].
    cbn [app skills_loop]. cbv zeta. by rewrite Hnot, Hstop.
  - cbn [app skills_loop]. cbv zeta.
    destruct (contains (py "skills") (lower U (strip U line))) eqn:Hline.
    + apply IH. by left.
    + destruct b.
      * destruct (existsb (fun section => contains section (lower U (strip U line)))
                    skills_stop); [done |].
        apply IH. by left.
      * apply IH. right. destruct Hsec as [? | H]; [done |].
        apply Exists_cons in H as [H | H]; [| done].
        unfold skills_heading, skills_view in H. congruence.
Qed.

(** X10: every skill that [extract_skills] returns has more than two
    characters, holds no comma, neither begins nor ends with white space,
    and occurs once in the list. *)
Theorem skills_are_trimmed_tokens (text : str) (result : list str) :
  extract_skills U text result ->
  NoDup result /\ Forall skill_shaped result.
Proof.
  intros [Hnodup Hmem]. split; [done |].
  apply list.Forall_forall. intros skill Hin%Hmem.
  pose proof (skills_loop_shaped (split 10 text) false [] (Forall_nil _)) as Hall.
  rewrite list.Forall_forall in Hall. by apply Hall.
Qed.

(** X11: without a line that contains "skills", in any case, the only
    result of [extract_skills] is the empty list; the same holds for every
    text of a single line, whatever it holds: skills written on the
    heading line itself are not extracted. *)
Theorem skills_need_a_line_below_the_heading (text : str) :
  Forall (fun line => skills_heading line = false) (split 10 text) \/ ~ In 10%N text ->
  forall result, extract_skills U text result <-> result = [].
Proof.
  intros Hcase.
  assert (skill_tokens U text = []) as Hnil.
  { unfold skill_tokens. destruct Hcase as [H | H].
    - by apply skills_loop_no_heading.
    - rewrite (split_single 10 text H). cbn [skills_loop]. cbv zeta.
      by destruct (contains (py "skills") (lower U (strip U text))). }
  intros result. unfold extract_skills. rewrite Hnil. split.
  - intros [_ Hmem]. destruct result as [| x result]; [done |].
    exfalso. apply (elem_of_nil x), Hmem. left.
  - intros ->. split; [constructor | done].
Qed.

(** X12: below the heading of the skills section, the first line that
    contains "experience", "education" or "work" (and not "skills") ends
    the extraction: no later line adds a skill, not even under a second
    skills heading. *)
Theorem skills_end_at_next_section (above stop below : str) (result : list str) :
  Exists (fun line => skills_heading line = true) (split 10 above) ->
  ~ In 10%N stop -> skills_end stop = true ->
  extract_skills U (above ++ 10%N :: stop ++ 10%N :: below) result <->
  extract_skills U above result.
Proof.
  intros Hhead Hline Hstop.
  assert (skill_tokens U (above ++ 10%N :: stop ++ 10%N :: below) = skill_tokens U above)
    as Heq; [| unfold extract_skills; by rewrite Heq].
  unfold skill_tokens. rewrite !split_app, (split_single 10 stop Hline).
  cbn [app]. apply skills_loop_break; [done | by right].
Qed.

Lemma extract_skills_of_tokens (text : str) (l : list str) :
  skill_tokens U text = l -> NoDup l -> extract_skills U text l.
Proof. intros <- Hl. by split. Qed.
End Skills.

Definition skills_text : str := py "Skills" ++ [10%N] ++ py "Python, SQL , go".

Lemma skills_text_result :
  AnalyzerRest.extract_skills symbols_only skills_text [py "python"; py "sql"].
Proof.
  apply extract_skills_of_tokens; [reflexivity |].
  repeat constructor; rewrite ?elem_of_cons, ?elem_of_nil; intuition discriminate.
Defined.

Lemma skills_are_trimmed_tokens_witness :
  NoDup [py "python"; py "sql"] /\
  Forall (skill_shaped symbols_only) [py "python"; py "sql"].
Proof.
  apply (skills_are_trimmed_tokens symbols_only skills_text), skills_text_result.
Defined.

Lemma skills_need_a_line_below_the_heading_witness :
  AnalyzerRest.extract_skills symbols_only (py "Skills: Python, SQL") [].
Proof.
  apply (skills_need_a_line_below_the_heading symbols_only (py "Skills: Python, SQL"));
    [| reflexivity].
  right. cbv. intuition discriminate.
Defined.

Lemma skills_end_at_next_section_witness :
  AnalyzerRest.extract_skills symbols_only
    (skills_text ++ 10%N :: py "Work history" ++ 10%N
       :: (py "Java, Kotlin" ++ [10%N] ++ py "Skills" ++ [10%N] ++ py "Rust, Haskell"))
    [py "python"; py "sql"].
Proof.
  apply (skills_end_at_next_section symbols_only skills_text (py "Work history")).
  - left. reflexivity.
  - cbv. intuition discriminate.
  - reflexivity.
  - apply skills_text_result.
Defined.

(** ** The formatting check *)
Section FormattingCheck.
Import AnalyzerRest.
Context (U : Unicode) (V : UnicodeCase).

(** What a deduction costs. *)
Definition weight (msg : str) : Z :=
  if bool_decide (msg = short_resume) then 30
  else if bool_decide (msg = no_headers) then 20
  else if bool_decide (msg = no_bullets) then 20
  else if bool_decide (msg = uneven_spacing) then 15
  else if bool_decide (msg = no_contact) then 15
  else 0.

Definition all_deductions : list str :=
  [short_resume; no_headers; no_bullets; uneven_spacing; no_contact].

(** Two blank lines, one after the other. *)
Definition blank_pair (lines : list str) : Prop :=
  exists above l1 l2 below,
    lines = above ++ l1 :: l2 :: below /\ strip U l1 = [] /\ strip U l2 = [].

Lemma blank_spec (line : str) : blank U line = true <-> strip U line = [].
Proof.
  unfold blank, len. rewrite Z.eqb_eq. destruct (strip U line); simpl; [done |].
  split; [lia | done].
Qed.

Lemma consecutive_spec (lines : list str) :
  existsb (fun pair => blank U (fst pair) && blank U (snd pair))
    (combine (removelast lines) (tl lines)) = true <-> blank_pair lines.
Proof.
  unfold blank_pair. induction lines as [| l1 lines IH].
  { simpl. split; [done | intros (a & x & y & b & H & _); by destruct a]. }
  destruct lines as [| l2 lines].
  { simpl. split; [done | intros (a & x & y & b & H & _)]. by destruct a as [| ? [| ? ?]]. }
  change (combine (removelast (l1 :: l2 :: lines)) (tl (l1 :: l2 :: lines)))
    with ((l1, l2) :: combine (removelast (l2 :: lines)) (tl (l2 :: lines))).
  cbn [existsb fst snd]. rewrite orb_true_iff, andb_true_iff, !blank_spec, IH. split.
  - intros [[H1 H2] | (a & x & y & b & -> & Hx & Hy)].
    + exists [], l1, l2, lines. done.
    + exists (l1 :: a), x, y, b. done.
  - intros (a & x & y & b & H & Hx & Hy). destruct a as [| l a]; simpl in H.
    + injection H as -> -> ->. by left.
    + injection H as -> H. right. exists a, x, y, b. done.
Qed.

(** X13: [check_formatting] starts from 100 and takes off 30 for a text
    of fewer than 300 characters, 20 without a line in capitals, 20
    without a bullet line, 15 for two consecutive blank lines and 15
    without contact data. The deductions it reports are the messages of
    exactly these, in this order, and the score is 100 less their
    weights: it is never negative, so the floor at 0 never applies, and
    it is 100 only without any deduction. *)
Theorem check_formatting_accounts (text : str) :
  let '(score, deductions) := check_formatting U V text in
  score = 100 - foldr (fun msg total => weight msg + total) 0 deductions /\
  sublist deductions all_deductions /\
  0 <= score <= 100 /\
  (score = 100 <-> deductions = []) /\
  (short_resume ∈ deductions <-> len text < 300) /\
  (uneven_spacing ∈ deductions <-> blank_pair (split 10 text)).
Proof.
  unfold check_formatting. cbv zeta.
  rewrite <- consecutive_spec, <- Z.ltb_lt.
  generalize (len text <? 300) as a.
  generalize (negb (existsb (isupper V) (split 10 text))) as b.
  generalize (negb (existsb (fun line => existsb (fun marker =>
                startswith marker (strip U line)) bullet_markers) (split 10 text))) as c.
  generalize (existsb (fun pair => blank U (fst pair) && blank U (snd pair))
                (combine (removelast (split 10 text)) (tl (split 10 text)))) as d.
  generalize (negb (existsb (fun pattern => re_search U pattern text)
                (contact_patterns U V))) as e.
  intros e d c b a.
  destruct a, b, c, d, e; cbn [deduct fst snd app]; repeat split;
    try (vm_compute; reflexivity); try (vm_compute; discriminate);
    try (intros H; vm_compute in H; discriminate);
    try (unfold all_deductions;
         repeat first [apply sublist_nil_l | apply sublist_skip | apply sublist_cons]; fail);
    try (intros _; apply (bool_decide_eq_true_1 _); vm_compute; reflexivity);
    try (intros H; apply (bool_decide_eq_true_2 _) in H; vm_compute in H; discriminate);
    try discriminate.
Qed.

(** The flags behind the last three deductions. *)
Lemma check_formatting_flags (text : str) :
  (no_headers ∈ snd (check_formatting U V text) <->
   existsb (isupper V) (split 10 text) = false) /\
  (no_bullets ∈ snd (check_formatting U V text) <->
   existsb (fun line => existsb (fun marker => startswith marker (strip U line))
                          bullet_markers) (split 10 text) = false) /\
  (no_contact ∈ snd (check_formatting U V text) <->
   existsb (fun pattern => re_search U pattern text) (contact_patterns U V) = false).
Proof.
  unfold check_formatting. cbv zeta. cbn [snd].
  generalize (len text <? 300) as a.
  generalize (existsb (isupper V) (split 10 text)) as b.
  generalize (existsb (fun line => existsb (fun marker =>
                startswith marker (strip U line)) bullet_markers) (split 10 text)) as c.
  generalize (existsb (fun pair => blank U (fst pair) && blank U (snd pair))
                (combine (removelast (split 10 text)) (tl (split 10 text)))) as d.
  generalize (existsb (fun pattern => re_search U pattern text) (contact_patterns U V)) as e.
  intros e d c b a.
  destruct a, b, c, d, e; cbn [deduct negb fst snd app]; repeat split;
    try reflexivity; try discriminate;
    try (intros _; apply (bool_decide_eq_true_1 _); vm_compute; reflexivity);
    try (intros H; apply (bool_decide_eq_true_2 _) in H; vm_compute in H; discriminate).
Qed.

(** X14: a text in which no stripped line begins with "-", "*" or the
    character U+00E2 is reported to have no bullet points; the bullet
    character U+2022 itself is not one of the markers. *)
Theorem only_dash_and_star_are_bullets (text : str) :
  (forall line c rest, In line (split 10 text) -> strip U line = c :: rest ->
     c <> 45%N /\ c <> 42%N /\ c <> 226%N) ->
  no_bullets ∈ snd (check_formatting U V text).
Proof.
  intros Hlines. apply check_formatting_flags.
  apply not_true_iff_false. intros (line & Hin & Hm)%existsb_exists.
  destruct (strip U line) as [| c rest] eqn:Hline.
  { vm_compute in Hm. discriminate. }
  destruct (Hlines line c rest Hin Hline) as (H1 & H2 & H3).
  cbn [existsb bullet_markers] in Hm.
  change (py "-") with [45%N] in Hm. change (py "*") with [42%N] in Hm.
  cbn [startswith] in Hm.
  rewrite !andb_true_r, orb_false_r in Hm.
  repeat apply orb_true_iff in Hm as [Hm | Hm].
  - apply andb_true_iff in Hm as [Hm%N.eqb_eq _]. congruence.
  - apply N.eqb_eq in Hm. congruence.
  - apply N.eqb_eq in Hm. congruence.
Qed.
End FormattingCheck.

Definition bulleted_text : str :=
  py "SKILLS" ++ [10; 8226]%N ++ py " Python" ++ [10; 8226]%N ++ py " SQL".

Lemma only_dash_and_star_are_bullets_witness :
  AnalyzerRest.no_bullets ∈ snd (AnalyzerRest.check_formatting symbols_only caseless bulleted_text).
Proof.
  apply (only_dash_and_star_are_bullets symbols_only caseless bulleted_text).
  intros line c rest Hin. vm_compute in Hin.
  destruct Hin as [<- | [<- | [<- | []]]]; vm_compute; intros [= <- <-];
    repeat split; discriminate.
Defined.

(** ** Reading a file *)
Section FileDispatch.
Import AnalyzerRest.
Context (U : Unicode) {File : Type} (pdf_library docx_library : File -> str + str).

Definition file_prefix : str := py "Error extracting text from file: ".

(** X15: [extract_text_from_file] hands the file to the PDF reader for
    the type "pdf" and to the DOCX reader for "docx" and "doc", in any
    case of the letters, and returns the text of the reader; every
    failure is an [Exception] whose message begins with "Error extracting
    text from file: ", followed by the message of the reader or, for
    any other type, by "Unsupported file type: " and the type as given. *)
Theorem extract_text_from_file_dispatch (file : File) (file_type : str) :
  (lower U file_type = py "pdf" ->
   extract_text_from_file U pdf_library docx_library file file_type =
     match pdf_library file with
     | inl text => Extracted text
     | inr e => Exception (file_prefix ++ py "Error extracting text from PDF: " ++ e)
     end) /\
  (lower U file_type = py "docx" \/ lower U file_type = py "doc" ->
   extract_text_from_file U pdf_library docx_library file file_type =
     match docx_library file with
     | inl text => Extracted text
     | inr e => Exception (file_prefix ++ py "Error extracting text from DOCX: " ++ e)
     end) /\
  (lower U file_type <> py "pdf" -> lower U file_type <> py "docx" ->
   lower U file_type <> py "doc" ->
   extract_text_from_file U pdf_library docx_library file file_type =
     Exception (file_prefix ++ py "Unsupported file type: " ++ file_type)) /\
  (forall msg,
     extract_text_from_file U pdf_library docx_library file file_type = Exception msg ->
     exists rest, msg = file_prefix ++ rest).
Proof.
  unfold extract_text_from_file, extract_text_from_pdf, extract_text_from_docx.
  repeat split.
  - intros ->. rewrite bool_decide_eq_true_2 by done. by destruct (pdf_library file).
  - intros Hdoc.
    assert (lower U file_type <> py "pdf") as Hpdf
      by (destruct Hdoc as [H | H]; rewrite H; discriminate).
    assert (lower U file_type ∈ [py "docx"; py "doc"]) as Hin
      by (destruct Hdoc as [H | H]; rewrite H; [left | right; left]).
    rewrite (bool_decide_eq_false_2 _ Hpdf), (bool_decide_eq_true_2 _ Hin).
    by destruct (docx_library file).
  - intros H1 H2 H3.
    assert (~ lower U file_type ∈ [py "docx"; py "doc"]) as Hin.
    { intros [H | [H | H]%elem_of_cons]%elem_of_cons; [done | done |].
      by apply elem_of_nil in H. }
    rewrite (bool_decide_eq_false_2 _ H1), (bool_decide_eq_false_2 _ Hin). done.
  - intros msg. repeat case_match; intros [= <-]; eauto.
Qed.
End FileDispatch.

Lemma extract_text_from_file_dispatch_witness :
  AnalyzerRest.extract_text_from_file symbols_only
      (fun _ : unit => inl (py "text of the PDF")) (fun _ => inr (py "File is not a zip file"))
      tt (py "PDF") = AnalyzerRest.Extracted (py "text of the PDF") /\
  AnalyzerRest.extract_text_from_file symbols_only
      (fun _ : unit => inl (py "text of the PDF")) (fun _ => inr (py "File is not a zip file"))
      tt (py "Doc") =
    AnalyzerRest.Exception
      (file_prefix ++ py "Error extracting text from DOCX: " ++ py "File is not a zip file") /\
  AnalyzerRest.extract_text_from_file symbols_only
      (fun _ : unit => inl (py "text of the PDF")) (fun _ => inr (py "File is not a zip file"))
      tt (py "TXT") =
    AnalyzerRest.Exception (file_prefix ++ py "Unsupported file type: " ++ py "TXT").
Proof.
  pose proof (extract_text_from_file_dispatch symbols_only
                (fun _ : unit => inl (py "text of the PDF"))
                (fun _ => inr (py "File is not a zip file")) tt) as H.
  split; [| split].
  - apply (proj1 (H (py "PDF"))). reflexivity.
  - apply (proj1 (proj2 (H (py "Doc")))). right. reflexivity.
  - apply (proj1 (proj2 (proj2 (H (py "TXT"))))); discriminate.
Defined.

(** ** Suggestions and scores of one analysis *)
Section Consistency.
Context (U : Unicode).

Lemma generate_suggestions_run (s : str) :
  _generate_suggestions U (VStr s) =
    Ok (fired (len s <? 200)
          (re_search U (whole_words experience_words) (lower U s))
          (re_search U (whole_words education_words) (lower U s))
          (re_search U (whole_words skills_words) (lower U s))).
Proof.
  unfold _generate_suggestions, bind, py_len, py_lower.
  fold experience_words education_words skills_words.
  destruct (len s <? 200), (re_search U (whole_words experience_words) (lower U s)),
    (re_search U (whole_words education_words) (lower U s)),
    (re_search U (whole_words skills_words) (lower U s)); reflexivity.
Qed.

Lemma section_score_run (s : str) :
  _calculate_section_score U __init__ (VStr s) =
    Ok (100 * (Z.b2z (keyword_hit U s (keywords_of "education"))
               + Z.b2z (keyword_hit U s (keywords_of "experience"))
               + Z.b2z (keyword_hit U s (keywords_of "skills"))
               + Z.b2z (keyword_hit U s (keywords_of "projects"))
               + Z.b2z (keyword_hit U s (keywords_of "summary"))) / 5).
Proof.
  assert (forall a b c d e : bool,
    PyFloat.to_int (PyFloat.mul_int (PyFloat.truediv
      (0 + (Z.b2z a + (Z.b2z b + (Z.b2z c + (Z.b2z d + (Z.b2z e + 0)))))) 5) 100)
    = 100 * (Z.b2z a + Z.b2z b + Z.b2z c + Z.b2z d + Z.b2z e) / 5) as Hfloat
    by (intros [] [] [] [] []; vm_compute; reflexivity).
  unfold _calculate_section_score. simpl getattr. unfold bind at 1.
  rewrite count_sections_str. unfold bind.
  change (Z.of_nat (length _) =? 0) with false. cbv iota.
  rewrite <- Hfloat. reflexivity.
Qed.

(** A whole word of a suggestion rule is a keyword of the section. *)
Lemma word_is_keyword (ws ks : list str) (s : str) :
  forallb (lettered_b U) ws = true ->
  forallb (fun w => bool_decide (w ∈ ks)) ws = true ->
  re_search U (whole_words ws) (lower U s) = true -> keyword_hit U s ks = true.
Proof.
  intros Hlet Hsub Hfound.
  apply whole_words_mentions in Hfound; [| by apply lettered_check].
  destruct Hfound as (w & Hw & pre & post & Hs & _).
  apply keyword_hit_spec. exists w, pre, post. split; [| done].
  rewrite forallb_forall in Hsub.
  apply list_elem_of_In, Hsub, bool_decide_eq_true in Hw. done.
Qed.

(** X16: when the analysis of a text comes without any suggestion, the
    text has at least 200 characters, its section score is at least 60
    (the education, experience and skills sections are all counted) and
    its ATS score is at least 75. *)
Theorem no_suggestion_means_sections_present (s : str) (o : option (list str))
    (d : list (str * pyval)) :
  s <> [] ->
  analyze_resume U __init__ (resume s) (requirements o) = Ok (VDict d) ->
  assoc (py "suggestions") d = Some (VList []) ->
  exists ats sec,
    assoc (py "ats_score") d = Some (VInt ats) /\
    assoc (py "section_score") d = Some (VInt sec) /\
    200 <= len s /\ 75 <= ats /\ 60 <= sec.
Proof.
  intros Hs Hrun Hnone.
  destruct (analyze_resume_str U s o Hs) as (ats & fmt & sec & sugg & Hres & _).
  assert (_calculate_ats_score U (VStr s) = Ok ats /\
          _calculate_section_score U __init__ (VStr s) = Ok sec /\
          _generate_suggestions U (VStr s) = Ok sugg) as (Hats & Hsec & Hsugg).
  { revert Hres. unfold analyze_resume, analysis, try_except.
    change (py_get (resume s) (py "raw_text") (VStr [])) with (Ok (VStr s)).
    unfold bind at 1. simpl truthy. rewrite bool_decide_eq_false_2 by done.
    simpl negb. cbv iota. unfold bind.
    destruct (_calculate_ats_score U (VStr s)); [| discriminate].
    destruct (_calculate_format_score U (VStr s)); [| discriminate].
    destruct (_calculate_section_score U __init__ (VStr s)); [| discriminate].
    destruct (_analyze_keyword_match U (VStr s) (requirements o)); [| discriminate].
    destruct (_generate_suggestions U (VStr s)); [| discriminate].
    intros [= -> _ -> _ Heq]. repeat split.
    f_equal. revert Heq. clear. revert sugg.
    induction a3 as [| x l IH]; intros [| y sugg]; simpl; try done.
    intros [= -> H]. f_equal. by apply IH. }
  rewrite Hres in Hrun. injection Hrun as <-.
  assert (sugg = []) as -> by (cbn in Hnone; by destruct sugg).
  exists ats, sec. split; [reflexivity |]. split; [reflexivity |].
  rewrite generate_suggestions_run in Hsugg. injection Hsugg as Hfired.
  destruct (len s <? 200) eqn:Hlen; [discriminate |].
  destruct (re_search U (whole_words experience_words) (lower U s)) eqn:He; [| discriminate].
  destruct (re_search U (whole_words education_words) (lower U s)) eqn:Hd; [| discriminate].
  destruct (re_search U (whole_words skills_words) (lower U s)) eqn:Hk; [| discriminate].
  apply Z.ltb_ge in Hlen. split; [done |]. split.
  - revert Hats. unfold _calculate_ats_score, bind, py_len, py_lower, py_re_search.
    rewrite (proj2 (Z.ltb_ge (len s) 100)) by lia.
    repeat case_match; intros [= <-]; lia.
  - pose proof (section_score_run s) as Hsec'. rewrite Hsec in Hsec'.
    match type of Hsec' with
    | Ok _ = Ok ?e => assert (sec = e) as -> by congruence
    end.
    rewrite (word_is_keyword education_words (keywords_of "education") s eq_refl eq_refl Hd).
    rewrite (word_is_keyword experience_words (keywords_of "experience") s eq_refl eq_refl He).
    rewrite (word_is_keyword skills_words (keywords_of "skills") s eq_refl eq_refl Hk).
    destruct (keyword_hit U s (keywords_of "projects")),
             (keyword_hit U s (keywords_of "summary")); vm_compute; discriminate.
Qed.
End Consistency.

Definition long_text : str := py "work school skills " ++ replicate 200 120%N.

Definition long_text_analysis : list (str * pyval) :=
  Eval vm_compute in
    match analyze_resume symbols_only __init__ (resume long_text) (requirements None) with
    | Ok (VDict d) => d
    | _ => []
    end.

Lemma no_suggestion_means_sections_present_witness :
  exists ats sec,
    assoc (py "ats_score") long_text_analysis = Some (VInt ats) /\
    assoc (py "section_score") long_text_analysis = Some (VInt sec) /\
    200 <= len long_text /\ 75 <= ats /\ 60 <= sec.
Proof.
  apply (no_suggestion_means_sections_present symbols_only long_text None long_text_analysis).
  - discriminate.
  - vm_compute. reflexivity.
  - vm_compute. reflexivity.
Defined.

(** ** Values of the wrong type *)
Section WrongTypes.
Context (U : Unicode).

Definition error_dict (msg : str) : pyval :=
  VDict [(py "error", VStr (py "Error analyzing resume: " ++ msg))].

Lemma match_skills_not_str (skills : list pyval) (text : pyval)
    (found missing : list pyval) :
  (exists k, k ∈ skills /\ forall t, k <> VStr t) ->
  forall s, text = VStr s ->
  exists k, k ∈ skills /\ (forall t, k <> VStr t) /\
    match_skills U skills text found missing =
      Raise (no_attribute (type_name k) (py "lower")).
Proof.
  intros Hbad s ->. revert found missing.
  induction skills as [| k skills IH]; intros found missing.
  { destruct Hbad as (k & Hk & _). by apply elem_of_nil in Hk. }
  assert ((exists t, k = VStr t) \/ (forall t, k <> VStr t)) as [[t ->] | Hk]
    by (destruct k; eauto; right; intros; discriminate).
  - destruct Hbad as (k' & Hin & Hk').
    apply elem_of_cons in Hin as [-> | Hin]; [by destruct (Hk' t) |].
    cbn [match_skills]. unfold bind. cbn [py_lower].
    destruct (re_search U _ _).
    + destruct (IH (ex_intro _ k' (conj Hin Hk')) (found ++ [VStr t]) missing)
        as (k & Hk & Hns & ->).
      exists k. split; [by right | done].
    + destruct (IH (ex_intro _ k' (conj Hin Hk')) found (missing ++ [VStr t]))
        as (k & Hk & Hns & ->).
      exists k. split; [by right | done].
  - exists k. split; [left |]. split; [done |].
    cbn [match_skills]. unfold bind. destruct k; try done. by destruct (Hk s0).
Qed.

(** X17: a value under [raw_text] that is true but not a text, and a
    list of required skills with an entry that is not a text, each turn
    the whole result of [analyze_resume] into the dict with the single key
    [error]: no score is returned. *)
Theorem wrong_types_give_error_dict :
  (forall (self : ResumeAnalyzer) (v job_requirements : pyval),
     truthy v = true -> (forall s, v <> VStr s) ->
     exists msg,
       analyze_resume U self (VDict [(py "raw_text", v)]) job_requirements =
         Ok (error_dict msg)) /\
  (forall (s : str) (skills : list pyval),
     s <> [] -> (exists k, k ∈ skills /\ forall t, k <> VStr t) ->
     exists k, k ∈ skills /\ (forall t, k <> VStr t) /\
       analyze_resume U __init__ (resume s) (VDict [(py "required_skills", VList skills)]) =
         Ok (error_dict (exn_str (no_attribute (type_name k) (py "lower"))))).
Proof.
  split.
  - intros self v jr Htrue Hns. unfold analyze_resume, analysis, try_except.
    change (py_get (VDict [(py "raw_text", v)]) (py "raw_text") (VStr [])) with (Ok v).
    unfold bind at 1. rewrite Htrue. simpl negb. cbv iota.
    destruct v; try discriminate; try (eexists; reflexivity).
    by destruct (Hns s).
  - intros s skills Hs Hbad.
    destruct (ats_score_range U s) as (ats & Hats & _).
    destruct (format_score_range U s) as (fmt & Hfmt & _).
    destruct (section_score_range U s) as (sec & Hsec & _).
    destruct (match_skills_not_str skills (VStr s) [] [] Hbad s eq_refl)
      as (k & Hk & Hns & Hraise).
    exists k. split; [done |]. split; [done |].
    unfold analyze_resume, analysis, try_except.
    change (py_get (resume s) (py "raw_text") (VStr [])) with (Ok (VStr s)).
    unfold bind at 1. simpl truthy. rewrite bool_decide_eq_false_2 by done.
    simpl negb. cbv iota.
    rewrite Hats. unfold bind at 1. rewrite Hfmt. unfold bind at 1.
    rewrite Hsec. unfold bind at 1.
    unfold _analyze_keyword_match.
    assert (truthy (VDict [(py "required_skills", VList skills)]) = true) as -> by done.
    simpl negb. cbv iota.
    change (py_get _ (py "required_skills") (VList [])) with (Ok (VList skills)).
    unfold bind at 2. cbn [py_iter]. unfold bind at 2. rewrite Hraise. reflexivity.
Qed.
End WrongTypes.

Lemma wrong_types_give_error_dict_witness :
  (exists msg,
     analyze_resume symbols_only __init__ (VDict [(py "raw_text", VList [VStr (py "page 1")])])
       VNone = Ok (error_dict msg)) /\
  (exists k, k ∈ [VStr (py "Python"); VInt 3] /\ (forall t, k <> VStr t) /\
     analyze_resume symbols_only __init__ (resume (py "Python developer"))
       (VDict [(py "required_skills", VList [VStr (py "Python"); VInt 3])]) =
       Ok (error_dict (exn_str (no_attribute (type_name k) (py "lower"))))).
Proof.
  split.
  - apply (proj1 (wrong_types_give_error_dict symbols_only)); [reflexivity | discriminate].
  - apply (proj2 (wrong_types_give_error_dict symbols_only)); [discriminate |].
    exists (VInt 3). split; [right; left | discriminate].
Defined.

(** ** The stricter section score *)
Section EssentialSections.
Import PyFloat.
Context (U : Unicode).

(** A number between 0 and [n]. *)
Definition num_within (a : num) (n : Z) : Prop :=
  match a with
  | NInt z => 0 <= z <= n
  | NFloat x => 0 <= fm x /\ le_int x n
  end.

Lemma of_int_within (z n : Z) :
  0 <= z <= n -> n < 2 ^ 53 -> 0 <= fm (of_int z) /\ le_int (of_int z) n.
Proof.
  intros Hz Hn. unfold of_int. split; [apply PyFloatFacts.round_ne_nonneg; lia |].
  destruct (decide (n = 0)) as [-> | Hn0].
  - assert (z = 0) as -> by lia. unfold le_int. simpl. lia.
  - apply PyFloatFacts.round_ne_le_int; lia.
Qed.

(** The mantissa of a float that is at most [n], at a finer exponent. *)
Lemma scaled_le (x : float) (n e : Z) :
  0 <= fm x -> le_int x n -> e <= 0 -> e <= fe x ->
  0 <= fm x * 2 ^ (fe x - e) <= n * 2 ^ (- e).
Proof.
  intros Hx Hle He Hfe. unfold le_int in Hle.
  assert (0 < 2 ^ (fe x - e)) by (apply Z.pow_pos_nonneg; lia).
  split; [nia |].
  destruct (decide (0 <= fe x)) as [Hpos | Hneg].
  - rewrite (Z.max_l (fe x) 0), (Z.max_r (- fe x) 0), Z.pow_0_r, Z.mul_1_r in Hle by lia.
    replace (fe x - e) with (fe x + - e) by lia. rewrite Z.pow_add_r by lia.
    assert (0 < 2 ^ (- e)) by (apply Z.pow_pos_nonneg; lia). nia.
  - rewrite (Z.max_r (fe x) 0), (Z.max_l (- fe x) 0), Z.pow_0_r, Z.mul_1_r in Hle by lia.
    replace (- e) with (- fe x + (fe x - e)) by lia. rewrite Z.pow_add_r by lia. nia.
Qed.

Lemma add_within (x y : float) (n m : Z) :
  0 <= fm x -> le_int x n -> 0 <= fm y -> le_int y m ->
  0 < n + m < 2 ^ 53 ->
  0 <= fm (add x y) /\ le_int (add x y) (n + m).
Proof.
  intros Hx Hxn Hy Hym Hnm. unfold add.
  set (e := Z.min 0 (Z.min (fe x) (fe y))).
  pose proof (scaled_le x n e Hx Hxn ltac:(lia) ltac:(lia)) as H1.
  pose proof (scaled_le y m e Hy Hym ltac:(lia) ltac:(lia)) as H2.
  assert (0 < 2 ^ (- e)) by (apply Z.pow_pos_nonneg; lia).
  split.
  - apply PyFloatFacts.round_ne_nonneg; lia.
  - apply PyFloatFacts.round_ne_le_int; first [lia | nia].
Qed.

Lemma num_add_within (a b : num) (n m : Z) :
  num_within a n -> num_within b m -> 0 <= n -> 0 < m -> n + m < 2 ^ 53 ->
  num_within (num_add a b) (n + m).
Proof.
  intros Ha Hb Hn Hm Hnm.
  destruct a as [z | x], b as [w | y]; simpl in *.
  - lia.
  - destruct Hb as [Hy Hym].
    destruct (of_int_within z n Ha ltac:(lia)) as [Hz Hzn].
    apply add_within; try done. lia.
  - destruct Ha as [Hx Hxn].
    destruct (of_int_within w m Hb ltac:(lia)) as [Hw Hwm].
    apply add_within; try done. lia.
  - destruct Ha, Hb. apply add_within; try done. lia.
Qed.

Lemma fold_add_within (vs : list num) (acc : num) (n : Z) :
  Forall (fun v => num_within v 25) vs ->
  num_within acc n -> 0 <= n -> n + 25 * Z.of_nat (length vs) < 2 ^ 53 ->
  num_within (fold_left num_add vs acc) (n + 25 * Z.of_nat (length vs)).
Proof.
  intros Hvs. revert acc n. induction Hvs as [| v vs Hv Hvs IH]; intros acc n Hacc Hn Hlim.
  { simpl. by rewrite Z.add_0_r. }
  cbn [fold_left length] in *.
  replace (n + 25 * Z.of_nat (S (length vs))) with ((n + 25) + 25 * Z.of_nat (length vs))
    in * by lia.
  apply IH; [| lia | done].
  apply num_add_within; try done; lia.
Qed.

Lemma section_scores_run (entries : table) (text : str) :
  (Forall (fun entry => snd entry <> []) entries ->
   exists vs, section_scores entries text = Ok vs /\
     length vs = length entries /\ Forall (fun v => num_within v 25) vs) /\
  (Exists (fun entry => snd entry = []) entries ->
   section_scores entries text = Raise division_by_zero).
Proof.
  induction entries as [| [name keywords] entries [IHok IHbad]]; simpl.
  { split; [intros _; by exists [] | intros H; by apply Exists_nil in H]. }
  destruct keywords as [| k keywords].
  { split; [intros H; by apply Forall_inv in H | done]. }
  set (found := Z.of_nat (length (filter _ (k :: keywords)))).
  set (n := Z.of_nat (length (k :: keywords))).
  assert (0 < n) as Hn by (unfold n; simpl; lia).
  assert (0 <= found <= n) as Hfound.
  { unfold found, n. pose proof (length_filter (fun keyword => contains keyword text = true)
                                   (k :: keywords)). lia. }
  rewrite (proj2 (Z.eqb_neq n 0)) by lia.
  set (x := mul_int (truediv found n) 25).
  assert (0 <= fm x /\ le_int x 25) as [Hx0 Hx25].
  { unfold x, truediv, mul_int.
    pose proof (PyFloatFacts.round_ne_nonneg found n ltac:(lia) Hn) as Hq0.
    pose proof (PyFloatFacts.round_ne_le_int found n 1 ltac:(lia) Hn ltac:(lia) ltac:(lia)) as Hq1.
    set (q := round_ne found n) in *. unfold le_int in Hq1.
    pose proof (PyFloatFacts.pow2_pos (fe q)). pose proof (PyFloatFacts.pow2_pos (- fe q)).
    split; [apply PyFloatFacts.round_ne_nonneg; nia |].
    apply PyFloatFacts.round_ne_le_int; try lia; nia. }
  split.
  - intros Hrest%Forall_inv_tail. destruct (IHok Hrest) as (vs & -> & Hlen & Hvs).
    unfold bind. eexists. split; [reflexivity |]. split; [simpl; by rewrite Hlen |].
    constructor; [| done]. destruct (lt_int x 25); simpl; [done | lia].
  - intros [H | H]%Exists_cons; [done |]. rewrite (IHbad H). reflexivity.
Qed.

(** X18: on an analyzer that has [essential_sections],
    [check_resume_sections] adds at most 25 for each section: it returns
    a number between 0 and 25 times the number of sections when every
    section has keywords, and raises [ZeroDivisionError] when some
    section has none. *)
Theorem check_resume_sections_with_table (self : ResumeAnalyzer) (essential : table)
    (text : str) :
  essential_sections self = Some essential ->
  25 * Z.of_nat (length essential) < 2 ^ 53 ->
  (Forall (fun entry => snd entry <> []) essential ->
   exists total, check_resume_sections U self text = Ok total /\
     num_within total (25 * Z.of_nat (length essential))) /\
  (Exists (fun entry => snd entry = []) essential ->
   check_resume_sections U self text = Raise division_by_zero).
Proof.
  intros Hattr Hlim. unfold check_resume_sections, getattr. rewrite Hattr. unfold bind.
  destruct (section_scores_run essential (lower U text)) as [Hok Hbad]. split.
  - intros Hall. destruct (Hok Hall) as (vs & -> & Hlen & Hvs).
    eexists. split; [reflexivity |]. rewrite <- Hlen in Hlim |- *.
    apply (fold_add_within vs (NInt 0) 0); simpl; try done; lia.
  - intros Hsome. by rewrite (Hbad Hsome).
Qed.
End EssentialSections.

Definition analyzer_with_essentials : ResumeAnalyzer :=
  {| sections := sections __init__;
     document_types := None;
     essential_sections :=
       Some [(py "contact", map py ["email"; "phone"; "address"]%string);
             (py "education", map py ["education"; "degree"]%string)] |}.

Lemma check_resume_sections_with_table_witness :
  exists total,
    check_resume_sections symbols_only analyzer_with_essentials
      (py "Email: a@b.c, Education: BSc degree") = Ok total /\
    num_within total (25 * Z.of_nat 2).
Proof.
  apply (proj1 (check_resume_sections_with_table symbols_only analyzer_with_essentials
                  [(py "contact", map py ["email"; "phone"; "address"]%string);
                   (py "education", map py ["education"; "degree"]%string)]
                  (py "Email: a@b.c, Education: BSc degree") eq_refl eq_refl)).
  repeat constructor; discriminate.
Defined.

(** ** Contact data *)

(** What a pattern matches, said without the matcher: [matches r w] holds
    when the whole of [w] is a match of [r]. *)
Fixpoint matches (r : AnalyzerRest.pattern) (w : str) : Prop :=
  match r with
  | AnalyzerRest.PLit v => w = v
  | AnalyzerRest.PRep p lo hi =>
      Forall (fun c => p c = true) w /\ (lo <= length w)%nat /\
      match hi with Some h => (length w <= h)%nat | None => True end
  | AnalyzerRest.PCat r1 r2 => exists w1 w2, w = w1 ++ w2 /\ matches r1 w1 /\ matches r2 w2
  | AnalyzerRest.POpt r' => w = [] \/ matches r' w
  end.

(** [field] is what a search for [r] in [text] gives when [r] does not
    match the empty string: the match that starts first, or the empty
    string when no part of the text matches. *)
Definition found_in (r : AnalyzerRest.pattern) (text field : str) : Prop :=
  (field <> [] /\
   exists pre post, text = pre ++ field ++ post /\ matches r field /\
     forall pre' w post', text = pre' ++ w ++ post' -> matches r w ->
       (length pre <= length pre')%nat) \/
  (field = [] /\ forall pre w post, text = pre ++ w ++ post -> ~ matches r w).

(** The character after a match, if there is one, is not in the class. *)
Definition stops_before (p : N -> bool) (post : str) : Prop :=
  match post with
  | [] => True
  | c :: _ => p c = false
  end.

Section Patterns.
Import AnalyzerRest.

Lemma strip_prefix_spec (w s rest : str) :
  strip_prefix w s = Some rest <-> s = w ++ rest.
Proof.
  revert s. induction w as [| a w IH]; intros s; simpl.
  - split; congruence.
  - destruct s as [| c s]; [split; discriminate |].
    destruct (N.eqb_spec a c) as [-> | Hne].
    + rewrite IH. split; congruence.
    + split; [discriminate | congruence].
Qed.

Lemma match_greedy_sound (p : N -> bool) (s : str) (lo : nat) (hi : option nat)
    (k : str -> option str) (out : str) :
  match_greedy p s lo hi k = Some out ->
  exists w rest, s = w ++ rest /\ matches (PRep p lo hi) w /\ k rest = Some out.
Proof.
  assert (forall t, match lo with O => k t | S _ => None end = Some out ->
            exists w rest, t = w ++ rest /\ matches (PRep p lo hi) w /\ k rest = Some out)
    as Hstop.
  { intros t Ht. destruct lo; [| discriminate]. exists [], t. simpl.
    repeat split; try done; destruct hi; lia. }
  revert lo hi Hstop. induction s as [| c s IH]; intros lo hi Hstop; cbn [match_greedy].
  - apply Hstop.
  - destruct (p c) eqn:Hc; [| apply Hstop]. destruct (may_take hi) eqn:Hhi; [| apply Hstop].
    cbn [andb].
    destruct (match_greedy p s (pred lo) (option_map pred hi) k) as [rest |] eqn:Hin;
      [| apply Hstop].
    intros [= ->]. apply IH in Hin as (w & rest & -> & (Hw & Hlo & Hup) & Hk).
    + exists (c :: w), rest. simpl. repeat split; try done.
      * by constructor.
      * lia.
      * destruct hi as [[| h] |]; simpl in *; try done. lia.
    + intros t Ht. destruct lo as [| [| lo]]; simpl in Ht; try discriminate;
        exists [], t; simpl; repeat split; try done; destruct hi as [[| h] |]; simpl; lia.
Qed.

Lemma match_greedy_complete (p : N -> bool) (w rest : str) (lo : nat) (hi : option nat)
    (k : str -> option str) :
  matches (PRep p lo hi) w -> is_Some (k rest) ->
  is_Some (match_greedy p (w ++ rest) lo hi k).
Proof.
  intros Hw Hk. revert lo hi Hw. induction w as [| c w IH]; intros lo hi (Hw & Hlo & Hup).
  - simpl in Hlo. assert (lo = O) as -> by lia. simpl.
    destruct rest as [| c s]; cbn [match_greedy]; [done |].
    destruct (p c && may_take hi); [| done].
    by destruct (match_greedy p s (pred 0) (option_map pred hi) k).
  - pose proof (Forall_inv Hw) as Hc. apply Forall_inv_tail in Hw. simpl in Hc, Hlo, Hup.
    cbn [app match_greedy]. rewrite Hc.
    assert (may_take hi = true) as -> by (destruct hi as [[| h] |]; simpl; [lia | done..]).
    cbn [andb].
    destruct (IH (pred lo) (option_map pred hi)) as [out ->]; [| done].
    repeat split; [done | lia |]. destruct hi as [h |]; simpl; [lia | done].
Qed.

(** The matcher finds exactly the matches: what it returns comes from a
    split of the string into a match and a rest the continuation accepts,
    and it returns something whenever there is such a split. *)
Lemma pmatch_sound (r : pattern) (s : str) (k : str -> option str) (out : str) :
  pmatch r s k = Some out ->
  exists w rest, s = w ++ rest /\ matches r w /\ k rest = Some out.
Proof.
  revert s k out. induction r as [v | p lo hi | r1 IH1 r2 IH2 | r IH]; intros s k out;
    cbn [pmatch].
  - destruct (strip_prefix v s) as [rest |] eqn:Hv; [| discriminate].
    apply strip_prefix_spec in Hv. intros Hk. by exists v, rest.
  - apply match_greedy_sound.
  - intros (w1 & rest1 & -> & Hw1 & (w2 & rest & -> & Hw2 & Hk)%IH2)%IH1.
    exists (w1 ++ w2), rest. rewrite <- (assoc_L (++)). repeat split; [| done].
    by exists w1, w2.
  - destruct (pmatch r s k) as [rest |] eqn:Hr.
    + intros [= ->]. apply IH in Hr as (w & rest & -> & Hw & Hk).
      exists w, rest. repeat split; [| done]. by right.
    + intros Hk. exists [], s. repeat split; [| done]. by left.
Qed.

Lemma pmatch_complete (r : pattern) (w rest : str) (k : str -> option str) :
  matches r w -> is_Some (k rest) -> is_Some (pmatch r (w ++ rest) k).
Proof.
  revert w rest k. induction r as [v | p lo hi | r1 IH1 r2 IH2 | r IH]; intros w rest k;
    cbn [pmatch matches].
  - intros -> Hk. by rewrite (proj2 (strip_prefix_spec v (v ++ rest) rest) eq_refl).
  - apply match_greedy_complete.
  - intros (w1 & w2 & -> & Hw1 & Hw2) Hk. rewrite <- (assoc_L (++)).
    apply IH1; [done |]. by apply IH2.
  - intros Hw Hk. destruct (pmatch r (w ++ rest) k) as [out |] eqn:Hr; [done |].
    destruct Hw as [-> | Hw]; [done |].
    destruct (IH w rest k Hw Hk) as [out Hout]. congruence.
Qed.

(** A search returns the match the matcher finds at the first position
    where it finds one. *)
Lemma psearch_some (r : pattern) (s m : str) :
  psearch r s = Some m ->
  exists pre post, s = pre ++ m ++ post /\ pmatch r (m ++ post) Some = Some post /\
    forall pre' w post', s = pre' ++ w ++ post' -> matches r w ->
      (length pre <= length pre')%nat.
Proof.
  revert m. induction s as [| c s IH]; intros m; cbn [psearch].
  - destruct (pmatch r [] Some) as [rest |] eqn:Hr; [| discriminate]. intros [= <-].
    pose proof Hr as (w & rest' & Hs & _ & [= ->])%pmatch_sound.
    symmetry in Hs. apply app_eq_nil in Hs as [-> ->]. simpl.
    exists [], []. repeat split; [done |]. intros; simpl; lia.
  - destruct (pmatch r (c :: s) Some) as [rest |] eqn:Hr.
    + intros [= <-]. pose proof Hr as (w & rest' & Hs & _ & [= ->])%pmatch_sound.
      change (S (length s)) with (length (c :: s)).
      rewrite Hs, length_app, Nat.add_sub, take_app_length. rewrite Hs in Hr.
      exists [], rest. repeat split; [done |]. intros; simpl; lia.
    + intros (pre & post & -> & Hm & Hleft)%IH.
      exists (c :: pre), post. repeat split; [done |].
      intros [| c' pre'] w post' Hs Hw.
      * simpl in Hs. rewrite Hs in Hr.
        by destruct (pmatch_complete r w post' Some Hw (mk_is_Some _ _ eq_refl)) as [? ?];
          congruence.
      * injection Hs as -> Hs. specialize (Hleft pre' w post' Hs Hw). simpl. lia.
Qed.

Lemma psearch_none (r : pattern) (s : str) :
  psearch r s = None ->
  forall pre w post, s = pre ++ w ++ post -> ~ matches r w.
Proof.
  induction s as [| c s IH]; cbn [psearch].
  - destruct (pmatch r [] Some) as [rest |] eqn:Hr; [discriminate |].
    intros _ pre w post Hs Hw. symmetry in Hs.
    apply app_eq_nil in Hs as [-> [-> ->]%app_eq_nil].
    destruct (pmatch_complete r [] [] Some Hw (mk_is_Some _ _ eq_refl)) as [? ?].
    simpl in *. congruence.
  - destruct (pmatch r (c :: s) Some) as [rest |] eqn:Hr; [discriminate |].
    intros Hnone [| c' pre] w post Hs Hw.
    + simpl in Hs. rewrite Hs in Hr.
      destruct (pmatch_complete r w post Some Hw (mk_is_Some _ _ eq_refl)) as [? ?].
      congruence.
    + injection Hs as -> Hs. by apply (IH Hnone pre w post).
Qed.

Lemma psearch_found (r : pattern) (text : str) :
  ~ matches r [] -> found_in r text (default [] (psearch r text)).
Proof.
  intros Hnil. destruct (psearch r text) as [m |] eqn:Hm; simpl.
  - left. apply psearch_some in Hm as (pre & post & -> & Hr & Hleft).
    apply pmatch_sound in Hr as (w & rest & Hs & Hw & [= ->]).
    apply app_inv_tail in Hs as ->. split; [by intros -> |].
    by exists pre, post.
  - right. split; [done |]. by apply psearch_none.
Qed.

(** A repetition without upper bound takes all it can when nothing comes
    after it in the pattern. *)
Lemma match_greedy_maximal (p : N -> bool) (s : str) (lo : nat) (out : str) :
  match_greedy p s lo None Some = Some out -> stops_before p out.
Proof.
  revert lo. induction s as [| c s IH]; intros lo; cbn [match_greedy].
  - destruct lo; [by intros [= <-] | discriminate].
  - destruct (p c) eqn:Hc; cbn [may_take andb option_map].
    + destruct (match_greedy p s (pred lo) None Some) as [rest |] eqn:Hin.
      * intros [= ->]. by apply (IH (pred lo)).
      * destruct lo; [| discriminate].
        destruct (match_greedy_complete p [] s 0 None Some) as [rest Hrest];
          [by repeat split | done |].
        simpl in Hin, Hrest. congruence.
    + destruct lo; [by intros [= <-] | discriminate].
Qed.

Lemma pmatch_cat (r1 r2 : pattern) (s : str) (k : str -> option str) (out : str) :
  pmatch (PCat r1 r2) s k = Some out ->
  exists w rest, s = w ++ rest /\ matches r1 w /\ pmatch r2 rest k = Some out.
Proof. cbn [pmatch]. apply pmatch_sound. Qed.

Lemma matches_many (p : N -> bool) (w : str) :
  matches (many p) w -> w <> [] /\ Forall (fun c => p c = true) w.
Proof. intros (Hw & Hlen & _). split; [| done]. destruct w; [simpl in Hlen; lia | done]. Qed.

Lemma filter_all_length (p : N -> bool) (w : str) :
  Forall (fun c => p c = true) w -> length (List.filter p w) = length w.
Proof.
  induction 1 as [| c w Hc _ IH]; [done |]. simpl. rewrite Hc. simpl. by rewrite IH.
Qed.

Lemma filter_length_app (p : N -> bool) (a b : str) :
  length (List.filter p (a ++ b)) =
  (length (List.filter p a) + length (List.filter p b))%nat.
Proof. by rewrite List.filter_app, length_app. Qed.
End Patterns.

(** The number of digits of a string. *)
Definition count_digits (V : UnicodeCase) (s : str) : nat :=
  length (List.filter (AnalyzerRest.is_digit_char V) s).

Section ContactData.
Import AnalyzerRest.
Context (U : Unicode) (V : UnicodeCase).

Lemma phone_match_digits (w : str) :
  matches (phone_re U V) w -> (10 <= count_digits V w)%nat.
Proof.
  unfold phone_re, exactly, count_digits. cbn [matches].
  intros (w0 & ? & -> & _ & w1 & ? & -> & _ & w2 & ? & -> & _ &
          w3 & ? & -> & (H3 & L3 & _) & w4 & ? & -> & _ & w5 & ? & -> & _ &
          w6 & ? & -> & _ & w7 & ? & -> & (H7 & L7 & _) & w8 & ? & -> & _ &
          w9 & w10 & -> & _ & (H10 & L10 & _)).
  rewrite !filter_length_app.
  rewrite (filter_all_length _ w3 H3), (filter_all_length _ w7 H7),
    (filter_all_length _ w10 H10). lia.
Qed.

(** X19: each field of [extract_personal_info] is the first match of its
    pattern in the text, that is a non-empty part of the text the pattern
    matches such that no match starts before it, and it is the empty
    string exactly when no part of the text matches. *)
Theorem personal_info_is_first_match (text : str) :
  found_in (email_re U) text (email (extract_personal_info U V text)) /\
  found_in (phone_re U V) text (phone (extract_personal_info U V text)) /\
  found_in (linkedin_re U) text (linkedin (extract_personal_info U V text)).
Proof.
  unfold extract_personal_info. cbn [email phone linkedin].
  split; [| split]; apply psearch_found.
  - intros (name & ? & Hs & [Hname _]%matches_many & _).
    symmetry in Hs. by apply app_eq_nil in Hs as [-> _].
  - intros Hm%phone_match_digits. unfold count_digits in Hm. simpl in Hm. lia.
  - intros (site & ? & Hs & Hsite & _). cbn [matches] in Hsite. subst site. done.
Qed.

(** X20: an email address that [extract_personal_info] returns is
    [name@domain.tld], all three parts non-empty, name and domain of
    word characters, periods and hyphens, the last part of word
    characters only, and it is not cut short: no word character follows
    it in the text. *)
Theorem email_is_an_address (text : str) :
  email (extract_personal_info U V text) <> [] ->
  exists pre name domain tld post,
    text = pre ++ (name ++ py "@" ++ domain ++ py "." ++ tld) ++ post /\
    email (extract_personal_info U V text) = name ++ py "@" ++ domain ++ py "." ++ tld /\
    name <> [] /\ domain <> [] /\ tld <> [] /\
    Forall (fun c => name_char U c = true) name /\
    Forall (fun c => name_char U c = true) domain /\
    Forall (fun c => is_word U c = true) tld /\
    stops_before (is_word U) post.
Proof.
  unfold extract_personal_info. cbn [email].
  destruct (psearch (email_re U) text) as [m |] eqn:Hm; [intros _ | done]. cbn [default].
  apply psearch_some in Hm as (pre & post & -> & Hr & _). unfold email_re in Hr.
  apply pmatch_cat in Hr as (name & r1 & Hs & [Hn1 Hn2]%matches_many & Hr).
  apply pmatch_cat in Hr as (at_sign & r2 & -> & Hat & Hr).
  apply pmatch_cat in Hr as (domain & r3 & -> & [Hd1 Hd2]%matches_many & Hr).
  apply pmatch_cat in Hr as (dot & r4 & -> & Hdot & Hr).
  pose proof Hr as Hstop%match_greedy_maximal.
  apply pmatch_sound in Hr as (tld & r5 & -> & [Ht1 Ht2]%matches_many & [= ->]).
  cbn [matches] in Hat, Hdot. subst at_sign dot.
  assert (m = name ++ py "@" ++ domain ++ py "." ++ tld) as ->.
  { apply (app_inv_tail post). rewrite Hs. by rewrite <- !(assoc_L (++)). }
  by exists pre, name, domain, tld, post.
Qed.

(** X21: a LinkedIn address that [extract_personal_info] returns is
    [linkedin.com/in/] in lower case followed by a non-empty profile name
    of word characters and hyphens, and the profile name is taken whole:
    no such character follows it in the text. *)
Theorem linkedin_is_a_profile_path (text : str) :
  linkedin (extract_personal_info U V text) <> [] ->
  exists pre profile post,
    text = pre ++ (py "linkedin.com/in/" ++ profile) ++ post /\
    linkedin (extract_personal_info U V text) = py "linkedin.com/in/" ++ profile /\
    profile <> [] /\
    Forall (fun c => slug_char U c = true) profile /\
    stops_before (slug_char U) post.
Proof.
  unfold extract_personal_info. cbn [linkedin].
  destruct (psearch (linkedin_re U) text) as [m |] eqn:Hm; [intros _ | done]. cbn [default].
  apply psearch_some in Hm as (pre & post & -> & Hr & _). unfold linkedin_re in Hr.
  apply pmatch_cat in Hr as (site & r1 & Hs & Hsite & Hr).
  pose proof Hr as Hstop%match_greedy_maximal.
  apply pmatch_sound in Hr as (profile & r2 & -> & [Hp1 Hp2]%matches_many & [= ->]).
  cbn [matches] in Hsite. subst site.
  assert (m = py "linkedin.com/in/" ++ profile) as ->.
  { apply (app_inv_tail post). rewrite Hs. by rewrite <- !(assoc_L (++)). }
  by exists pre, profile, post.
Qed.

(** X22: a telephone number that [extract_personal_info] returns has at
    least ten digits, so a text with fewer than ten digits has no
    telephone number. *)
Theorem phone_needs_ten_digits (text : str) :
  (phone (extract_personal_info U V text) <> [] ->
   (10 <= count_digits V (phone (extract_personal_info U V text)))%nat) /\
  ((count_digits V text < 10)%nat -> phone (extract_personal_info U V text) = []).
Proof.
  unfold extract_personal_info. cbn [phone].
  destruct (psearch_found (phone_re U V) text) as [(_ & pre & post & Hs & Hm & _) | [-> _]];
    [intros Hm%phone_match_digits; unfold count_digits in Hm; simpl in Hm; lia | | done].
  apply phone_match_digits in Hm. split; [done |].
  rewrite Hs at 1. unfold count_digits in *. rewrite !filter_length_app. lia.
Qed.
End ContactData.

Definition contact_text : str :=
  py "Jane Doe | jane.doe@example.com | +1-555-123-4567 | linkedin.com/in/jane-doe | 2020".

Lemma email_is_an_address_witness :
  exists pre name domain tld post,
    contact_text = pre ++ (name ++ py "@" ++ domain ++ py "." ++ tld) ++ post /\
    AnalyzerRest.email (AnalyzerRest.extract_personal_info symbols_only caseless contact_text) =
      name ++ py "@" ++ domain ++ py "." ++ tld /\
    name <> [] /\ domain <> [] /\ tld <> [] /\
    Forall (fun c => AnalyzerRest.name_char symbols_only c = true) name /\
    Forall (fun c => AnalyzerRest.name_char symbols_only c = true) domain /\
    Forall (fun c => PyStr.is_word symbols_only c = true) tld /\
    stops_before (PyStr.is_word symbols_only) post.
Proof. apply (email_is_an_address symbols_only caseless contact_text). by vm_compute. Defined.

Lemma linkedin_is_a_profile_path_witness :
  exists pre profile post,
    contact_text = pre ++ (py "linkedin.com/in/" ++ profile) ++ post /\
    AnalyzerRest.linkedin (AnalyzerRest.extract_personal_info symbols_only caseless contact_text) =
      py "linkedin.com/in/" ++ profile /\
    profile <> [] /\
    Forall (fun c => AnalyzerRest.slug_char symbols_only c = true) profile /\
    stops_before (AnalyzerRest.slug_char symbols_only) post.
Proof. apply (linkedin_is_a_profile_path symbols_only caseless contact_text). by vm_compute. Defined.

Lemma phone_needs_ten_digits_witness :
  (10 <= count_digits caseless
           (AnalyzerRest.phone
              (AnalyzerRest.extract_personal_info symbols_only caseless contact_text)))%nat /\
  AnalyzerRest.phone
    (AnalyzerRest.extract_personal_info symbols_only caseless (py "Call 555-1234 today")) = [].
Proof.
  split.
  - apply (proj1 (phone_needs_ten_digits symbols_only caseless contact_text)). by vm_compute.
  - apply (proj2 (phone_needs_ten_digits symbols_only caseless (py "Call 555-1234 today"))).
    vm_compute. lia.
Defined.

(** ** The document type *)
Section DocumentType.
Import PyFloat AnalyzerRest.
Context (U : Unicode).

(** Every type has keywords. *)
Definition keyworded (types : table) : Prop :=
  Forall (fun entry => snd entry <> []) types.

Lemma set_item_keys {A} (k : str) (v : A) (d : list (str * A)) (x : str * A) :
  x ∈ set_item k v d -> x ∈ d \/ x = (k, v).
Proof.
  induction d as [| [k' v'] d IH]; cbn [set_item].
  - rewrite list_elem_of_singleton. by right.
  - case_bool_decide; rewrite !elem_of_cons; [intuition |].
    intros [-> | [Hin | Hin]%IH]; intuition.
Qed.

Lemma set_item_not_nil {A} (k : str) (v : A) (d : list (str * A)) : set_item k v d <> [].
Proof. destruct d as [| [k' v'] d]; cbn [set_item]; [done |]. by case_bool_decide. Qed.

Lemma set_item_fresh {A} (k : str) (v : A) (d : list (str * A)) :
  k ∉ map fst d -> set_item k v d = d ++ [(k, v)].
Proof.
  induction d as [| [k' v'] d IH]; cbn [set_item map fst]; [done |].
  rewrite not_elem_of_cons. intros [Hne Hd]. rewrite bool_decide_eq_false_2 by done.
  by rewrite IH.
Qed.

Lemma type_score_ok (text : str) (keywords : list str) :
  keywords <> [] -> exists score, type_score U text keywords = Ok score.
Proof.
  intros Hk. unfold type_score. destruct keywords; [done |]. simpl length.
  rewrite (proj2 (Z.eqb_neq _ 0)) by lia. eauto.
Qed.

(** The loop over the types: it ends with a score for each type when all
    types have keywords, and with [ZeroDivisionError] otherwise. *)
Lemma type_scores_run (types : table) (text : str) (scores : list (str * float)) :
  (keyworded types ->
   exists out, type_scores U types text scores = Ok out /\
     (types <> [] \/ scores <> [] -> out <> []) /\
     Forall (fun item => item ∈ scores \/ fst item ∈ map fst types) out) /\
  (~ keyworded types -> type_scores U types text scores = Raise division_by_zero).
Proof.
  revert scores. induction types as [| [doc_type keywords] types IH]; intros scores.
  { split; [intros _ | intros []; constructor]. exists scores. cbn [type_scores].
    repeat split; [intuition |]. apply list.Forall_forall. by left. }
  cbn [type_scores]. unfold bind.
  destruct keywords as [| keyword keywords].
  { split; [by intros H%Forall_inv |]. intros _. unfold type_score. done. }
  destruct (type_score_ok text (keyword :: keywords)) as [score ->]; [done |].
  destruct (IH (set_item doc_type score scores)) as [Hok Hbad]. split.
  - intros Hall%Forall_inv_tail. destruct (Hok Hall) as (out & -> & Hne & Hkeys).
    exists out. repeat split.
    + intros _. apply Hne. right. apply set_item_not_nil.
    + eapply list.Forall_impl; [apply Hkeys |]. cbn beta. intros item [Hin | Hin].
      * apply set_item_keys in Hin as [Hin | ->]; [by left |]. right. left.
      * right. by right.
  - intros Hnot. apply Hbad. intros Hall. apply Hnot. by constructor.
Qed.

Lemma type_scores_dict (types : table) (text : str) (scores out : list (str * float)) :
  NoDup (map fst scores ++ map fst types) ->
  type_scores U types text scores = Ok out ->
  exists new, out = scores ++ new /\
    Forall2 (fun entry item => fst item = fst entry /\
               type_score U text (snd entry) = Ok (snd item)) types new.
Proof.
  revert scores. induction types as [| [doc_type keywords] types IH]; intros scores Hdup;
    cbn [type_scores].
  { intros [= <-]. exists []. by rewrite app_nil_r. }
  unfold bind. destruct (type_score U text keywords) as [score | e] eqn:Hscore; [| done].
  cbn [map fst] in Hdup.
  assert (doc_type ∉ map fst scores) as Hfresh.
  { apply list.NoDup_app in Hdup as (_ & Hdis & _). intros Hin. apply (Hdis _ Hin). left. }
  rewrite set_item_fresh by done. intros Hrun. apply IH in Hrun as (new & -> & Hnew).
  - exists ((doc_type, score) :: new). rewrite <- (assoc_L (++)). split; [done |].
    by constructor.
  - rewrite map_app. cbn [map fst]. by rewrite <- (assoc_L (++)).
Qed.

Lemma max_by_score_in (best : str * float) (items : list (str * float)) :
  max_by_score best items ∈ best :: items.
Proof.
  revert best. induction items as [| item items IH]; intros best; cbn [max_by_score].
  - left.
  - specialize (IH (if float_gt (snd item) (snd best) then item else best)).
    apply elem_of_cons in IH as [-> | IH].
    + destruct (float_gt (snd item) (snd best)); [right; left | left].
    + right. by right.
Qed.

(** X23: what a call of [detect_document_type] comes to. Without the
    attribute [document_types] it raises [AttributeError]; with an empty
    table [max] raises [ValueError]; a type without keywords makes it
    raise [ZeroDivisionError]; in every other case it returns
    ["unknown"] or one of the types of the table. *)
Theorem detect_document_type_outcomes (self : ResumeAnalyzer) (text : str) :
  match document_types self with
  | None =>
      detect_document_type U self text =
        Raises (no_attribute (py "ResumeAnalyzer") (py "document_types"))
  | Some [] => detect_document_type U self text = RaisesValueError
  | Some types =>
      (~ keyworded types -> detect_document_type U self text = Raises division_by_zero) /\
      (keyworded types ->
       exists doc_type, detect_document_type U self text = Returns doc_type /\
         (doc_type = py "unknown" \/ doc_type ∈ map fst types))
  end.
Proof.
  unfold detect_document_type. destruct (document_types self) as [types |]; [| done].
  cbn [getattr]. destruct types as [| entry types]; [done |].
  destruct (type_scores_run (entry :: types) (lower U text) []) as [Hok Hbad]. split.
  - intros Hnot. by rewrite (Hbad Hnot).
  - intros Hall. destruct (Hok Hall) as (out & -> & Hne & Hkeys).
    destruct out as [| first rest]; [by destruct Hne; [left |] |].
    cbv zeta. eexists. split; [reflexivity |].
    destruct (float_gt _ (literal 15 100)); [| by left]. right.
    rewrite list.Forall_forall in Hkeys.
    destruct (Hkeys _ (max_by_score_in first rest)) as [Hin | Hin]; [| done].
    by apply elem_of_nil in Hin.
Qed.

(** [float_gt] compares the numbers, whatever exponent they are brought to. *)
Lemma float_gt_scaled (E : Z) (x y : float) :
  E <= fe x -> E <= fe y ->
  float_gt x y = (fm y * 2 ^ (fe y - E) <? fm x * 2 ^ (fe x - E)).
Proof.
  intros Hx Hy. unfold float_gt. set (e := Z.min (fe x) (fe y)).
  assert (E <= e) as He by (unfold e; lia).
  replace (fe y - E) with ((fe y - e) + (e - E)) by lia.
  replace (fe x - E) with ((fe x - e) + (e - E)) by lia.
  rewrite !Z.pow_add_r by (unfold e; lia).
  assert (0 < 2 ^ (e - E)) as Hk by (apply Z.pow_pos_nonneg; lia).
  set (k := 2 ^ (e - E)) in *. set (a := fm y * 2 ^ (fe y - e)). set (b := fm x * 2 ^ (fe x - e)).
  rewrite !Z.mul_assoc. fold a b.
  destruct (Z.ltb_spec a b), (Z.ltb_spec (a * k) (b * k)); try done; nia.
Qed.

Lemma float_gt_trans (x y z : float) :
  float_gt x y = true -> float_gt y z = true -> float_gt x z = true.
Proof.
  set (E := Z.min (fe x) (Z.min (fe y) (fe z))).
  rewrite (float_gt_scaled E x y), (float_gt_scaled E y z), (float_gt_scaled E x z)
    by (unfold E; lia).
  rewrite !Z.ltb_lt. lia.
Qed.

Lemma float_gt_le_trans (x y z : float) :
  float_gt x y = true -> float_gt z y = false -> float_gt x z = true.
Proof.
  set (E := Z.min (fe x) (Z.min (fe y) (fe z))).
  rewrite (float_gt_scaled E x y), (float_gt_scaled E z y), (float_gt_scaled E x z)
    by (unfold E; lia).
  rewrite !Z.ltb_lt, Z.ltb_ge. lia.
Qed.

Lemma float_le_gt_trans (x y z : float) :
  float_gt x y = false -> float_gt x z = true -> float_gt y z = true.
Proof.
  set (E := Z.min (fe x) (Z.min (fe y) (fe z))).
  rewrite (float_gt_scaled E x y), (float_gt_scaled E x z), (float_gt_scaled E y z)
    by (unfold E; lia).
  rewrite !Z.ltb_lt, Z.ltb_ge. lia.
Qed.

(** [max] returns the first of the items with the greatest score: the
    items before it have a smaller score, those after it none greater. *)
Lemma max_by_score_spec (best : str * float) (items : list (str * float)) :
  exists before after,
    best :: items = before ++ max_by_score best items :: after /\
    Forall (fun item => float_gt (snd (max_by_score best items)) (snd item) = true) before /\
    Forall (fun item => float_gt (snd item) (snd (max_by_score best items)) = false) after.
Proof.
  revert best. induction items as [| item items IH]; intros best; cbn [max_by_score].
  { by exists [], []. }
  destruct (float_gt (snd item) (snd best)) eqn:Hgt.
  - destruct (IH item) as (before & after & Hsplit & Hbefore & Hafter).
    set (r := max_by_score item items) in *. clearbody r.
    exists (best :: before), after. rewrite Hsplit. split; [done |]. split; [| done].
    constructor; [| done].
    destruct before as [| item' before]; cbn [app] in Hsplit; injection Hsplit as Hhead _.
    + by rewrite <- Hhead.
    + subst item'. eapply float_gt_trans; [apply (Forall_inv Hbefore) | done].
  - destruct (IH best) as (before & after & Hsplit & Hbefore & Hafter).
    set (r := max_by_score best items) in *. clearbody r.
    destruct before as [| best' before]; cbn [app] in Hsplit;
      injection Hsplit as Hhead Htail.
    + subst r items. exists [], (item :: after). split; [done |]. split; [constructor |].
      by constructor.
    + subst best' items. exists (best :: item :: before), after.
      split; [done |]. split; [| done].
      pose proof (Forall_inv Hbefore) as Hbest. constructor; [done |].
      constructor; [| by apply Forall_inv_tail in Hbefore].
      by apply (float_gt_le_trans _ (snd best)).
Qed.

(** A text without any keyword scores zero. *)
Lemma type_score_zero (text : str) (keywords : list str) :
  keywords <> [] -> Forall (fun keyword => contains keyword text = false) keywords ->
  type_score U text keywords = Ok zero.
Proof.
  intros Hne Hnone. unfold type_score.
  assert (List.filter (fun keyword => contains keyword text) keywords = []) as ->.
  { clear Hne. induction Hnone as [| keyword keywords Hk _ IH]; [done |].
    cbn [List.filter]. by rewrite Hk. }
  destruct keywords; [done |]. simpl length. rewrite (proj2 (Z.eqb_neq _ 0)) by lia.
  reflexivity.
Qed.

(** The scores of the loop are the scores of the types, in their order. *)
Definition scored (text : str) (entry : str * list str) (item : str * float) : Prop :=
  fst item = fst entry /\ type_score U text (snd entry) = Ok (snd item).

Lemma type_scores_table (types : table) (text : str) :
  keyworded types -> NoDup (map fst types) ->
  exists out, type_scores U types text [] = Ok out /\ Forall2 (scored text) types out.
Proof.
  intros Hall Hdup. destruct (type_scores_run types text []) as [Hok _].
  destruct (Hok Hall) as (out & Hrun & _). exists out. split; [done |].
  by apply type_scores_dict in Hrun as (new & -> & Hnew).
Qed.

(** [doc_type] is the first of the types with the greatest score, which is
    [score]. *)
Definition best_type (types : table) (text : str) (doc_type : str) (score : float) : Prop :=
  exists before keywords after,
    types = before ++ (doc_type, keywords) :: after /\
    type_score U text keywords = Ok score /\
    Forall (fun entry => exists s, type_score U text (snd entry) = Ok s /\
                                   float_gt score s = true) before /\
    Forall (fun entry => exists s, type_score U text (snd entry) = Ok s /\
                                   float_gt s score = false) after.

Lemma scored_Forall (text : str) (P : float -> Prop) (types : table)
    (items : list (str * float)) :
  Forall2 (scored text) types items -> Forall (fun item => P (snd item)) items ->
  Forall (fun entry => exists s, type_score U text (snd entry) = Ok s /\ P s) types.
Proof.
  induction 1 as [| entry item types items [_ Hscore] _ IH]; [done |].
  intros Hitems. constructor; [| by apply IH, (Forall_inv_tail Hitems)].
  exists (snd item). split; [done |]. apply (Forall_inv Hitems).
Qed.

(** The loop gives the scores, and [max] the best type among them. *)
Lemma type_scores_best (types : table) (text : str) :
  types <> [] -> keyworded types -> NoDup (map fst types) ->
  exists first rest,
    type_scores U types text [] = Ok (first :: rest) /\
    best_type types text (fst (max_by_score first rest)) (snd (max_by_score first rest)).
Proof.
  intros Hne Hall Hdup.
  destruct (type_scores_table types text Hall Hdup) as (out & -> & Hout).
  destruct out as [| first rest]; [by apply Forall2_nil_inv_r in Hout |].
  exists first, rest. split; [done |].
  destruct (max_by_score_spec first rest) as (before & after & Hsplit & Hbefore & Hafter).
  set (best := max_by_score first rest) in *. rewrite Hsplit in Hout.
  apply Forall2_app_inv_r in Hout as (tbefore & trest & Htb & Htr & ->).
  apply Forall2_cons_inv_r in Htr as ([doc_type keywords] & tafter & [Hkey Hscore] & Hta & ->).
  cbn [fst snd] in Hkey, Hscore. rewrite Hkey.
  exists tbefore, keywords, tafter. repeat split; [done | |].
  - by apply (scored_Forall _ (fun s => float_gt (snd best) s = true) _ before).
  - by apply (scored_Forall _ (fun s => float_gt s (snd best) = false) _ after).
Qed.

(** The exponent that [ilog2] finds is not above the quotient. *)
Lemma ilog2_lower (p q : Z) :
  0 < p -> 0 < q -> q * 2 ^ Z.max (ilog2 p q) 0 <= p * 2 ^ Z.max (- ilog2 p q) 0.
Proof.
  intros Hp Hq. unfold ilog2.
  destruct (Z.log2_spec p Hp) as [Hp1 _]. destruct (Z.log2_spec q Hq) as [_ Hq2].
  pose proof (Z.log2_nonneg p) as Ha. pose proof (Z.log2_nonneg q) as Hb.
  replace (Z.succ (Z.log2 q)) with (Z.log2 q + 1) in Hq2 by lia.
  set (a := Z.log2 p) in *. set (b := Z.log2 q) in *.
  destruct (Z.leb_spec (q * 2 ^ Z.max (a - b) 0) (p * 2 ^ Z.max (- (a - b)) 0)) as [H | _];
    [done |].
  destruct (decide (1 <= a - b)) as [Hd | Hd].
  - rewrite Z.max_l, Z.max_r, Z.pow_0_r by lia.
    assert (2 ^ (b + 1) * 2 ^ (a - b - 1) = 2 ^ a) as Hpow
      by (rewrite <- Z.pow_add_r by lia; f_equal; lia).
    assert (0 < 2 ^ (a - b - 1)) by (apply Z.pow_pos_nonneg; lia). nia.
  - rewrite Z.max_r, Z.max_l, Z.pow_0_r by lia.
    assert (2 ^ a * 2 ^ (- (a - b - 1)) = 2 ^ (b + 1)) as Hpow
      by (rewrite <- Z.pow_add_r by lia; f_equal; lia).
    assert (0 < 2 ^ (- (a - b - 1))) by (apply Z.pow_pos_nonneg; lia). nia.
Qed.

Lemma ilog2_ge (p q : Z) : 0 < p -> 0 < q -> q <= 2 * p -> -1 <= ilog2 p q.
Proof.
  intros Hp Hq Hle. unfold ilog2.
  assert (Z.log2 q <= Z.log2 p + 1) as Hd.
  { etrans; [apply Z.log2_le_mono, Hle |]. rewrite Z.log2_double by done. lia. }
  destruct (decide (Z.log2 p - Z.log2 q = -1)) as [-> | Hne]; [| case_match; lia].
  change (Z.max (-1) 0) with 0. change (Z.max (- -1) 0) with 1.
  rewrite (proj2 (Z.leb_le _ _)); lia.
Qed.

(** A quotient of at least one half is rounded to at least one half. *)
Lemma round_ne_ge_half (p q : Z) :
  0 < q -> q <= 2 * p -> 2 ^ 52 <= fm (round_ne p q) /\ -53 <= fe (round_ne p q).
Proof.
  intros Hq Hle. assert (0 < p) as Hp by lia. unfold round_ne.
  rewrite (proj2 (Z.eqb_neq p 0)) by lia. cbv zeta. cbn [fm fe].
  pose proof (ilog2_ge p q Hp Hq Hle) as He. pose proof (ilog2_lower p q Hp Hq) as Hlow.
  set (e := ilog2 p q) in *. rewrite (Z.max_l e (-1022)) by lia.
  split; [| lia].
  set (num := p * 2 ^ Z.max (52 - e) 0). set (den := q * 2 ^ Z.max (- (52 - e)) 0).
  assert (0 < den) as Hden by (unfold den; apply Z.mul_pos_pos; [done | apply Z.pow_pos_nonneg; lia]).
  assert (2 ^ 52 <= num / den) as Hm.
  { apply Z.div_le_lower_bound; [done |]. unfold num, den.
    destruct (decide (e <= 52)) as [Hsmall | Hbig].
    - rewrite (Z.max_l (52 - e)), (Z.max_r (- (52 - e))), Z.pow_0_r by lia.
      destruct (decide (0 <= e)) as [Hpos | Hneg].
      + rewrite Z.max_l, Z.max_r, Z.pow_0_r in Hlow by lia.
        assert (2 ^ e * 2 ^ (52 - e) = 2 ^ 52) as Hpow
          by (rewrite <- Z.pow_add_r by lia; f_equal; lia).
        assert (0 < 2 ^ (52 - e)) by (apply Z.pow_pos_nonneg; lia). nia.
      + assert (e = -1) as -> by lia. change (Z.max (-1) 0) with 0 in Hlow.
        change (Z.max (- -1) 0) with 1 in Hlow.
        change (2 ^ (52 - -1)) with (2 ^ 52 * 2). lia.
    - rewrite (Z.max_r (52 - e)), (Z.max_l (- (52 - e))), Z.pow_0_r by lia.
      rewrite Z.max_l, Z.max_r, Z.pow_0_r in Hlow by lia.
      assert (2 ^ (- (52 - e)) * 2 ^ 52 = 2 ^ e) as Hpow
        by (rewrite <- Z.pow_add_r by lia; f_equal; lia).
      nia. }
  repeat case_match; lia.
Qed.

(** [n / n] is [1.0]. *)
Lemma truediv_same (n : Z) : 0 < n -> truediv n n = Float (2 ^ 52) (-52).
Proof.
  intros Hn. unfold truediv, round_ne. rewrite (proj2 (Z.eqb_neq n 0)) by lia.
  assert (ilog2 n n = 0) as ->.
  { unfold ilog2. rewrite Z.sub_diag. change (Z.max 0 0) with 0.
    change (Z.max (- 0) 0) with 0. by rewrite Z.leb_refl. }
  change (52 - Z.max 0 (-1022)) with 52. cbv zeta.
  change (Z.max 52 0) with 52. change (Z.max (- 52) 0) with 0.
  rewrite Z.pow_0_r, Z.mul_1_r, (Z.mul_comm n), Z.div_mul, Z.mod_mul by lia.
  rewrite (proj2 (Z.ltb_lt (2 * 0) n)) by lia. done.
Qed.

(** What is at least one half is above the threshold [0.15]. *)
Lemma float_gt_threshold (x : float) :
  2 ^ 52 <= fm x -> -53 <= fe x -> float_gt x (literal 15 100) = true.
Proof.
  intros Hm He. change (literal 15 100) with (Float 5404319552844595 (-55)).
  rewrite (float_gt_scaled (-55)) by (cbn [fe]; lia). cbn [fm fe].
  apply Z.ltb_lt. change (2 ^ (-55 - -55)) with 1.
  assert (2 ^ 2 <= 2 ^ (fe x - -55)) as Hpow by (apply Z.pow_le_mono_r; lia).
  change (2 ^ 2) with 4 in Hpow. change (2 ^ 52) with 4503599627370496 in Hm. nia.
Qed.

(** A type of which the text has every keyword scores above the
    threshold. *)
Lemma type_score_full (text : str) (keywords : list str) :
  keywords <> [] -> Forall (fun keyword => contains keyword text = true) keywords ->
  exists score, type_score U text keywords = Ok score /\
    float_gt score (literal 15 100) = true.
Proof.
  intros Hne Hall. unfold type_score.
  assert (List.filter (fun keyword => contains keyword text) keywords = keywords) as ->.
  { clear Hne. induction Hall as [| keyword keywords Hk _ IH]; [done |].
    cbn [List.filter]. by rewrite Hk, IH. }
  set (n := Z.of_nat (length keywords)).
  assert (0 < n) as Hn by (unfold n; destruct keywords; [done | simpl length; lia]).
  rewrite (proj2 (Z.eqb_neq n 0)) by lia. rewrite truediv_same by done.
  eexists. split; [reflexivity |].
  change (float_mul (Float (2 ^ 52) (-52)) (literal 7 10))
    with (Float 6305039478318694 (-53)).
  set (frequency := truediv n (Z.of_nat (count_words U text false) + 1)).
  assert (0 <= fm frequency) as Hf by (apply PyFloatFacts.round_ne_nonneg; lia).
  set (y := float_mul frequency (literal 3 10)).
  assert (0 <= fm y) as Hy.
  { unfold y, float_mul. change (literal 3 10) with (Float 5404319552844595 (-54)).
    cbn [fm fe]. pose proof (PyFloatFacts.pow2_pos (fe frequency + -54)).
    apply PyFloatFacts.round_ne_nonneg; [nia | apply PyFloatFacts.pow2_pos]. }
  clearbody y. unfold add. cbn [fm fe].
  set (e := Z.min 0 (Z.min (-53) (fe y))).
  assert (0 < 2 ^ (-53 - e)) as H1 by (apply Z.pow_pos_nonneg; unfold e; lia).
  assert (0 < 2 ^ (fe y - e)) as H2 by (apply Z.pow_pos_nonneg; unfold e; lia).
  assert (2 ^ (- e) = 2 ^ 53 * 2 ^ (-53 - e)) as H3
    by (rewrite <- Z.pow_add_r by (unfold e; lia); f_equal; lia).
  change (2 ^ 53) with 9007199254740992 in H3.
  destruct (round_ne_ge_half
              (6305039478318694 * 2 ^ (-53 - e) + fm y * 2 ^ (fe y - e)) (2 ^ (- e)))
    as [Hm He]; [lia | nia |].
  by apply float_gt_threshold.
Qed.

(** With every score zero the loop ends with zeros. *)
Lemma type_scores_zero (types : table) (text : str) (scores : list (str * float)) :
  keyworded types ->
  Forall (fun entry => Forall (fun keyword => contains keyword text = false) (snd entry))
    types ->
  Forall (fun item => snd item = zero) scores ->
  exists out, type_scores U types text scores = Ok out /\
    (types <> [] \/ scores <> [] -> out <> []) /\
    Forall (fun item => snd item = zero) out.
Proof.
  revert scores. induction types as [| [doc_type keywords] types IH];
    intros scores Hall Hnone Hzero; cbn [type_scores].
  { exists scores. split; [done |]. split; [intuition | done]. }
  pose proof (Forall_inv Hall) as Hk. pose proof (Forall_inv Hnone) as Hn.
  cbn [snd] in Hk, Hn. rewrite (type_score_zero text keywords Hk Hn). unfold bind.
  destruct (IH (set_item doc_type zero scores)) as (out & -> & Hne & Hout).
  - by apply Forall_inv_tail in Hall.
  - by apply Forall_inv_tail in Hnone.
  - apply list.Forall_forall. intros item [Hin | ->]%set_item_keys; [| done].
    rewrite list.Forall_forall in Hzero. by apply Hzero.
  - exists out. split; [done |]. split; [| done].
    intros _. apply Hne. right. apply set_item_not_nil.
Qed.

(** X24: with a table of document types that all have keywords,
    [detect_document_type] returns the first of the types with the
    greatest score if this score is above 0.15, and ["unknown"]
    otherwise. *)
Theorem detect_document_type_returns_best (self : ResumeAnalyzer) (types : table)
    (text : str) :
  document_types self = Some types -> types <> [] -> keyworded types ->
  NoDup (map fst types) ->
  exists doc_type score,
    best_type types (lower U text) doc_type score /\
    detect_document_type U self text =
      Returns (if float_gt score (literal 15 100) then doc_type else py "unknown").
Proof.
  intros Hattr Hne Hall Hdup. unfold detect_document_type. rewrite Hattr. cbn [getattr].
  destruct (type_scores_best types (lower U text) Hne Hall Hdup)
    as (first & rest & -> & Hbest).
  cbv zeta. by exists (fst (max_by_score first rest)), (snd (max_by_score first rest)).
Qed.

(** X25: a text that has no keyword of any type is of ["unknown"] type. *)
Theorem no_keyword_gives_unknown (self : ResumeAnalyzer) (types : table) (text : str) :
  document_types self = Some types -> types <> [] -> keyworded types ->
  Forall (fun entry =>
            Forall (fun keyword => contains keyword (lower U text) = false) (snd entry))
    types ->
  detect_document_type U self text = Returns (py "unknown").
Proof.
  intros Hattr Hne Hall Hnone. unfold detect_document_type. rewrite Hattr. cbn [getattr].
  destruct (type_scores_zero types (lower U text) [] Hall Hnone (Forall_nil _))
    as (out & -> & Hout & Hzero).
  destruct out as [| first rest]; [by destruct Hout; [left |] |].
  cbv zeta. rewrite list.Forall_forall in Hzero.
  by rewrite (Hzero _ (max_by_score_in first rest)).
Qed.

(** X26: a text that has every keyword of one of the types is never of
    ["unknown"] type: the score of that type is above 0.15, so the type
    with the greatest score is returned. *)
Theorem every_keyword_found_is_detected (self : ResumeAnalyzer) (types : table)
    (text doc_type : str) (keywords : list str) :
  document_types self = Some types -> keyworded types -> NoDup (map fst types) ->
  (doc_type, keywords) ∈ types ->
  Forall (fun keyword => contains keyword (lower U text) = true) keywords ->
  exists found score,
    best_type types (lower U text) found score /\
    float_gt score (literal 15 100) = true /\
    detect_document_type U self text = Returns found.
Proof.
  intros Hattr Hall Hdup Hin Hfull.
  assert (types <> []) as Hne by (intros ->; by apply elem_of_nil in Hin).
  destruct (type_scores_best types (lower U text) Hne Hall Hdup)
    as (first & rest & Hrun & Hbest).
  set (found := fst (max_by_score first rest)) in *.
  set (score := snd (max_by_score first rest)) in *.
  assert (keywords <> []) as Hk.
  { unfold keyworded in Hall. rewrite list.Forall_forall in Hall. apply (Hall _ Hin). }
  destruct (type_score_full (lower U text) keywords Hk Hfull) as (s & Hs & Hgt).
  assert (float_gt score (literal 15 100) = true) as Hscore.
  { destruct Hbest as (before & kws & after & -> & Hkws & Hbefore & Hafter).
    rewrite list.Forall_forall in Hbefore. rewrite list.Forall_forall in Hafter.
    apply elem_of_app in Hin as [Hin | Hin]; [| apply elem_of_cons in Hin as [Hin | Hin]].
    - destruct (Hbefore _ Hin) as (s' & Hs' & Hlt). cbn [snd] in Hs'.
      assert (s' = s) as -> by congruence. by apply (float_gt_trans _ s).
    - injection Hin as _ <-. by assert (score = s) as -> by congruence.
    - destruct (Hafter _ Hin) as (s' & Hs' & Hle). cbn [snd] in Hs'.
      assert (s' = s) as -> by congruence. by apply (float_le_gt_trans s). }
  exists found, score. split; [done |]. split; [done |].
  unfold detect_document_type. rewrite Hattr. cbn [getattr]. rewrite Hrun. cbv zeta.
  fold score found. by rewrite Hscore.
Qed.
End DocumentType.

Definition typed_documents : table :=
  [(py "resume", map py ["experience"; "education"; "skills"]%string);
   (py "invoice", map py ["invoice"; "total"; "due"]%string)].

Definition analyzer_with_documents : ResumeAnalyzer :=
  {| sections := sections __init__;
     document_types := Some typed_documents;
     essential_sections := None |}.

Lemma typed_documents_keyworded : keyworded typed_documents.
Proof. repeat constructor; discriminate. Qed.

Lemma typed_documents_dict : NoDup (map fst typed_documents).
Proof. apply (bool_decide_eq_true_1 _). vm_compute. reflexivity. Qed.

Lemma detect_document_type_returns_best_witness :
  exists doc_type score,
    best_type symbols_only typed_documents
      (PyStr.lower symbols_only (py "Invoice 17: total 200 EUR")) doc_type score /\
    AnalyzerRest.detect_document_type symbols_only analyzer_with_documents
      (py "Invoice 17: total 200 EUR") =
      AnalyzerRest.Returns
        (if AnalyzerRest.float_gt score (AnalyzerRest.literal 15 100)
         then doc_type else py "unknown").
Proof.
  apply (detect_document_type_returns_best symbols_only analyzer_with_documents
           typed_documents (py "Invoice 17: total 200 EUR") eq_refl).
  - discriminate.
  - apply typed_documents_keyworded.
  - apply typed_documents_dict.
Defined.

Lemma no_keyword_gives_unknown_witness :
  AnalyzerRest.detect_document_type symbols_only analyzer_with_documents
    (py "Dear Sir or Madam") = AnalyzerRest.Returns (py "unknown").
Proof.
  apply (no_keyword_gives_unknown symbols_only analyzer_with_documents typed_documents
           (py "Dear Sir or Madam") eq_refl).
  - discriminate.
  - apply typed_documents_keyworded.
  - repeat constructor.
Defined.

Lemma every_keyword_found_is_detected_witness :
  exists found score,
    best_type symbols_only typed_documents
      (PyStr.lower symbols_only (py "Total due for invoice 17")) found score /\
    AnalyzerRest.float_gt score (AnalyzerRest.literal 15 100) = true /\
    AnalyzerRest.detect_document_type symbols_only analyzer_with_documents
      (py "Total due for invoice 17") = AnalyzerRest.Returns found.
Proof.
  apply (every_keyword_found_is_detected symbols_only analyzer_with_documents
           typed_documents (py "Total due for invoice 17") (py "invoice")
           (map py ["invoice"; "total"; "due"]%string) eq_refl).
  - apply typed_documents_keyworded.
  - apply typed_documents_dict.
  - right. left.
  - repeat constructor.
Defined.
